(** * AutoLoadPlan: batch provisioning of treatment plans

    A shallow embedding of [testing/AutoLoadPlan.py]: the audit writer
    [output_status], the entity resolver [load_patient_data], the
    target/dose extraction [merge_dict], the beamset-name collision loop and
    the per-row body of [main], followed by the properties of the batch
    pipeline that hold (or fail) on that code.

    The planning system (patient database, cases, plans, beam operations)
    is an external collaborator: every call into it is answered by a record
    of responses, so each theorem quantifies over all of its answers. The
    rows come from a data frame: a cell is text, a whole number or NaN, and
    the columns [main] uses as names are taken as the cells they are. *)

From Stdlib Require Import String Ascii List ZArith Lia Decimal DecimalString DecimalNat.
From stdpp Require Import base option list gmap strings.

Local Open Scope string_scope.

(** ** Python values and exceptions *)

Module Py.

(** The exception classes the script raises, catches or lets through. *)
Inductive exn :=
| SystemError
| IndexError
| KeyError
| TypeError
| AttributeError
| UnboundLocalError
| IOError
| RuntimeError.

#[global] Instance exn_eq_dec : EqDecision exn.
Proof. solve_decision. Defined.

(** A call either returns a value or raises. *)
Inductive result (A : Type) :=
| Ok (a : A)
| Raise (e : exn).
Arguments Ok {A} a.
Arguments Raise {A} e.

#[global] Instance result_ret : MRet result := fun _ a => Ok a.
#[global] Instance result_bind : MBind result := fun _ _ f r =>
  match r with
  | Ok a => f a
  | Raise e => Raise e
  end.

(** [try: body except E: handler]: only the named class is caught. *)
Definition try_except {A} (body : result A) (E : exn) (handler : result A) : result A :=
  match body with
  | Ok a => Ok a
  | Raise e => if decide (e = E) then handler else Raise e
  end.

(** [l[0]] *)
Definition item0 {A} (l : list A) : result A :=
  match l with
  | x :: _ => Ok x
  | [] => Raise IndexError
  end.

Definition TAB : string := String (ascii_of_nat 9) EmptyString.
Definition NL : string := String (ascii_of_nat 10) EmptyString.
Definition CR : string := String (ascii_of_nat 13) EmptyString.

(** [str(b)] for a bool *)
Definition str_bool (b : bool) : string := if b then "True" else "False".

(** [str(n)] for a non-negative int *)
Definition str_nat (n : nat) : string := NilEmpty.string_of_uint (Nat.to_uint n).

(** [s.zfill(width)] for a string without sign *)
Definition zfill (width : nat) (s : string) : string :=
  String.concat "" (replicate (width - String.length s) "0") +:+ s.

(** [r] written with exactly two decimal digits, for [r] below 100. *)
Definition two_digits (r : nat) : string :=
  String (ascii_of_nat (48 + r / 10)) (String (ascii_of_nat (48 + r mod 10)) EmptyString).

(** [int(s)] for a string of digits *)
Definition parse_nat (s : string) : option nat :=
  Nat.of_uint <$> NilEmpty.uint_of_string s.

(** [s[:n]] *)
Fixpoint take_str (n : nat) (s : string) : string :=
  match n, s with
  | S k, String c s' => String c (take_str k s')
  | _, _ => EmptyString
  end.

(** [c in s] for a one-character [c] *)
Fixpoint mem_char (c : ascii) (s : string) : bool :=
  match s with
  | EmptyString => false
  | String d s' => if Ascii.eqb c d then true else mem_char c s'
  end.

Definition hex_digit (n : nat) : ascii :=
  if (n <? 10)%nat then ascii_of_nat (48 + n) else ascii_of_nat (87 + n).

Definition SQUOTE : ascii := ascii_of_nat 39.
Definition DQUOTE : ascii := ascii_of_nat 34.
Definition BACKSLASH : ascii := ascii_of_nat 92.

Definition esc (c : ascii) : string := String BACKSLASH (String c EmptyString).

(** [repr(s)] of a byte string: the quote is the single quote unless the
    string holds a single quote and no double quote; the backslash and the
    quote are escaped, tab, newline and carriage return get their letters,
    other bytes outside the printable range are written in hexadecimal. *)
Definition repr_char (quote c : ascii) : string :=
  let n := nat_of_ascii c in
  if Ascii.eqb c quote || Ascii.eqb c BACKSLASH then esc c
  else if (n =? 9)%nat then esc "t"%char
  else if (n =? 10)%nat then esc "n"%char
  else if (n =? 13)%nat then esc "r"%char
  else if ((n <? 32) || (127 <=? n))%nat
       then String BACKSLASH (String "x"%char
              (String (hex_digit (n / 16)) (String (hex_digit (n mod 16)) EmptyString)))
  else String c EmptyString.

Fixpoint repr_body (quote : ascii) (s : string) : string :=
  match s with
  | EmptyString => EmptyString
  | String c s' => repr_char quote c +:+ repr_body quote s'
  end.

Definition repr_str (s : string) : string :=
  let quote : ascii :=
    if mem_char SQUOTE s && negb (mem_char DQUOTE s) then DQUOTE else SQUOTE in
  String quote (repr_body quote s) +:+ String quote EmptyString.

(** [str(l)] for a list of strings *)
Definition str_list (l : list string) : string :=
  "[" +:+ String.concat ", " (map repr_str l) +:+ "]".

(** [s.replace(old, new)] for a non-empty [old]: occurrences are replaced
    left to right, without overlap. [skip] counts the characters of a
    matched occurrence still to be dropped. *)
Fixpoint replace_from (old new : string) (skip : nat) (s : string) : string :=
  match s with
  | EmptyString => EmptyString
  | String c s' =>
      match skip with
      | S k => replace_from old new k s'
      | O =>
          if String.prefix old s
          then new +:+ replace_from old new (String.length old - 1) s'
          else String c (replace_from old new 0 s')
      end
  end.

Definition str_replace (old new s : string) : string := replace_from old new 0 s.

(** [str(z)] for an int *)
Definition str_Z (z : Z) : string := NilZero.string_of_int (Z.to_int z).

(** A value handed over where a name is expected: text, or something that
    is no text (an int, the missing value NaN), kept as what [str] and
    [format] make of it. *)
Inductive value :=
| Text (s : string)
| NotText (shown : string).

(** [str(v)], ['{}'.format(v)] *)
Definition str_value (v : value) : string :=
  match v with
  | Text s => s
  | NotText shown => shown
  end.

(** [n == v] for a text [n]: text equals only text. *)
Definition eq_text (n : string) (v : value) : bool :=
  match v with
  | Text s => bool_decide (n = s)
  | NotText _ => false
  end.

(** [a + b] with a text on one side: a value that is no text is refused. *)
Definition text_of_value (v : value) : result string :=
  match v with
  | Text s => Ok s
  | NotText _ => Raise TypeError
  end.

End Py.

(** ** The audit writer: [output_status] *)

Module Audit.
Import Py.

(** [os.path] of the host, used only to derive the name of the output
    file from the name of the input file. *)
Class OsPath := {
  os_path_dirname : string → string;
  os_path_join : string → string → string
}.

(** The arguments of [output_status] after [path] and [input_filename].
    [script_status] is [None] or the error list of the entity resolver. *)
Record RowOutcome := {
  patient_id : string;
  case_name : string;
  plan_name : string;
  beamset_name : string;
  patient_load : bool;
  planning_structs : bool;
  beams_load : bool;
  clinical_goals_load : bool;
  plan_optimization_strategy_load : bool;
  optimization_complete : bool;
  script_status : option (list string)
}.

Definition SEP : string := "," +:+ TAB.

Definition header : string :=
  "PatientID" +:+ SEP +:+
  "Case" +:+ SEP +:+
  "Plan" +:+ SEP +:+
  "Beamset" +:+ SEP +:+
  "Patient Loaded" +:+ SEP +:+
  "Planning Structs Loaded" +:+ SEP +:+
  "Beams Loaded" +:+ SEP +:+
  "Clinical Goals Loaded" +:+ SEP +:+
  "Optimization Strategy Loaded" +:+ SEP +:+
  "Optimization Completed" +:+ SEP +:+
  "Plan Complete" +:+ NL.

(** [if script_status is None: script_status = 'success'], then [str(..)] *)
Definition str_status (st : option (list string)) : string :=
  match st with
  | None => "success"
  | Some errors => str_list errors
  end.

Definition output_message (o : RowOutcome) : string :=
  patient_id o +:+ SEP +:+
  case_name o +:+ SEP +:+
  plan_name o +:+ SEP +:+
  beamset_name o +:+ SEP +:+
  str_bool (patient_load o) +:+ SEP +:+
  str_bool (planning_structs o) +:+ SEP +:+
  str_bool (beams_load o) +:+ SEP +:+
  str_bool (clinical_goals_load o) +:+ SEP +:+
  str_bool (plan_optimization_strategy_load o) +:+ SEP +:+
  str_bool (optimization_complete o) +:+ SEP +:+
  str_status (script_status o) +:+ NL.

Section Writer.
Context `{OsPath}.

(** The [path] argument is overwritten on entry, so only the input file
    name decides where the record goes. *)
Definition output_filename (input_filename : string) : string :=
  os_path_join (os_path_dirname input_filename)
               (str_replace ".csv" "_output.txt" input_filename).

(** The file system is a map from file names to contents; a name that is
    not bound does not exist. Writes land in program order. *)
Definition output_status (fs : gmap string string) (input_filename : string)
    (o : RowOutcome) : gmap string string :=
  let output_filename := output_filename input_filename in
  let fs1 :=
    match fs !! output_filename with
    | Some content =>
        if decide (content = "")
        then <[output_filename := header]> fs     (* open w+, write header *)
        else fs                                    (* open a+ *)
    | None => <[output_filename := header]> fs
    end in
  (* open a+, write the record, close *)
  <[output_filename := default "" (fs1 !! output_filename) +:+ output_message o]> fs1.

(** The files once the output file is open, ahead of the record: the
    header is in a file that was missing or empty. *)
Definition open_output (fs : gmap string string) (input_filename : string)
    : gmap string string :=
  let output_filename := output_filename input_filename in
  match fs !! output_filename with
  | Some content =>
      if decide (content = "")
      then <[output_filename := header]> fs
      else fs
  | None => <[output_filename := header]> fs
  end.

(** [output_status] on the values a caller hands over for the four names:
    the record is put together once the file is open, and [+] raises on the
    first name that is no text. The header written by then stays in the
    file. *)
Definition output_status_call (fs : gmap string string) (input_filename : string)
    (patient_id case_name plan_name beamset_name : value)
    (patient_load planning_structs beams_load clinical_goals_load
     plan_optimization_strategy_load optimization_complete : bool)
    (script_status : option (list string))
    : gmap string string * result unit :=
  match
    patient_id ← text_of_value patient_id;
    case_name ← text_of_value case_name;
    plan_name ← text_of_value plan_name;
    beamset_name ← text_of_value beamset_name;
    mret {| patient_id := patient_id;
            case_name := case_name;
            plan_name := plan_name;
            beamset_name := beamset_name;
            patient_load := patient_load;
            planning_structs := planning_structs;
            beams_load := beams_load;
            clinical_goals_load := clinical_goals_load;
            plan_optimization_strategy_load := plan_optimization_strategy_load;
            optimization_complete := optimization_complete;
            script_status := script_status |}
  with
  | Ok o => (output_status fs input_filename o, Ok ())
  | Raise e => (open_output fs input_filename, Raise e)
  end.

End Writer.



(** A POSIX-style [os.path], enough to run the writer on absolute names. *)
Fixpoint dirname_rev (s : list ascii) : list ascii :=
  match s with
  | [] => []
  | c :: s' => if Ascii.eqb c "/"%char then s' else dirname_rev s'
  end.

Definition posix_dirname (s : string) : string :=
  string_of_list_ascii (rev (dirname_rev (rev (list_ascii_of_string s)))).

Definition posix_join (a b : string) : string :=
  if String.prefix "/" b then b else a +:+ "/" +:+ b.

Definition posix : OsPath :=
  {| os_path_dirname := posix_dirname; os_path_join := posix_join |}.

End Audit.

(** ** The entity resolver: [load_patient_data] *)

Module Resolver.
Import Py.

(** Handles of the planning system are opaque; a number stands for each. *)
Definition handle := nat.

(** The answers of the patient database and of the objects it hands out.
    A query returns the list of matching records (names, for examinations
    and plans); an indexer such as [patient.Cases[name]] returns a handle or
    raises. [TreatmentPlans_item] is asked before and after [AddNewPlan];
    its first argument tells whether the plan has been added. *)
Record PatientDB := {
  QueryPatientInfo : string → string → string → list handle;
  LoadPatient : handle → handle;
  Cases_item : handle → string → result handle;
  QueryExaminationInfo : handle → string → result (list string);
  Examinations_item : handle → string → result handle;
  QueryPlanInfo : handle → string → result (list string);
  TreatmentPlans_item : bool → handle → string → result handle;
  AddNewPlan : handle → string → result unit
}.

(** The returned dict, one field per key. *)
Record PatientData := {
  Error : list string;
  Case : option handle;
  Patient : option handle;
  Exam : option handle;
  Plan : option handle
}.

Definition set_Error (e : list string) (d : PatientData) : PatientData :=
  {| Error := e; Case := Case d; Patient := Patient d; Exam := Exam d; Plan := Plan d |}.
Definition set_Case (h : handle) (d : PatientData) : PatientData :=
  {| Error := Error d; Case := Some h; Patient := Patient d; Exam := Exam d; Plan := Plan d |}.
Definition set_Patient (h : handle) (d : PatientData) : PatientData :=
  {| Error := Error d; Case := Case d; Patient := Some h; Exam := Exam d; Plan := Plan d |}.
Definition set_Exam (h : handle) (d : PatientData) : PatientData :=
  {| Error := Error d; Case := Case d; Patient := Patient d; Exam := Some h; Plan := Plan d |}.
Definition set_Plan (h : handle) (d : PatientData) : PatientData :=
  {| Error := Error d; Case := Case d; Patient := Patient d; Exam := Exam d; Plan := Some h |}.

(** [patient_data['Error'].append(msg)] *)
Definition append_Error (msg : string) (d : PatientData) : PatientData :=
  set_Error (Error d ++ [msg]) d.

Definition patient_not_found (first_name last_name patient_id : string) : string :=
  "Patient " +:+ first_name +:+ " " +:+ last_name +:+ ", ID: " +:+ patient_id +:+ " not found".
Definition case_not_found (case_name : string) : string :=
  "Case " +:+ case_name +:+ " not found".
Definition exam_not_found (exam_name : string) : string :=
  "Exam " +:+ exam_name +:+ " not found".
Definition plan_not_found (plan_name : string) : string :=
  "Plan " +:+ plan_name +:+ " not found".

(** The calls by which the resolver changes the patient. *)
Inductive call :=
| CallAddNewPlan (case : handle) (plan_name : string)
| CallSave (patient : handle).

Section Load.
Variable db : PatientDB.
Variables patient_id first_name last_name case_name exam_name : string.
(** [main] passes the cell of the row for [plan_name]; the indexers and the
    filter are answered by what it reads as. *)
Variable plan_name : value.

(** The body of the examination [try]: the local [exam] is bound only when
    the first record of the query carries the requested name. *)
Definition exam_try (patient_info0 case : handle) : result (option handle) :=
  info ← QueryExaminationInfo db patient_info0 exam_name;
  info0 ← item0 info;
  if decide (info0 = exam_name)
  then exam ← Examinations_item db case exam_name; mret (Some exam)
  else mret None.

(** The body of the plan [try]: the plan already exists. *)
Definition plan_try (case : handle) (d : PatientData) : result PatientData :=
  info ← QueryPlanInfo db case (str_value plan_name);
  info0 ← item0 info;
  if eq_text info0 plan_name
  then plan ← TreatmentPlans_item db false case (str_value plan_name); mret (set_Plan plan d)
  else mret d.

(** Its [except IndexError] handler: the plan is created and the patient
    saved ([Save] is taken to return). [exam.Name] reads the local [exam],
    which is unbound when the examination did not match; the arguments are
    evaluated before the call. *)
Definition plan_create (patient case : handle) (exam : option handle) (d : PatientData)
    : list call * result PatientData :=
  match exam with
  | None => ([], Raise UnboundLocalError)
  | Some _ =>
      let added := [CallAddNewPlan case (str_value plan_name)] in
      match AddNewPlan db case (str_value plan_name) with
      | Raise e => (added, Raise e)
      | Ok _ =>
          match TreatmentPlans_item db true case (str_value plan_name) with
          | Raise e => (added, Raise e)
          | Ok plan => ((added ++ [CallSave patient])%list, Ok (set_Plan plan d))
          end
      end
  end.

(** The closing check [test_plan = ...]; [added] tells whether
    [AddNewPlan] ran. *)
Definition plan_check (case : handle) (added : bool) (d : PatientData)
    : result PatientData :=
  match TreatmentPlans_item db added case (str_value plan_name) with
  | Ok _ => Ok d
  | Raise e =>
      if decide (e = IndexError)
      then Ok (append_Error (plan_not_found (str_value plan_name)) d)
      else Raise e
  end.

(** The plan stage, with the calls it has made. *)
Definition plan_stage (patient case : handle) (exam : option handle) (d : PatientData)
    : list call * result PatientData :=
  match plan_try case d with
  | Ok d1 => ([], plan_check case false d1)
  | Raise e =>
      if decide (e = IndexError)
      then
        let '(calls, created) := plan_create patient case exam d in
        (calls, d1 ← created; plan_check case true d1)
      else ([], Raise e)
  end.

(** [load_patient_data], with the calls by which it has changed the
    patient when it returns or raises. *)
Definition load_patient_data_calls : list call * result PatientData :=
  let patient_data :=
    {| Error := []; Case := None; Patient := None; Exam := None; Plan := None |} in
  let patient_info := QueryPatientInfo db first_name last_name patient_id in
  match patient_info with
  | [patient_info0] =>
      let patient := LoadPatient db patient_info0 in
      let patient_data := set_Patient patient patient_data in
      match Cases_item db patient case_name with
      | Raise e =>
          if decide (e = SystemError)
          then ([], Ok (append_Error (case_not_found case_name) patient_data))
          else ([], Raise e)
      | Ok case =>
          let patient_data := set_Case case patient_data in
          match exam_try patient_info0 case with
          | Raise e =>
              if decide (e = IndexError)
              then ([], Ok (append_Error (exam_not_found exam_name) patient_data))
              else ([], Raise e)
          | Ok exam =>
              let patient_data :=
                match exam with
                | Some h => set_Exam h patient_data
                | None => patient_data
                end in
              plan_stage patient case exam patient_data
          end
      end
  | _ =>
      ([], Ok (set_Error [patient_not_found first_name last_name patient_id] patient_data))
  end.

End Load.

(** What [load_patient_data] returns for a [plan_name] that is text. *)
Definition load_patient_data (db : PatientDB)
    (patient_id first_name last_name case_name exam_name plan_name : string)
    : result PatientData :=
  (load_patient_data_calls db patient_id first_name last_name case_name exam_name
     (Text plan_name)).2.

(** The invariant the data model asks of a returned context. *)
Definition all_unset (d : PatientData) : Prop :=
  Patient d = None ∧ Case d = None ∧ Exam d = None ∧ Plan d = None.
Definition all_set (d : PatientData) : Prop :=
  is_Some (Patient d) ∧ is_Some (Case d) ∧ is_Some (Exam d) ∧ is_Some (Plan d).
Definition context_invariant (d : PatientData) : Prop :=
  (Error d ≠ [] ∧ all_unset d) ∨ (Error d = [] ∧ all_set d).

(** The first record of every answer of the examination query, and of the
    plan query, carries the name asked for. *)
Definition first_exam_exact (db : PatientDB) (exam_name : string) : Prop :=
  ∀ patient_info n rest,
    QueryExaminationInfo db patient_info exam_name = Ok (n :: rest) → n = exam_name.
Definition first_plan_exact (db : PatientDB) (plan_name : string) : Prop :=
  ∀ case n rest, QueryPlanInfo db case plan_name = Ok (n :: rest) → n = plan_name.

(** What a returned context looks like, stage by stage. *)
Definition staged_context (db : PatientDB)
    (patient_id first_name last_name case_name exam_name plan_name : string)
    (d : PatientData) : Prop :=
  (Error d = [patient_not_found first_name last_name patient_id] ∧ all_unset d)
  ∨ (Error d = [case_not_found case_name]
     ∧ is_Some (Patient d) ∧ Case d = None ∧ Exam d = None ∧ Plan d = None)
  ∨ (Error d = [exam_not_found exam_name]
     ∧ is_Some (Patient d) ∧ is_Some (Case d) ∧ Exam d = None ∧ Plan d = None)
  ∨ (Error d = [plan_not_found plan_name]
     ∧ is_Some (Patient d) ∧ is_Some (Case d) ∧ Plan d = None)
  ∨ (Error d = []
     ∧ is_Some (Patient d) ∧ is_Some (Case d)
     ∧ (first_exam_exact db exam_name → is_Some (Exam d))
     ∧ (first_plan_exact db plan_name → is_Some (Plan d))).

End Resolver.

(** ** The beamset-name collision loop of [main] *)

Module Naming.
Import Py.

(** [plan.QueryBeamSetInfo(Filter={'Name': '^' + name})] over the names of
    the beamsets of the plan, in the order the plan lists them: the names
    that begin with [name]. *)
Definition QueryBeamSetInfo (existing : list string) (name : string) : list string :=
  List.filter (String.prefix name) existing.

(** One mutation of the candidate, [r] being the value of
    [random.randint(1,99)]. *)
Definition mutate (beamset_name : string) (r : nat) : string :=
  if (14 <? String.length beamset_name)%nat
  then take_str 14 beamset_name +:+ zfill 2 (str_nat r)
  else beamset_name +:+ zfill 2 (str_nat r).

(** The [while beamset_exists] loop. [randint i] is the i-th value drawn,
    [drawn] counts the draws so far; [fuel] bounds the iterations, and
    [None] is a loop that is still running when it is spent. *)
Fixpoint resolve_name (fuel : nat) (existing : list string) (randint : nat → nat)
    (drawn : nat) (beamset_name : string) : option string :=
  match fuel with
  | O => None
  | S fuel' =>
      match QueryBeamSetInfo existing beamset_name with
      | [] => Some beamset_name                    (* IndexError: leave the loop *)
      | info0 :: _ =>
          if decide (info0 = beamset_name)
          then resolve_name fuel' existing randint (S drawn)
                 (mutate beamset_name (randint drawn))
          else resolve_name fuel' existing randint drawn beamset_name
      end
  end.

End Naming.

(** ** The target/dose extraction: [merge_dict] *)

Module Targets.
Import Py.

(** A cell of a row of the data frame: text, a whole number, or the
    missing value NaN. *)
Inductive cell :=
| CStr (s : string)
| CNum (z : Z)
| CNaN.

#[global] Instance cell_eq_dec : EqDecision cell.
Proof. solve_decision. Defined.

(** A cell handed over where a name is expected. *)
Definition value_of (c : cell) : value :=
  match c with
  | CStr s => Text s
  | CNum z => NotText (str_Z z)
  | CNaN => NotText "nan"
  end.

(** [str(c)], ['{}'.format(c)] *)
Definition str_cell (c : cell) : string := str_value (value_of c).

(** A dict keyed by cells, as the list of its entries in the order the keys
    came in. Text equals text and a number equals a number; NaN is a key
    equal to no key, itself included, each NaN cell of a row being read as
    a float of its own. *)
Definition dict := list (cell * cell).

Definition key_eq (a b : cell) : bool :=
  match a, b with
  | CStr s, CStr t => bool_decide (s = t)
  | CNum x, CNum y => bool_decide (x = y)
  | _, _ => false
  end.

(** [d[k] = v] *)
Fixpoint dict_set (k v : cell) (d : dict) : dict :=
  match d with
  | [] => [(k, v)]
  | (k', v') :: d' =>
      if key_eq k' k then (k', v) :: d' else (k', v') :: dict_set k v d'
  end.


(** An int that some 64-bit type of the data frame holds; a larger one is
    kept as a Python int. *)
Definition fits_64 (z : Z) : bool := ((- 2 ^ 63 <=? z) && (z <? 2 ^ 64))%Z.

(** [np.isnan(x)]: text is refused, and so is an int kept as a Python
    int. *)
Definition isnan (c : cell) : result bool :=
  match c with
  | CStr _ => Raise TypeError
  | CNum z => if fits_64 z then Ok false else Raise TypeError
  | CNaN => Ok true
  end.

(** The column names of the pair numbered [target_columns + 1]. *)
Definition target_name (target_columns : nat) : string :=
  "Target" +:+ zfill 2 (str_nat (target_columns + 1)).
Definition target_dose (target_columns : nat) : string :=
  "TargetDose" +:+ zfill 2 (str_nat (target_columns + 1)).

(** The [while target_column_exists] loop; a missing column raises
    [KeyError], which ends it. [None] is a loop out of fuel. *)
Fixpoint merge_loop (fuel : nat) (row : gmap string cell) (target_columns : nat)
    (target_dict : dict) : option (result dict) :=
  match fuel with
  | O => None
  | S fuel' =>
      match row !! target_dose target_columns with
      | None => Some (Ok target_dict)
      | Some dose =>
          match isnan dose with
          | Raise e => Some (Raise e)
          | Ok true => merge_loop fuel' row (S target_columns) target_dict
          | Ok false =>
              match row !! target_name target_columns with
              | None => Some (Ok target_dict)
              | Some name =>
                  merge_loop fuel' row (S target_columns) (dict_set name dose target_dict)
              end
          end
      end
  end.

(** A row has finitely many columns, so one iteration more than its size
    is enough for the loop to meet a missing column. *)
Definition merge_dict (row : gmap string cell) : option (result dict) :=
  merge_loop (S (size row)) row 0 [].

(** A dose as a column of 64-bit ints holds it. *)
Definition int64 (z : Z) : Prop := (- 2 ^ 63 ≤ z < 2 ^ 63)%Z.

(** Pairs 1 to 3 hold a target name and a dose, the names distinct. *)
Definition three_populated (row : gmap string cell) (t1 t2 t3 : string) (d1 d2 d3 : Z) : Prop :=
  row !! "Target01" = Some (CStr t1) ∧ row !! "TargetDose01" = Some (CNum d1) ∧
  row !! "Target02" = Some (CStr t2) ∧ row !! "TargetDose02" = Some (CNum d2) ∧
  row !! "Target03" = Some (CStr t3) ∧ row !! "TargetDose03" = Some (CNum d3) ∧
  int64 d1 ∧ int64 d2 ∧ int64 d3 ∧
  t1 ≠ t2 ∧ t1 ≠ t3 ∧ t2 ≠ t3.

(** The fourth pair ends the loop: its dose column is absent, or its name
    column is absent and its dose column holds a number. *)
Definition fourth_pair_ends (row : gmap string cell) : Prop :=
  row !! "TargetDose04" = None
  ∨ (row !! "Target04" = None
     ∧ ∃ d4, row !! "TargetDose04" = Some (CNum d4) ∧ int64 d4).

(** Every entry of the dict pairs the name and the dose of one numbered
    pair of columns, and the dose is a number. *)
Definition from_pairs (row : gmap string cell) (target_dict : dict) : Prop :=
  ∀ k v, (k, v) ∈ target_dict →
    (∃ z, v = CNum z) ∧
    ∃ i, row !! target_name i = Some k ∧ row !! target_dose i = Some v.

End Targets.

(** ** The batch driver: the row loop of [main] *)

Module Driver.
Import Py Audit Naming Targets.

Definition handle := Resolver.handle.

(** A beam read from the protocol file. *)
Definition Beam := nat.

(** One row of the plan list, by column. The columns [main] uses as names
    hold what the data frame read: text, an int for a column of digits,
    NaN for an empty cell. *)
Record Row := {
  BeamsetName : cell;
  PlanName : cell;
  PatientID : cell;
  Case : cell;
  FirstName : string;
  LastName : string;
  ExaminationName : string;
  BeamsetPath : string;
  BeamsetFile : string;
  ProtocolBeamset : string;
  Target01 : cell;
  TargetDose01 : cell;
  NumberFractions : cell;
  Machine : string;
  Isotarget : string;
  PlanningStructureWorkflow : cell;
  NumberTargets : cell;
  Targets : dict
}.

(** The [beamset] element selected in the protocol file: the text of its
    [technique] and [name] children, [None] for a child that is missing. *)
Record Element := {
  find_technique : option string;
  find_name : option string
}.

(** [BeamOperations.BeamSet], as filled in by [main]; [name] and
    [DicomName] are kept as they read. *)
Record BeamSet := {
  rx_target : cell;
  number_of_fractions : cell;
  total_dose : cell;
  machine : string;
  iso_target : string;
  name : string;
  DicomName : string;
  modality : string;
  technique : string;
  protocol_name : string
}.

(** A workflow of the planning-structure configuration; a text field counts
    as set when it is not empty, a list when it has an element. *)
Record Preset := {
  preset_name : string;
  uniform_structures : list string;
  underdose_structures : list string;
  inner_air_name : string;
  superficial_target_name : string;
  ring_hd_name : string;
  ring_ld_name : string;
  ring_ts_name : string;
  otv_name : string;
  skin_name : string
}.

(** What [main] asks of [StructureOperations.planning_structures]; the
    thicknesses and standoffs it copies from the preset are left out. *)
Record Request := {
  number_of_targets : cell;
  use_uniform_dose : bool;
  use_under_dose : bool;
  generate_inner_air : bool;
  generate_otvs : bool;
  generate_skin : bool;
  generate_ring_hd : bool;
  generate_ring_ld : bool;
  target_skin : bool;
  target_rings : bool;
  dialog2_response : dict
}.

Definition truthy (s : string) : bool := negb (String.eqb s "").
Definition nonempty {A} (l : list A) : bool := negb (Nat.eqb (length l) 0).

Definition planning_request (row : Row) (p : Preset) : Request :=
  {| number_of_targets := NumberTargets row;
     use_uniform_dose := nonempty (uniform_structures p);
     use_under_dose := nonempty (underdose_structures p);
     generate_inner_air := truthy (inner_air_name p);
     generate_otvs := truthy (otv_name p);
     generate_skin := truthy (skin_name p);
     generate_ring_hd := truthy (ring_hd_name p);
     generate_ring_ld := truthy (ring_ld_name p);
     target_skin := truthy (superficial_target_name p);
     target_rings := truthy (ring_ts_name p);
     dialog2_response := Targets row |}.

(** The answers of the planning system while one row is processed. *)
Record World := {
  db : Resolver.PatientDB;
  beamsets : list string;                 (* names of the beamsets of the plan *)
  randint : nat → nat;                    (* values of random.randint(1,99) *)
  select_element : string → string → string → result (list Element);
  create_beamset : BeamSet → result handle;
  load_beams_xml : string → string → string → result (list Beam);
  find_isocenter_parameters : handle → string → result handle;
  place_tomo_beam_in_beamset : handle → Beam → result unit;
  place_beams_in_beamset : handle → list Beam → result unit;
  planning_structure_config : result (list Preset);
  planning_structures : Request → result unit
}.

(** What the run leaves behind, besides the audit file: the warnings logged
    and the calls that change the patient, those of the resolver included
    (debug records are not kept). [SetCurrent] and [Save] are taken to
    return. *)
Inductive event :=
| LogWarning (msg : string)
| AddNewPlan (case : handle) (plan_name : string)
| SetCurrent (h : handle)
| PatientSave
| CreateBeamset (b : BeamSet)
| PlaceTomoBeam (beam : Beam)
| PlaceBeams (beams : list Beam)
| PlanningStructures (r : Request).

(** The state [main] carries from one row to the next: the files, the
    local variable [beam] (unbound until a Tomo row binds it) and the trace. *)
Record State := {
  fs : gmap string string;
  beam : option Beam;
  trace : list event
}.

(** How a row ends short of its last statement. *)
Inductive control :=
| Continue                 (* continue: on to the next row *)
| Exit (msg : string)      (* sys.exit *)
| Crash (e : exn).         (* an exception nobody catches *)

Inductive step (A : Type) :=
| Val (a : A) (s : State)
| Halt (c : control) (s : State)
| Spin.                    (* a loop that does not end *)
Arguments Val {A} a s.
Arguments Halt {A} c s.
Arguments Spin {A}.

Definition M (A : Type) : Type := State → step A.

#[global] Instance M_ret : MRet M := fun _ a s => Val a s.
#[global] Instance M_bind : MBind M := fun _ _ f m s =>
  match m s with
  | Val a s' => f a s'
  | Halt c s' => Halt c s'
  | Spin => Spin
  end.

Definition halt {A} (c : control) : M A := fun s => Halt c s.
Definition lift {A} (r : result A) : M A :=
  match r with
  | Ok a => mret a
  | Raise e => halt (Crash e)
  end.
(** The state after further events. *)
Definition add_events (s : State) (events : list event) : State :=
  {| fs := fs s; beam := beam s; trace := trace s ++ events |}.
Definition emit (e : event) : M unit :=
  fun s => Val () (add_events s [e]).
Definition emit_all (events : list event) : M unit :=
  fun s => Val () (add_events s events).
Definition event_of_call (c : Resolver.call) : event :=
  match c with
  | Resolver.CallAddNewPlan case plan_name => AddNewPlan case plan_name
  | Resolver.CallSave _ => PatientSave
  end.
Definition set_beam (b : Beam) : M unit :=
  fun s => Val () {| fs := fs s; beam := Some b; trace := trace s |}.
(** Reading the local [beam] before any row has bound it. *)
Definition get_beam : M Beam :=
  fun s => match beam s with
           | Some b => Val b s
           | None => Halt (Crash UnboundLocalError) s
           end.
(** A method call on a handle of the resolver; on [None] it fails. *)
Definition method_of (h : option handle) : M handle :=
  match h with
  | Some x => mret x
  | None => halt (Crash AttributeError)
  end.
Definition loop_result {A} (o : option A) : M A :=
  match o with
  | Some a => mret a
  | None => fun _ => Spin
  end.

Section Main.
Context `{OsPath}.
Variable script_file : string.      (* __file__ *)
Variable file_csv : string.         (* the plan list chosen in the dialog *)
Variable fuel : nat.                (* bound on the name loop of a row *)

(** The record of a row whose four names are text, all later flags still
    false. *)
Definition outcome (patient_id case_name plan_name beamset_name : string)
    (patient_load : bool) (status : option (list string)) : RowOutcome :=
  {| patient_id := patient_id;
     case_name := case_name;
     plan_name := plan_name;
     beamset_name := beamset_name;
     patient_load := patient_load;
     planning_structs := false;
     beams_load := false;
     clinical_goals_load := false;
     plan_optimization_strategy_load := false;
     optimization_complete := false;
     script_status := status |}.

(** The call of [output_status] on the cells of the row; an exception
    leaves the row and the loop. *)
Definition write_status (row : Row) (beamset_name : cell) (patient_load : bool)
    (status : option (list string)) : M unit :=
  fun s =>
    let written :=
      output_status_call (fs s) file_csv
        (value_of (PatientID row)) (value_of (Case row)) (value_of (PlanName row))
        (value_of beamset_name)
        patient_load false false false false false status in
    let s' := {| fs := written.1; beam := beam s; trace := trace s |} in
    match written.2 with
    | Ok _ => Val () s'
    | Raise e => Halt (Crash e) s'
    end.

(** The [while beamset_exists] loop on the cell of the row. A name that is
    no text equals the name of no beamset, so it is never changed: the loop
    ends at once when the query has no answer, and never otherwise. *)
Definition name_loop (w : World) (beamset_name : cell) : option cell :=
  match beamset_name with
  | CStr s => CStr <$> resolve_name fuel (beamsets w) (randint w) 0 s
  | _ =>
      match fuel, QueryBeamSetInfo (beamsets w) (str_cell beamset_name) with
      | O, _ => None
      | S _, [] => Some beamset_name
      | S _, _ :: _ => None
      end
  end.

(** [elem.find(tag).text] *)
Definition text_of (child : option string) : M string :=
  match child with
  | Some t => mret t
  | None => halt (Crash AttributeError)
  end.

(** The isocenter [try]: any exception logs the warning and leaves the
    whole run through [sys.exit]. *)
Definition place_isocenter (w : World) (rs_beam_set : handle) (iso_target : string)
    : M handle :=
  match find_isocenter_parameters w rs_beam_set iso_target with
  | Ok iso => mret iso
  | Raise _ =>
      _ ← emit (LogWarning ("Aborting, could not locate center of " +:+ iso_target));
      halt (Exit "Failed to place isocenter")
  end.

(** The dispatch on the technique; the value is [beams_load]. In the
    Tomo branch the call that places the beam follows the [if]/[else] on
    the number of beams, whichever arm ran. *)
Definition place_beams (w : World) (defs : BeamSet) (rs_beam_set : handle)
    (beams : list Beam) : M bool :=
  if decide (technique defs = "TomoHelical") then
    _ ← (if (1 <? length beams)%nat
         then emit (LogWarning ("Invalid tomo beamset in " +:+ name defs +:+
                                ", more than one Tomo beam found."))
         else b ← lift (item0 beams); set_beam b);
    beam ← get_beam;
    _ ← emit (PlaceTomoBeam beam);
    _ ← lift (place_tomo_beam_in_beamset w rs_beam_set beam);
    mret true
  else if decide (technique defs = "VMAT") then
    _ ← emit (PlaceBeams beams);
    _ ← lift (place_beams_in_beamset w rs_beam_set beams);
    mret true
  else
    mret false.

(** The planning-structure stage of a row whose beams are loaded. *)
Definition planning_stage (w : World) (row : Row) : M unit :=
  df_planning_preferences ← lift (planning_structure_config w);
  let df_workflow :=
    List.filter (λ p, bool_decide (PlanningStructureWorkflow row = CStr (preset_name p)))
                df_planning_preferences in
  match df_workflow with
  | [] => mret ()                           (* planning_structs = False *)
  | p :: _ =>
      let r := planning_request row p in
      _ ← emit (PlanningStructures r);
      lift (planning_structures w r)
  end.

(** [os.path.join(os.path.dirname(__file__), row.BeamsetPath)] *)
Definition path_protocols (row : Row) : string :=
  os_path_join (os_path_dirname script_file) (BeamsetPath row).

(** The fields [main] sets on a fresh [BeamSet]: the clinical ones from the
    row, technique and protocol name from the template. *)
Definition beamset_defs (row : Row) (beamset_name technique protocol_name : string) : BeamSet :=
  {| rx_target := Target01 row;
     number_of_fractions := NumberFractions row;
     total_dose := TargetDose01 row;
     machine := Machine row;
     iso_target := Isotarget row;
     name := beamset_name;
     DicomName := beamset_name;
     modality := "Photons";
     technique := technique;
     protocol_name := protocol_name |}.

(** The call of [load_patient_data] on the cells of the row: the calls it
    has made, and the context it returns or the exception it raises. The
    resolver formats the patient ID and the case name and hands them on, so
    they go in as they read; it compares the plan name with the names of
    the records, so that one goes in as the value it is. *)
Definition resolve_row (row : Row) (w : World)
    : list Resolver.call * result Resolver.PatientData :=
  Resolver.load_patient_data_calls (db w) (str_cell (PatientID row))
    (FirstName row) (LastName row) (str_cell (Case row))
    (ExaminationName row) (value_of (PlanName row)).

(** The body of the [for] loop. *)
Definition main_row (row : Row) (w : World) : M unit :=
  let beamset_name := BeamsetName row in
  let loaded := resolve_row row w in
  _ ← emit_all (event_of_call <$> loaded.1);
  patient_data ← lift loaded.2;
  match Resolver.Error patient_data with
  | _ :: _ =>
      _ ← write_status row beamset_name false (Some (Resolver.Error patient_data));
      halt Continue
  | [] =>
      let exam := Resolver.Exam patient_data in
      case ← method_of (Resolver.Case patient_data);
      _ ← emit (SetCurrent case);
      plan ← method_of (Resolver.Plan patient_data);
      _ ← emit (SetCurrent plan);
      (* patient_load = True *)
      beamset_name ← loop_result (name_loop w beamset_name);
      let path_protocols := path_protocols row in
      elements ← lift (select_element w (BeamsetFile row) (ProtocolBeamset row) path_protocols);
      beamset_etree ← lift (item0 elements);
      technique ← text_of (find_technique beamset_etree);
      protocol_name ← text_of (find_name beamset_etree);
      let beamset_defs := beamset_defs row (str_cell beamset_name) technique protocol_name in
      _ ← emit (CreateBeamset beamset_defs);
      rs_beam_set ← lift (create_beamset w beamset_defs);
      _ ← method_of (Resolver.Patient patient_data);
      _ ← emit PatientSave;
      _ ← emit (SetCurrent rs_beam_set);
      beams ← lift (load_beams_xml w (BeamsetFile row) (ProtocolBeamset row) path_protocols);
      iso ← place_isocenter w rs_beam_set (iso_target beamset_defs);
      beams_load ← place_beams w beamset_defs rs_beam_set beams;
      if negb beams_load then
        _ ← write_status row beamset_name true None;
        halt Continue
      else
        _ ← emit PatientSave;
        _ ← emit (SetCurrent rs_beam_set);
        planning_stage w row
  end.

(** The four names of a row are text. *)
Definition text_names (row : Row) (patient_id case_name plan_name beamset_name : string)
    : Prop :=
  PatientID row = CStr patient_id ∧ Case row = CStr case_name
  ∧ PlanName row = CStr plan_name ∧ BeamsetName row = CStr beamset_name.

(** One of them is no text. *)
Definition name_not_text (row : Row) : Prop :=
  (∀ s, PatientID row ≠ CStr s) ∨ (∀ s, Case row ≠ CStr s)
  ∨ (∀ s, PlanName row ≠ CStr s) ∨ (∀ s, BeamsetName row ≠ CStr s).

(** A row whose entities resolve without error and whose name loop ends:
    the handles [main] makes current, the beamset name it settles on and
    the calls the resolver has made. *)
Definition resolved (row : Row) (w : World) (patient case plan : handle)
    (beamset_name : cell) (calls : list Resolver.call) : Prop :=
  ∃ patient_data,
    resolve_row row w = (calls, Ok patient_data)
    ∧ Resolver.Error patient_data = []
    ∧ Resolver.Patient patient_data = Some patient
    ∧ Resolver.Case patient_data = Some case
    ∧ Resolver.Plan patient_data = Some plan
    ∧ name_loop w (BeamsetName row) = Some beamset_name.

(** A row that reaches the isocenter step: resolved, its template found
    with the given technique, its beamset created and its beams read.
    [setup] is what the row has done to the patient by then. *)
Definition ready (row : Row) (w : World) (defs : BeamSet) (rs_beam_set : handle)
    (beams : list Beam) (setup : list event) : Prop :=
  ∃ patient case plan beamset_name calls beamset_etree others technique protocol_name,
    resolved row w patient case plan beamset_name calls
    ∧ select_element w (BeamsetFile row) (ProtocolBeamset row) (path_protocols row)
      = Ok (beamset_etree :: others)
    ∧ find_technique beamset_etree = Some technique
    ∧ find_name beamset_etree = Some protocol_name
    ∧ defs = beamset_defs row (str_cell beamset_name) technique protocol_name
    ∧ create_beamset w defs = Ok rs_beam_set
    ∧ load_beams_xml w (BeamsetFile row) (ProtocolBeamset row) (path_protocols row) = Ok beams
    ∧ setup = ((event_of_call <$> calls)
               ++ [SetCurrent case; SetCurrent plan; CreateBeamset defs; PatientSave;
                   SetCurrent rs_beam_set])%list.

(** How a run of [main] ends. *)
Inductive run :=
| Ended (c : control) (s : State)
| Hung.

(** The [for] loop over the rows, each with the answers it meets, and the
    [sys.exit('Done')] after it. *)
Fixpoint main_loop (rows : list (Row * World)) (s : State) : run :=
  match rows with
  | [] => Ended (Exit "Done") s
  | (row, w) :: rest =>
      match main_row row w s with
      | Val _ s' => main_loop rest s'
      | Halt Continue s' => main_loop rest s'
      | Halt c s' => Ended c s'
      | Spin => Hung
      end
  end.

End Main.

End Driver.

(** ** Concrete rows and answers, used to run the model *)

Module Scenario.
Import Py Audit Targets Driver.

(** A database in which every lookup succeeds. *)
Definition db_ok : Resolver.PatientDB :=
  {| Resolver.QueryPatientInfo := λ _ _ _, [1];
     Resolver.LoadPatient := λ _, 10;
     Resolver.Cases_item := λ _ _, Ok 20;
     Resolver.QueryExaminationInfo := λ _ exam_name, Ok [exam_name];
     Resolver.Examinations_item := λ _ _, Ok 30;
     Resolver.QueryPlanInfo := λ _ plan_name, Ok [plan_name];
     Resolver.TreatmentPlans_item := λ _ _ _, Ok 40;
     Resolver.AddNewPlan := λ _ _, Ok () |}.

(** The patient is not in the database. *)
Definition db_no_patient : Resolver.PatientDB :=
  {| Resolver.QueryPatientInfo := λ _ _ _, [];
     Resolver.LoadPatient := Resolver.LoadPatient db_ok;
     Resolver.Cases_item := Resolver.Cases_item db_ok;
     Resolver.QueryExaminationInfo := Resolver.QueryExaminationInfo db_ok;
     Resolver.Examinations_item := Resolver.Examinations_item db_ok;
     Resolver.QueryPlanInfo := Resolver.QueryPlanInfo db_ok;
     Resolver.TreatmentPlans_item := Resolver.TreatmentPlans_item db_ok;
     Resolver.AddNewPlan := Resolver.AddNewPlan db_ok |}.

(** The patient is found, the case is not. *)
Definition db_no_case : Resolver.PatientDB :=
  {| Resolver.QueryPatientInfo := Resolver.QueryPatientInfo db_ok;
     Resolver.LoadPatient := Resolver.LoadPatient db_ok;
     Resolver.Cases_item := λ _ _, Raise SystemError;
     Resolver.QueryExaminationInfo := Resolver.QueryExaminationInfo db_ok;
     Resolver.Examinations_item := Resolver.Examinations_item db_ok;
     Resolver.QueryPlanInfo := Resolver.QueryPlanInfo db_ok;
     Resolver.TreatmentPlans_item := Resolver.TreatmentPlans_item db_ok;
     Resolver.AddNewPlan := Resolver.AddNewPlan db_ok |}.

(** The examination query answers with a longer name first: asked for
    [CT 1], it lists [CT 10]. *)
Definition db_other_exam : Resolver.PatientDB :=
  {| Resolver.QueryPatientInfo := Resolver.QueryPatientInfo db_ok;
     Resolver.LoadPatient := Resolver.LoadPatient db_ok;
     Resolver.Cases_item := Resolver.Cases_item db_ok;
     Resolver.QueryExaminationInfo := λ _ exam_name, Ok [exam_name +:+ "0"];
     Resolver.Examinations_item := Resolver.Examinations_item db_ok;
     Resolver.QueryPlanInfo := Resolver.QueryPlanInfo db_ok;
     Resolver.TreatmentPlans_item := Resolver.TreatmentPlans_item db_ok;
     Resolver.AddNewPlan := Resolver.AddNewPlan db_ok |}.

Definition row1 : Row :=
  {| BeamsetName := CStr "Tmplt_20Feb2020";
     PlanName := CStr "Plan1";
     PatientID := CStr "MR0001";
     Case := CStr "Case 1";
     FirstName := "Ann";
     LastName := "Lee";
     ExaminationName := "CT 1";
     BeamsetPath := "protocols";
     BeamsetFile := "UWGeneric.xml";
     ProtocolBeamset := "Tomo3D-FW5";
     Target01 := CStr "PTV_60";
     TargetDose01 := CNum 6000;
     NumberFractions := CNum 30;
     Machine := "HDA0488";
     Isotarget := "All_PTVs";
     PlanningStructureWorkflow := CStr "HN";
     NumberTargets := CNum 1;
     Targets := [(CStr "PTV_60", CNum 6000)] |}.

Definition row2 : Row :=
  {| BeamsetName := CStr "Tmplt_21Feb2020";
     PlanName := CStr "Plan2";
     PatientID := CStr "MR0002";
     Case := CStr "Case 1";
     FirstName := "Bob";
     LastName := "Ray";
     ExaminationName := "CT 1";
     BeamsetPath := "protocols";
     BeamsetFile := "UWGeneric.xml";
     ProtocolBeamset := "Tomo3D-FW5";
     Target01 := CStr "PTV_54";
     TargetDose01 := CNum 5400;
     NumberFractions := CNum 30;
     Machine := "HDA0488";
     Isotarget := "All_PTVs";
     PlanningStructureWorkflow := CStr "HN";
     NumberTargets := CNum 1;
     Targets := [(CStr "PTV_54", CNum 5400)] |}.

Definition preset_hn : Preset :=
  {| preset_name := "HN";
     uniform_structures := ["Larynx"];
     underdose_structures := [];
     inner_air_name := "";
     superficial_target_name := "";
     ring_hd_name := "Ring_HD";
     ring_ld_name := "Ring_LD";
     ring_ts_name := "";
     otv_name := "OTV";
     skin_name := "Skin" |}.

(** Answers under which every stage succeeds, for a template of the given
    technique with the given beams. *)
Definition world (d : Resolver.PatientDB) (technique : string) (beams : list Beam) : World :=
  {| db := d;
     beamsets := [];
     randint := λ _, 7;
     select_element := λ _ _ _,
       Ok [ {| find_technique := Some technique; find_name := Some "Tomo3D-FW5" |} ];
     create_beamset := λ _, Ok 50;
     load_beams_xml := λ _ _ _, Ok beams;
     find_isocenter_parameters := λ _ _, Ok 60;
     place_tomo_beam_in_beamset := λ _ _, Ok ();
     place_beams_in_beamset := λ _ _, Ok ();
     planning_structure_config := Ok [preset_hn];
     planning_structures := λ _, Ok () |}.

(** The same, but no template of that name is in the protocol file. *)
Definition world_no_template (d : Resolver.PatientDB) : World :=
  {| db := d;
     beamsets := [];
     randint := λ _, 7;
     select_element := λ _ _ _, Ok [];
     create_beamset := create_beamset (world d "VMAT" [1; 2]);
     load_beams_xml := load_beams_xml (world d "VMAT" [1; 2]);
     find_isocenter_parameters := find_isocenter_parameters (world d "VMAT" [1; 2]);
     place_tomo_beam_in_beamset := place_tomo_beam_in_beamset (world d "VMAT" [1; 2]);
     place_beams_in_beamset := place_beams_in_beamset (world d "VMAT" [1; 2]);
     planning_structure_config := planning_structure_config (world d "VMAT" [1; 2]);
     planning_structures := planning_structures (world d "VMAT" [1; 2]) |}.

(** The same as [world], but the beams cannot be placed. *)
Definition world_no_placement (d : Resolver.PatientDB) : World :=
  {| db := d;
     beamsets := [];
     randint := λ _, 7;
     select_element := select_element (world d "VMAT" [1; 2]);
     create_beamset := create_beamset (world d "VMAT" [1; 2]);
     load_beams_xml := load_beams_xml (world d "VMAT" [1; 2]);
     find_isocenter_parameters := find_isocenter_parameters (world d "VMAT" [1; 2]);
     place_tomo_beam_in_beamset := place_tomo_beam_in_beamset (world d "VMAT" [1; 2]);
     place_beams_in_beamset := λ _ _, Raise RuntimeError;
     planning_structure_config := planning_structure_config (world d "VMAT" [1; 2]);
     planning_structures := planning_structures (world d "VMAT" [1; 2]) |}.

(** The same as [world], but the isocenter target cannot be located. *)
Definition world_no_isocenter (d : Resolver.PatientDB) : World :=
  {| db := d;
     beamsets := [];
     randint := λ _, 7;
     select_element := select_element (world d "VMAT" [1; 2]);
     create_beamset := create_beamset (world d "VMAT" [1; 2]);
     load_beams_xml := load_beams_xml (world d "VMAT" [1; 2]);
     find_isocenter_parameters := λ _ _, Raise RuntimeError;
     place_tomo_beam_in_beamset := place_tomo_beam_in_beamset (world d "VMAT" [1; 2]);
     place_beams_in_beamset := place_beams_in_beamset (world d "VMAT" [1; 2]);
     planning_structure_config := planning_structure_config (world d "VMAT" [1; 2]);
     planning_structures := planning_structures (world d "VMAT" [1; 2]) |}.

Definition script_file : string := "/scripts/testing/AutoLoadPlan.py".
Definition file_csv : string := "/data/plans.csv".
Definition out_file : string := "/data/plans_output.txt".

(** The state at the start of a run: no output file, [beam] unbound. *)
Definition start : State := {| fs := ∅; beam := None; trace := [] |}.

Definition run_rows (rows : list (Row * World)) (s : State) : run :=
  @main_loop posix script_file file_csv 10 rows s.

(** What the first row has set up when it reaches the isocenter step. *)
Definition defs1 (technique : string) : BeamSet :=
  beamset_defs row1 "Tmplt_20Feb2020" technique "Tomo3D-FW5".
Definition setup1 (technique : string) : list event :=
  [SetCurrent 20; SetCurrent 40; CreateBeamset (defs1 technique); PatientSave; SetCurrent 50].

(** Two audit records. *)
Definition record_a : RowOutcome :=
  outcome "MR0001" "Case 1" "Plan1" "Tmplt_20Feb2020" true None.
Definition record_b : RowOutcome :=
  outcome "MR0002" "Case 1" "Plan2" "Tmplt_21Feb2020" false
    (Some ["Patient Bob Ray, ID: MR0002 not found"]).

(** The columns of a row with three target pairs, and of one whose second
    dose is missing. *)
Definition three_pairs : gmap string cell :=
  {[ "PatientID" := CStr "MR0001";
     "Target01" := CStr "PTV_70"; "TargetDose01" := CNum 7000;
     "Target02" := CStr "PTV_60"; "TargetDose02" := CNum 6000;
     "Target03" := CStr "PTV_54"; "TargetDose03" := CNum 5400 ]}.
Definition second_dose_missing : gmap string cell :=
  {[ "PatientID" := CStr "MR0001";
     "Target01" := CStr "PTV_70"; "TargetDose01" := CNum 7000;
     "Target02" := CStr "PTV_60"; "TargetDose02" := CNaN;
     "Target03" := CStr "PTV_54"; "TargetDose03" := CNum 5400 ]}.

End Scenario.

(** ** Shapes of text *)

Module Text.
Import Py.

(** A printable character that [repr] writes as it is: neither the single
    quote nor the backslash. *)
Definition plain_char (c : ascii) : bool :=
  let n := nat_of_ascii c in
  ((32 <=? n) && (n <? 127) && negb (n =? 39) && negb (n =? 92))%nat.

Fixpoint plain (s : string) : bool :=
  match s with
  | EmptyString => true
  | String c s' => plain_char c && plain s'
  end.

(** [old in s]: some suffix of [s] begins with [old]. *)
Fixpoint occurs (old s : string) : bool :=
  match s with
  | EmptyString => String.prefix old EmptyString
  | String c s' => String.prefix old s || occurs old s'
  end.

(** The names the name loop can reach from [n]: [n] itself, or at most 16
    characters that end in the two digits of a draw, after a stem that
    begins as the first 14 characters of [n]. *)
Definition reached (n m : string) : Prop :=
  m = n
  ∨ ((String.length m ≤ 16)%nat
     ∧ ∃ stem r, (1 ≤ r ≤ 99)%nat ∧ m = stem +:+ two_digits r
                 ∧ String.prefix (take_str 14 n) stem = true).

End Text.

(** ** The script [general/GenerateGoalTemplates.py] *)

Module GoalTemplates.
Import Py.

(** An [roi] element of the protocol file. *)
Definition roi := nat.

(** The collaborators of the script: the parsed protocol file with the
    answer of [findall('//goals/roi')] in document order, the module [Goals]
    and [connect.get_current('Plan')]. *)
Record World := {
  parse_findall : result (list roi);
  print_goal : roi → result string;
  get_current_plan : result nat;
  add_goal : roi → nat → result unit
}.

(** What the script leaves behind: the lines printed and the calls of
    [Goals.add_goal]. *)
Inductive event :=
| Print (line : string)
| AddGoal (g : roi) (plan : nat).

(** The body of the [for] loop over the goals still to come; the trace
    comes back with the result, also when a call raises. *)
Fixpoint add_goals (w : World) (goals : list roi) (trace : list event)
    : list event * result unit :=
  match goals with
  | [] => (trace, Ok ())
  | g :: rest =>
      match print_goal w g with
      | Raise e => (trace, Raise e)
      | Ok text =>
          let trace := (trace ++ [Print ("Adding goal " +:+ text)])%list in
          match get_current_plan w with
          | Raise e => (trace, Raise e)
          | Ok plan =>
              let trace := (trace ++ [AddGoal g plan])%list in
              match add_goal w g plan with
              | Raise e => (trace, Raise e)
              | Ok _ => add_goals w rest trace
              end
          end
      end
  end.

(** The script: parse, then loop. *)
Definition script (w : World) : list event * result unit :=
  match parse_findall w with
  | Raise e => ([], Raise e)
  | Ok goals => add_goals w goals []
  end.

(** The events of a goal whose calls succeed. *)
Definition goal_events (w : World) (plan : nat) (g : roi) : list event :=
  match print_goal w g with
  | Ok text => [Print ("Adding goal " +:+ text); AddGoal g plan]
  | Raise _ => []
  end.

(** A goal for which printing and adding succeed. *)
Definition goal_ok (w : World) (plan : nat) (g : roi) : Prop :=
  (∃ text, print_goal w g = Ok text) ∧ add_goal w g plan = Ok ().

End GoalTemplates.

(** ** The pairs of a row, as a list *)

Module TargetPairs.
Import Py Targets.






(** Entries that come from pairs numbered up to [i], at most [i] of
    them. *)
Definition below (row : gmap string cell) (i : nat) (d : dict) : Prop :=
  (∀ key v, (key, v) ∈ d →
     ∃ j, (j < i)%nat ∧ row !! target_name j = Some key ∧ row !! target_dose j = Some v)
  ∧ (length d ≤ i)%nat.

End TargetPairs.

(** ** Rows that fail in the resolver *)

Module Records.
Import Py Audit Targets Driver.

(** The answer of the resolver for a row. *)
Definition resolve (row : Row) (w : World) : result Resolver.PatientData :=
  (resolve_row row w).2.

(** The resolver reports an error for the row. *)
Definition resolution_fails (rw : Row * World) : Prop :=
  ∃ patient_data, resolve rw.1 rw.2 = Ok patient_data ∧ Resolver.Error patient_data ≠ [].

(** The four names of the row are text. *)
Definition names_are_text (rw : Row * World) : Prop :=
  ∃ patient_id case_name plan_name beamset_name,
    text_names rw.1 patient_id case_name plan_name beamset_name.

(** The audit record of such a row: the names as they read, no flag set,
    the error list as status. *)
Definition error_record (rw : Row * World) : RowOutcome :=
  outcome (str_cell (PatientID rw.1)) (str_cell (Case rw.1)) (str_cell (PlanName rw.1))
    (str_cell (BeamsetName rw.1)) false
    (match resolve rw.1 rw.2 with
     | Ok patient_data => Some (Resolver.Error patient_data)
     | Raise _ => None
     end).

End Records.

(** ** More concrete answers *)

Module Cases.
Import Py Audit Targets Driver.

(** The plan does not exist until it is added. *)
Definition db_new_plan : Resolver.PatientDB :=
  {| Resolver.QueryPatientInfo := Resolver.QueryPatientInfo Scenario.db_ok;
     Resolver.LoadPatient := Resolver.LoadPatient Scenario.db_ok;
     Resolver.Cases_item := Resolver.Cases_item Scenario.db_ok;
     Resolver.QueryExaminationInfo := Resolver.QueryExaminationInfo Scenario.db_ok;
     Resolver.Examinations_item := Resolver.Examinations_item Scenario.db_ok;
     Resolver.QueryPlanInfo := λ _ _, Ok [];
     Resolver.TreatmentPlans_item := λ added _ _, if added then Ok 41 else Raise IndexError;
     Resolver.AddNewPlan := λ _ _, Ok () |}.

(** The plan query lists a longer name first, and the plan asked for does
    not exist. *)
Definition db_other_plan : Resolver.PatientDB :=
  {| Resolver.QueryPatientInfo := Resolver.QueryPatientInfo Scenario.db_ok;
     Resolver.LoadPatient := Resolver.LoadPatient Scenario.db_ok;
     Resolver.Cases_item := Resolver.Cases_item Scenario.db_ok;
     Resolver.QueryExaminationInfo := Resolver.QueryExaminationInfo Scenario.db_ok;
     Resolver.Examinations_item := Resolver.Examinations_item Scenario.db_ok;
     Resolver.QueryPlanInfo := λ _ plan_name, Ok [plan_name +:+ "_old"];
     Resolver.TreatmentPlans_item := λ _ _ _, Raise IndexError;
     Resolver.AddNewPlan := λ _ _, Ok () |}.

(** The plan query lists a longer name first, and the plan asked for
    exists as well. *)
Definition db_plan_listed_second : Resolver.PatientDB :=
  {| Resolver.QueryPatientInfo := Resolver.QueryPatientInfo Scenario.db_ok;
     Resolver.LoadPatient := Resolver.LoadPatient Scenario.db_ok;
     Resolver.Cases_item := Resolver.Cases_item Scenario.db_ok;
     Resolver.QueryExaminationInfo := Resolver.QueryExaminationInfo Scenario.db_ok;
     Resolver.Examinations_item := Resolver.Examinations_item Scenario.db_ok;
     Resolver.QueryPlanInfo := λ _ plan_name, Ok [plan_name +:+ "_old"; plan_name];
     Resolver.TreatmentPlans_item := Resolver.TreatmentPlans_item Scenario.db_ok;
     Resolver.AddNewPlan := λ _ _, Ok () |}.

(** The examination query finds nothing. *)
Definition db_no_exam : Resolver.PatientDB :=
  {| Resolver.QueryPatientInfo := Resolver.QueryPatientInfo Scenario.db_ok;
     Resolver.LoadPatient := Resolver.LoadPatient Scenario.db_ok;
     Resolver.Cases_item := Resolver.Cases_item Scenario.db_ok;
     Resolver.QueryExaminationInfo := λ _ _, Ok [];
     Resolver.Examinations_item := Resolver.Examinations_item Scenario.db_ok;
     Resolver.QueryPlanInfo := Resolver.QueryPlanInfo Scenario.db_ok;
     Resolver.TreatmentPlans_item := Resolver.TreatmentPlans_item Scenario.db_ok;
     Resolver.AddNewPlan := Resolver.AddNewPlan Scenario.db_ok |}.

(** A plan in which a name of 15 characters and all the 99 names the
    loop can make of it are taken. *)
Definition full_namespace : list string :=
  "Tmplt_20Feb2020"
  :: map (λ r, take_str 14 "Tmplt_20Feb2020" +:+ two_digits r) (seq 1 99).

(** A row whose two target pairs carry the same name, and a row whose
    second dose column holds text. *)
Definition same_name_twice : gmap string cell :=
  {[ "Target01" := CStr "PTV"; "TargetDose01" := CNum 7000;
     "Target02" := CStr "PTV"; "TargetDose02" := CNum 6000 ]}.
Definition text_dose : gmap string cell :=
  {[ "Target01" := CStr "PTV_70"; "TargetDose01" := CNum 7000;
     "Target02" := CStr "PTV_60"; "TargetDose02" := CStr "60 Gy" ]}.

(** The examination query lists a longer name first and the plan has to
    be created. *)
Definition db_other_exam_new_plan : Resolver.PatientDB :=
  {| Resolver.QueryPatientInfo := Resolver.QueryPatientInfo Scenario.db_ok;
     Resolver.LoadPatient := Resolver.LoadPatient Scenario.db_ok;
     Resolver.Cases_item := Resolver.Cases_item Scenario.db_ok;
     Resolver.QueryExaminationInfo := Resolver.QueryExaminationInfo Scenario.db_other_exam;
     Resolver.Examinations_item := Resolver.Examinations_item Scenario.db_ok;
     Resolver.QueryPlanInfo := λ _ _, Ok [];
     Resolver.TreatmentPlans_item := Resolver.TreatmentPlans_item db_new_plan;
     Resolver.AddNewPlan := Resolver.AddNewPlan Scenario.db_ok |}.

(** The plan holds one beamset, whose name begins with the name the first
    row asks for. *)
Definition world_longer_name : World :=
  {| db := Scenario.db_ok;
     beamsets := ["Tmplt_20Feb2020_v2"];
     randint := λ _, 7;
     select_element := select_element (Scenario.world Scenario.db_ok "VMAT" [1; 2]);
     create_beamset := create_beamset (Scenario.world Scenario.db_ok "VMAT" [1; 2]);
     load_beams_xml := load_beams_xml (Scenario.world Scenario.db_ok "VMAT" [1; 2]);
     find_isocenter_parameters :=
       find_isocenter_parameters (Scenario.world Scenario.db_ok "VMAT" [1; 2]);
     place_tomo_beam_in_beamset :=
       place_tomo_beam_in_beamset (Scenario.world Scenario.db_ok "VMAT" [1; 2]);
     place_beams_in_beamset :=
       place_beams_in_beamset (Scenario.world Scenario.db_ok "VMAT" [1; 2]);
     planning_structure_config :=
       planning_structure_config (Scenario.world Scenario.db_ok "VMAT" [1; 2]);
     planning_structures := planning_structures (Scenario.world Scenario.db_ok "VMAT" [1; 2]) |}.

(** A row whose fourth name column is absent and whose fourth dose is
    missing, with a fifth pair after them. *)
Definition fourth_dose_missing : gmap string cell :=
  {[ "Target01" := CStr "PTV_70"; "TargetDose01" := CNum 7000;
     "Target02" := CStr "PTV_60"; "TargetDose02" := CNum 6000;
     "Target03" := CStr "PTV_54"; "TargetDose03" := CNum 5400;
     "TargetDose04" := CNaN;
     "Target05" := CStr "PTV_50"; "TargetDose05" := CNum 5000 ]}.

(** A row whose second dose is an int beyond 64 bits. *)
Definition huge_dose : gmap string cell :=
  {[ "Target01" := CStr "PTV_70"; "TargetDose01" := CNum 7000;
     "Target02" := CStr "PTV_60"; "TargetDose02" := CNum (2 ^ 64) ]}.

(** The first row of [Scenario] with its patient ID written in digits
    only: the data frame reads the cell as an int. *)
Definition row_numeric_id : Row :=
  {| BeamsetName := BeamsetName Scenario.row1;
     PlanName := PlanName Scenario.row1;
     PatientID := CNum 1;
     Case := Case Scenario.row1;
     FirstName := FirstName Scenario.row1;
     LastName := LastName Scenario.row1;
     ExaminationName := ExaminationName Scenario.row1;
     BeamsetPath := BeamsetPath Scenario.row1;
     BeamsetFile := BeamsetFile Scenario.row1;
     ProtocolBeamset := ProtocolBeamset Scenario.row1;
     Target01 := Target01 Scenario.row1;
     TargetDose01 := TargetDose01 Scenario.row1;
     NumberFractions := NumberFractions Scenario.row1;
     Machine := Machine Scenario.row1;
     Isotarget := Isotarget Scenario.row1;
     PlanningStructureWorkflow := PlanningStructureWorkflow Scenario.row1;
     NumberTargets := NumberTargets Scenario.row1;
     Targets := Targets Scenario.row1 |}.

(** The plan is added, and the lookup that follows raises. *)
Definition db_plan_lost : Resolver.PatientDB :=
  {| Resolver.QueryPatientInfo := Resolver.QueryPatientInfo Scenario.db_ok;
     Resolver.LoadPatient := Resolver.LoadPatient Scenario.db_ok;
     Resolver.Cases_item := Resolver.Cases_item Scenario.db_ok;
     Resolver.QueryExaminationInfo := Resolver.QueryExaminationInfo Scenario.db_ok;
     Resolver.Examinations_item := Resolver.Examinations_item Scenario.db_ok;
     Resolver.QueryPlanInfo := λ _ _, Ok [];
     Resolver.TreatmentPlans_item := λ _ _ _, Raise KeyError;
     Resolver.AddNewPlan := λ _ _, Ok () |}.

(** A protocol with three goals, the second of which cannot be added. *)
Definition three_goals : GoalTemplates.World :=
  {| GoalTemplates.parse_findall := Ok [1; 2; 3];
     GoalTemplates.print_goal := λ g, Ok ("goal " +:+ str_nat g);
     GoalTemplates.get_current_plan := Ok 40;
     GoalTemplates.add_goal := λ g _, if Nat.eqb g 2 then Raise RuntimeError else Ok () |}.

End Cases.

(** * Properties *)

Import Py.
Local Open Scope nat_scope.

(** ** Facts on strings *)

Lemma append_cons (x : ascii) (a b : string) : String x a +:+ b = String x (a +:+ b).
Proof. reflexivity. Qed.

Lemma append_assoc (a b c : string) : (a +:+ b) +:+ c = a +:+ (b +:+ c).
Proof. induction a as [|x a IH]; [done |]. by rewrite !append_cons, IH. Qed.

Lemma append_nil_r (a : string) : a +:+ "" = a.
Proof. induction a as [|x a IH]; [done |]. by rewrite append_cons, IH. Qed.

Lemma length_append (a b : string) :
  String.length (a +:+ b) = String.length a + String.length b.
Proof. induction a as [|x a IH]; [done |]. rewrite append_cons. cbn. by rewrite IH. Qed.

Lemma append_nonempty_l (a b : string) : a ≠ "" → a +:+ b ≠ "".
Proof. destruct a; [done |]. rewrite append_cons. discriminate. Qed.

Lemma prefix_refl (a : string) : String.prefix a a = true.
Proof.
  induction a as [|x a IH]; cbn; [done |].
  destruct (ascii_dec x x); [done | congruence].
Qed.

Lemma prefix_length (a b : string) :
  String.prefix a b = true → (String.length a ≤ String.length b)%nat.
Proof.
  revert b; induction a as [|x a IH]; intros [|y b]; cbn; try lia; try discriminate.
  destruct (ascii_dec x y); [|discriminate]. intros Hp. specialize (IH _ Hp). lia.
Qed.

(** ** The audit writer *)

Section AuditFacts.
Import Audit.









Context `{OsPath}.

Lemma output_status_fresh (fs : gmap string string) (f : string) (o : RowOutcome) :
  fs !! output_filename f = None ∨ fs !! output_filename f = Some "" →
  output_status fs f o !! output_filename f = Some (header +:+ output_message o).
Proof.
  intros Hfresh. unfold output_status.
  destruct Hfresh as [-> | ->]; [| rewrite decide_True by done];
    by rewrite lookup_insert_eq, lookup_insert_eq.
Qed.

Lemma output_status_append (fs : gmap string string) (f content : string) (o : RowOutcome) :
  fs !! output_filename f = Some content → content ≠ "" →
  output_status fs f o !! output_filename f = Some (content +:+ output_message o).
Proof.
  intros Hc Hne. unfold output_status. rewrite Hc, decide_False by done.
  by rewrite lookup_insert_eq, Hc.
Qed.

Lemma output_status_other (fs : gmap string string) (f p : string) (o : RowOutcome) :
  p ≠ output_filename f → output_status fs f o !! p = fs !! p.
Proof.
  intros Hp. unfold output_status.
  destruct (fs !! output_filename f) as [content|] eqn:Hc;
    [destruct (decide (content = "")) |];
    rewrite ?lookup_insert_ne by done; done.
Qed.

Lemma output_status_many (os : list RowOutcome) (fs : gmap string string)
    (f content : string) :
  fs !! output_filename f = Some content → content ≠ "" →
  foldl (λ fs o, output_status fs f o) fs os !! output_filename f
  = Some (content +:+ String.concat "" (map output_message os)).
Proof.
  revert fs content. induction os as [|o os IH]; intros fs content Hc Hne; cbn.
  - by rewrite append_nil_r.
  - rewrite (IH _ (content +:+ output_message o)).
    + f_equal. rewrite append_assoc. f_equal.
      destruct os; cbn; [by rewrite append_nil_r | done].
    + by apply output_status_append.
    + by apply append_nonempty_l.
Qed.

End AuditFacts.


(** ** The name collision loop *)

Section NamingFacts.
Import Naming.

Lemma zfill_two_digits (r : nat) : 1 ≤ r ≤ 99 → zfill 2 (str_nat r) = two_digits r.
Proof.
  intros Hr.
  assert (Hall : forallb (λ n, String.eqb (zfill 2 (str_nat n)) (two_digits n)) (seq 1 99) = true)
    by (vm_compute; reflexivity).
  rewrite forallb_forall in Hall.
  apply String.eqb_eq, Hall, in_seq. lia.
Qed.

Lemma length_take_str (n : nat) (s : string) :
  (n ≤ String.length s)%nat → String.length (take_str n s) = n.
Proof.
  revert s. induction n as [|n IH]; intros [|c s]; cbn; try lia.
  intros Hn. rewrite IH; lia.
Qed.

Lemma mutate_long (beamset_name : string) (r : nat) :
  (14 < String.length beamset_name)%nat → 1 ≤ r ≤ 99 →
  mutate beamset_name r = take_str 14 beamset_name +:+ two_digits r
  ∧ String.length (mutate beamset_name r) = 16.
Proof.
  intros Hlen Hr. unfold mutate.
  apply Nat.ltb_lt in Hlen as Hb. rewrite Hb, zfill_two_digits by done.
  split; [done |]. rewrite length_append, length_take_str by lia. reflexivity.
Qed.

Lemma mutate_short (beamset_name : string) (r : nat) :
  (String.length beamset_name ≤ 14)%nat → 1 ≤ r ≤ 99 →
  mutate beamset_name r = beamset_name +:+ two_digits r
  ∧ String.length (mutate beamset_name r) = String.length beamset_name + 2.
Proof.
  intros Hlen Hr. unfold mutate.
  assert (Hb : (14 <? String.length beamset_name)%nat = false) by (apply Nat.ltb_ge; lia).
  rewrite Hb, zfill_two_digits by done.
  split; [done |]. rewrite length_append. reflexivity.
Qed.

(** A name that the prefix query does not list is not a beamset name. *)
Lemma query_empty_absent (existing : list string) (name : string) :
  QueryBeamSetInfo existing name = [] → name ∉ existing.
Proof.
  unfold QueryBeamSetInfo. intros Hq Hin%list_elem_of_In.
  assert (Hf : In name (List.filter (String.prefix name) existing)).
  { apply filter_In. split; [done | apply prefix_refl]. }
  rewrite Hq in Hf. destruct Hf.
Qed.

Lemma resolve_name_unused (fuel : nat) (existing : list string) (randint : nat → nat)
    (drawn : nat) (beamset_name : string) :
  QueryBeamSetInfo existing beamset_name = [] →
  resolve_name (S fuel) existing randint drawn beamset_name = Some beamset_name.
Proof. intros Hq. cbn. by rewrite Hq. Qed.

(** The loop is left only on an empty answer of the query. *)
Lemma resolve_name_query_empty (fuel : nat) (existing : list string) (randint : nat → nat)
    (drawn : nat) (beamset_name out : string) :
  resolve_name fuel existing randint drawn beamset_name = Some out →
  QueryBeamSetInfo existing out = [].
Proof.
  revert drawn beamset_name.
  induction fuel as [|fuel IH]; intros drawn beamset_name; cbn; [discriminate |].
  destruct (QueryBeamSetInfo existing beamset_name) as [|info0 info] eqn:Hq.
  - intros [= <-]. exact Hq.
  - destruct (decide (info0 = beamset_name)); apply IH.
Qed.

End NamingFacts.

(** C5, as the code has it. For every candidate name and every list of
    beamset names, the draws being in 1..99: when no beamset name begins
    with the candidate, the loop returns the candidate unchanged; when the
    candidate is the first name its prefix query lists, and no beamset name
    begins with the mutated name, the loop returns the mutated name, which
    is absent from the list and is the first 14 characters of the candidate
    followed by the draw as two zero-padded digits (16 characters) when the
    candidate is longer than 14, and the candidate followed by those two
    digits (2 characters more) otherwise; and whatever name the loop
    returns is absent from the list. *)
Theorem name_collision_resolver (existing : list string) (randint : nat → nat)
    (beamset_name : string) (fuel : nat) :
  (∀ i, 1 ≤ randint i ≤ 99) →
  (Naming.QueryBeamSetInfo existing beamset_name = [] →
   Naming.resolve_name (S fuel) existing randint 0 beamset_name = Some beamset_name)
  ∧ (head (Naming.QueryBeamSetInfo existing beamset_name) = Some beamset_name →
     Naming.QueryBeamSetInfo existing (Naming.mutate beamset_name (randint 0)) = [] →
     let out := Naming.mutate beamset_name (randint 0) in
     Naming.resolve_name (S (S fuel)) existing randint 0 beamset_name = Some out
     ∧ beamset_name ∈ existing
     ∧ (out ∉ existing)
     ∧ ((14 < String.length beamset_name)%nat →
        out = take_str 14 beamset_name +:+ two_digits (randint 0)
        ∧ String.length out = 16)
     ∧ ((String.length beamset_name ≤ 14)%nat →
        out = beamset_name +:+ two_digits (randint 0)
        ∧ String.length out = String.length beamset_name + 2))
  ∧ (∀ out, Naming.resolve_name fuel existing randint 0 beamset_name = Some out →
            out ∉ existing).
Proof.
  intros Hdraw. split; [apply resolve_name_unused |]. split.
  - intros Hhead Hfree out.
    destruct (Naming.QueryBeamSetInfo existing beamset_name) as [|info0 info] eqn:Hq;
      [discriminate |].
    injection Hhead as ->.
    split; [| split; [| split; [| split]]].
    + cbn. rewrite Hq, decide_True by done.
      fold (Naming.resolve_name (S fuel)). by apply resolve_name_unused.
    + apply list_elem_of_In.
      assert (Hin : In beamset_name (List.filter (String.prefix beamset_name) existing)).
      { unfold Naming.QueryBeamSetInfo in Hq. rewrite Hq. by left. }
      by apply filter_In in Hin as [? _].
    + by apply query_empty_absent.
    + intros Hlen. by apply mutate_long.
    + intros Hlen. by apply mutate_short.
  - intros out Hout. eapply query_empty_absent, resolve_name_query_empty, Hout.
Qed.

Lemma name_collision_resolver_witness :
  Naming.resolve_name 10 ["Tmplt_20Feb2020"] (λ _, 7) 0 "Tmplt_20Feb2020"
    = Some (Naming.mutate "Tmplt_20Feb2020" 7)
  ∧ String.length (Naming.mutate "Tmplt_20Feb2020" 7) = 16.
Proof.
  destruct (name_collision_resolver ["Tmplt_20Feb2020"] (λ _, 7) "Tmplt_20Feb2020" 8)
    as (_ & Hmut & _); [intros; lia |].
  destruct (Hmut eq_refl eq_refl) as (Hres & _ & _ & Hlong & _).
  split; [exact Hres | apply Hlong; cbn; lia].
Defined.

(** C5 as stated fails twice. A candidate of 15 characters that is taken
    comes back with 16 characters, not 15; and a candidate that is not taken,
    but begins a name that is, keeps the loop running for ever. *)
Lemma name_collision_counterexample :
  ("Tmplt_20Feb2020" ∈ ["Tmplt_20Feb2020"]
   ∧ String.length "Tmplt_20Feb2020" = 15
   ∧ Naming.resolve_name 10 ["Tmplt_20Feb2020"] (λ _, 7) 0 "Tmplt_20Feb2020"
     = Some "Tmplt_20Feb20207"
   ∧ String.length "Tmplt_20Feb20207" ≠ String.length "Tmplt_20Feb2020")
  ∧ (("AB" ∉ ["AB1"])
     ∧ ∀ fuel, Naming.resolve_name fuel ["AB1"] (λ _, 7) 0 "AB" = None).
Proof.
  split.
  - split; [apply list_elem_of_In; by left |].
    split; [reflexivity |]. split; [reflexivity | cbn; lia].
  - split.
    + intros Hin%list_elem_of_In. destruct Hin as [Heq | []]. discriminate Heq.
    + intros fuel. induction fuel as [|fuel IH]; [reflexivity |]. exact IH.
Qed.

(** ** The target/dose extraction *)

Section TargetsFacts.
Import Targets.

Lemma parse_nat_zero (s : string) : parse_nat ("0" +:+ s) = parse_nat s.
Proof.
  unfold parse_nat. change ("0" +:+ s) with (String "0" s).
  cbn [NilEmpty.uint_of_string].
  destruct (NilEmpty.uint_of_string s); reflexivity.
Qed.

Lemma parse_nat_zfill (s : string) : parse_nat (zfill 2 s) = parse_nat s.
Proof.
  unfold zfill.
  destruct (2 - String.length s) as [|[|[|k]]] eqn:Hk; try lia; cbn [replicate String.concat].
  - reflexivity.
  - apply parse_nat_zero.
  - rewrite append_assoc, !parse_nat_zero. reflexivity.
Qed.

Lemma parse_nat_str_nat (n : nat) : parse_nat (zfill 2 (str_nat n)) = Some n.
Proof.
  rewrite parse_nat_zfill. unfold parse_nat, str_nat.
  rewrite NilEmpty.usu. cbn. f_equal. apply DecimalNat.Unsigned.of_to.
Qed.

Lemma target_dose_inj : Inj (=) (=) target_dose.
Proof.
  intros i j Heq. unfold target_dose in Heq.
  apply (inj (String.append "TargetDose")) in Heq.
  apply (f_equal parse_nat) in Heq. rewrite !parse_nat_str_nat in Heq.
  injection Heq. lia.
Qed.

(** A row that has the dose columns of the pairs 1 to [n] has at least
    [n] columns. *)
Lemma dose_columns_size (row : gmap string cell) (n : nat) :
  (∀ j, j < n → is_Some (row !! target_dose j)) → n ≤ size row.
Proof.
  intros Hcols.
  pose (keys := target_dose <$> seq 0 n).
  assert (Hnodup : NoDup keys)
    by (apply (@NoDup_fmap_2 _ _ target_dose target_dose_inj), NoDup_seq).
  assert (Hsub : (list_to_set keys : gset string) ⊆ dom row).
  { intros k [j [-> Hj]]%elem_of_list_to_set%list_elem_of_fmap.
    apply elem_of_dom, Hcols. apply elem_of_seq in Hj. lia. }
  apply subseteq_size in Hsub.
  rewrite size_list_to_set, size_dom in Hsub by done.
  unfold keys in Hsub. by rewrite length_fmap, length_seq in Hsub.
Qed.

(** A loop that runs out of fuel has met a dose column at every step. *)
Lemma merge_loop_out_of_fuel (fuel : nat) (row : gmap string cell) (i : nat) (d : dict) :
  merge_loop fuel row i d = None →
  ∀ j, i ≤ j < i + fuel → is_Some (row !! target_dose j).
Proof.
  revert i d. induction fuel as [|fuel IH]; intros i d Hnone j Hj; [lia |].
  cbn in Hnone.
  destruct (row !! target_dose i) as [dose|] eqn:Hdose; [|discriminate].
  destruct (decide (j = i)) as [-> | Hne]; [by rewrite Hdose |].
  destruct (isnan dose) as [[] | e]; [| | discriminate].
  - apply (IH _ _ Hnone). lia.
  - destruct (row !! target_name i); [|discriminate]. apply (IH _ _ Hnone). lia.
Qed.

Lemma merge_dict_total (row : gmap string cell) : is_Some (merge_dict row).
Proof.
  destruct (merge_dict row) eqn:Hm; [done |].
  assert (S (size row) ≤ size row); [| lia].
  apply dose_columns_size. intros j Hj.
  apply (merge_loop_out_of_fuel _ _ _ _ Hm). lia.
Qed.

(** More fuel does not change a result. *)
Lemma merge_loop_more_fuel (fuel fuel' : nat) (row : gmap string cell) (i : nat)
    (d : dict) (r : result dict) :
  merge_loop fuel row i d = Some r → fuel ≤ fuel' → merge_loop fuel' row i d = Some r.
Proof.
  revert fuel' i d. induction fuel as [|fuel IH]; intros fuel' i d Hr Hle; [discriminate |].
  destruct fuel' as [|fuel']; [lia |]. cbn in *.
  destruct (row !! target_dose i); [|done].
  destruct (isnan _) as [[] | e]; [| | done].
  - apply IH; [done | lia].
  - destruct (row !! target_name i); [|done]. apply IH; [done | lia].
Qed.

(** Keys that compare equal are the same cell. *)
Lemma key_eq_true (a b : cell) : key_eq a b = true → a = b.
Proof.
  destruct a, b; cbn; try discriminate; intros Heq%bool_decide_eq_true; by subst.
Qed.

Lemma key_eq_text (s t : string) : s ≠ t → key_eq (CStr s) (CStr t) = false.
Proof. intros Hne. cbn. by apply bool_decide_eq_false. Qed.

(** An assignment keeps the other entries and adds at most one. *)
Lemma elem_of_dict_set (k v k' v' : cell) (d : dict) :
  (k', v') ∈ dict_set k v d → (k', v') ∈ d ∨ (k' = k ∧ v' = v).
Proof.
  induction d as [|[k0 v0] d IH]; cbn.
  - intros [= -> ->]%list_elem_of_singleton. by right.
  - destruct (key_eq k0 k) eqn:Hk.
    + intros [[= -> ->] | Hin]%elem_of_cons.
      * right. split; [by apply key_eq_true | done].
      * left. by right.
    + intros [[= -> ->] | Hin]%elem_of_cons.
      * left. by left.
      * destruct (IH Hin) as [? | ?]; [left; by right | by right].
Qed.

Lemma length_dict_set (k v : cell) (d : dict) : length (dict_set k v d) ≤ S (length d).
Proof.
  induction d as [|[k0 v0] d IH]; cbn; [lia |].
  destruct (key_eq k0 k); cbn; lia.
Qed.

(** A dose that [np.isnan] takes for a number is one. *)
Lemma isnan_false (dose : cell) : isnan dose = Ok false → ∃ z, dose = CNum z.
Proof.
  destruct dose as [s | z |]; cbn; [discriminate | eauto |discriminate].
Qed.

Lemma int64_fits (z : Z) : int64 z → fits_64 z = true.
Proof.
  unfold int64, fits_64. intros [Hlo Hhi].
  apply andb_true_intro. split; [apply Z.leb_le | apply Z.ltb_lt]; lia.
Qed.

Lemma isnan_int64 (z : Z) : int64 z → isnan (CNum z) = Ok false.
Proof. intros Hz. cbn. by rewrite int64_fits. Qed.

Lemma merge_loop_from_pairs (fuel : nat) (row : gmap string cell) (i : nat) (d d' : dict) :
  from_pairs row d → merge_loop fuel row i d = Some (Ok d') → from_pairs row d'.
Proof.
  revert i d. induction fuel as [|fuel IH]; intros i d Hd Hloop; [discriminate |].
  cbn in Hloop.
  destruct (row !! target_dose i) as [dose|] eqn:Hdose; [| by injection Hloop as <-].
  destruct (isnan dose) as [[] | e] eqn:Hnan; [by eapply IH | | discriminate].
  destruct (row !! target_name i) as [name|] eqn:Hname; [| by injection Hloop as <-].
  eapply IH; [| exact Hloop].
  intros k v [Hkv | [-> ->]]%elem_of_dict_set; [by apply Hd |].
  split; [by apply isnan_false | eauto].
Qed.

Lemma merge_loop_three_populated (row : gmap string cell) (t1 t2 t3 : string) (d1 d2 d3 : Z) :
  three_populated row t1 t2 t3 d1 d2 d3 → fourth_pair_ends row →
  merge_loop 4 row 0 []
  = Some (Ok [(CStr t1, CNum d1); (CStr t2, CNum d2); (CStr t3, CNum d3)]).
Proof.
  intros (Hn1 & Hd1 & Hn2 & Hd2 & Hn3 & Hd3 & Hz1 & Hz2 & Hz3 & H12 & H13 & H23) Hfourth.
  cbn [merge_loop].
  change (target_dose 0) with "TargetDose01". change (target_name 0) with "Target01".
  change (target_dose 1) with "TargetDose02". change (target_name 1) with "Target02".
  change (target_dose 2) with "TargetDose03". change (target_name 2) with "Target03".
  change (target_dose 3) with "TargetDose04". change (target_name 3) with "Target04".
  rewrite Hd1, (isnan_int64 _ Hz1), Hn1, Hd2, (isnan_int64 _ Hz2), Hn2,
    Hd3, (isnan_int64 _ Hz3), Hn3.
  cbn [dict_set]. rewrite (key_eq_text _ _ H12).
  cbn [dict_set]. rewrite (key_eq_text _ _ H13), (key_eq_text _ _ H23).
  destruct Hfourth as [-> | (Hn4 & d4 & -> & Hz4)]; [done |].
  by rewrite (isnan_int64 _ Hz4), Hn4.
Qed.

End TargetsFacts.

(** C9, as the code has it. The extraction returns for every row (it ends,
    with a dict or with the [TypeError] of a dose that [np.isnan] refuses).
    Every entry of a returned dict pairs the name and the dose of one
    numbered pair of columns and its dose is a number, so a pair whose dose
    is NaN gives no entry. For a row whose pairs 1 to 3 are populated with
    distinct names and with doses that a 64-bit int holds, and whose fourth
    dose column is absent, or holds such a dose while the fourth name
    column is absent, the dict has exactly the 3 entries of those pairs. *)
Theorem merge_dict_entries (row : gmap string Targets.cell) :
  ∃ r, Targets.merge_dict row = Some r
    ∧ (∀ target_dict, r = Ok target_dict → Targets.from_pairs row target_dict)
    ∧ (∀ t1 t2 t3 d1 d2 d3,
         Targets.three_populated row t1 t2 t3 d1 d2 d3 →
         Targets.fourth_pair_ends row →
         ∃ target_dict, r = Ok target_dict
           ∧ length target_dict = 3
           ∧ (Targets.CStr t1, Targets.CNum d1) ∈ target_dict
           ∧ (Targets.CStr t2, Targets.CNum d2) ∈ target_dict
           ∧ (Targets.CStr t3, Targets.CNum d3) ∈ target_dict).
Proof.
  destruct (merge_dict_total row) as [r Hr]. exists r.
  split; [exact Hr |]. split.
  - intros target_dict ->. eapply merge_loop_from_pairs; [| exact Hr].
    intros k v Hkv. by apply elem_of_nil in Hkv.
  - intros t1 t2 t3 d1 d2 d3 H3 H4.
    assert (Hloop := merge_loop_three_populated row t1 t2 t3 d1 d2 d3 H3 H4).
    eexists. split.
    + unfold Targets.merge_dict in Hr.
      destruct (decide (4 ≤ S (size row))) as [Hle | Hgt].
      * rewrite (merge_loop_more_fuel _ _ _ _ _ _ Hloop Hle) in Hr.
        by injection Hr as <-.
      * rewrite (merge_loop_more_fuel _ 4 _ _ _ _ Hr) in Hloop by lia.
        by injection Hloop as ->.
    + split; [reflexivity |]. repeat split; set_solver.
Qed.

(** C9 as stated fails: with the fourth name column absent, a fourth dose
    that is missing does not end the loop, and the fifth pair gives a
    fourth entry. *)
Lemma fourth_dose_counterexample :
  Targets.three_populated Cases.fourth_dose_missing "PTV_70" "PTV_60" "PTV_54" 7000 6000 5400
  ∧ Cases.fourth_dose_missing !! "Target04" = None
  ∧ ∃ target_dict,
      Targets.merge_dict Cases.fourth_dose_missing = Some (Ok target_dict)
      ∧ length target_dict = 4.
Proof.
  split.
  - unfold Targets.three_populated, Targets.int64.
    repeat split; first [by vm_compute | discriminate | lia].
  - split; [by vm_compute |]. eexists. split; [by vm_compute | reflexivity].
Qed.

(** ** The entity resolver *)

Section ResolverFacts.
Import Resolver.
Variable db : PatientDB.
Variables patient_id first_name last_name case_name exam_name : string.
Variable plan : value.

(** A plan is created only with the examination bound, by the two calls
    [AddNewPlan] and [Save], and the lookup that follows finds it. *)
Lemma plan_create_result (patient case : handle) (exam : option handle)
    (d d1 : PatientData) (calls : list call) :
  plan_create db plan patient case exam d = (calls, Ok d1) →
  ∃ p, TreatmentPlans_item db true case (str_value plan) = Ok p
    ∧ d1 = set_Plan p d
    ∧ calls = [CallAddNewPlan case (str_value plan); CallSave patient].
Proof.
  unfold plan_create. destruct exam as [h|]; [| discriminate].
  destruct (AddNewPlan db case (str_value plan)); [| discriminate].
  destruct (TreatmentPlans_item db true case (str_value plan)) as [p|]; [| discriminate].
  intros [= <- <-]. by exists p.
Qed.

(** What the body of the plan [try] returns: the plan, found under the
    name asked for, or the context as it was, the first record carrying
    another name. *)
Lemma plan_try_result (case : handle) (d d1 : PatientData) :
  plan_try db plan case d = Ok d1 →
  (∃ p, TreatmentPlans_item db false case (str_value plan) = Ok p ∧ d1 = set_Plan p d)
  ∨ (d1 = d
     ∧ ∃ n rest, QueryPlanInfo db case (str_value plan) = Ok (n :: rest)
                 ∧ eq_text n plan = false).
Proof.
  unfold plan_try.
  destruct (QueryPlanInfo db case (str_value plan)) as [[|n rest] | e]; cbn;
    [discriminate | | discriminate].
  destruct (eq_text n plan) eqn:Heq; cbn.
  - destruct (TreatmentPlans_item db false case (str_value plan)) as [p|]; cbn;
      [| discriminate].
    intros [= <-]. left. by exists p.
  - intros [= <-]. right. split; [done |]. by exists n, rest.
Qed.

(** The plan stage leaves patient, case and examination as they are; it
    reports an error only with the plan handle unset and no call made. *)
Lemma plan_stage_result (patient case : handle) (exam : option handle)
    (d d' : PatientData) (calls : list call) :
  Error d = [] → Plan d = None →
  plan_stage db plan patient case exam d = (calls, Ok d') →
  Patient d' = Patient d ∧ Case d' = Case d ∧ Exam d' = Exam d
  ∧ ((Error d' = [plan_not_found (str_value plan)] ∧ Plan d' = None ∧ calls = [])
     ∨ (Error d' = []
        ∧ (∀ plan_name, plan = Text plan_name → first_plan_exact db plan_name →
           is_Some (Plan d')))).
Proof.
  intros Herr Hplan. unfold plan_stage.
  destruct (plan_try db plan case d) as [d1 | e] eqn:Htry.
  - intros [= <- Hcheck]. unfold plan_check in Hcheck.
    destruct (plan_try_result _ _ _ Htry)
      as [(p & Hp & ->) | (-> & n & rest & Hq & Hne)].
    + rewrite Hp in Hcheck. injection Hcheck as <-.
      repeat split; try done. right. by split.
    + destruct (TreatmentPlans_item db false case (str_value plan)) as [p | e].
      * injection Hcheck as <-. repeat split; try done. right. split; [done |].
        intros plan_name -> Hexact. cbn in Hq, Hne.
        apply bool_decide_eq_false in Hne. destruct Hne. by eapply Hexact.
      * destruct (decide (e = IndexError)); [| discriminate].
        injection Hcheck as <-. cbn. rewrite Herr. repeat split; try done. by left.
  - destruct (decide (e = IndexError)); [| discriminate].
    destruct (plan_create db plan patient case exam d) as [calls' created] eqn:Hcreate.
    intros [= <- Hcheck].
    destruct created as [d1 | e']; [| discriminate].
    destruct (plan_create_result _ _ _ _ _ _ Hcreate) as (p & Hp & -> & _).
    cbn in Hcheck. unfold plan_check in Hcheck. rewrite Hp in Hcheck.
    injection Hcheck as <-. repeat split; try done. right. by split.
Qed.

(** The context and the calls at the point where the plan stage starts. *)
Lemma load_calls_stages (calls : list call) (r : result PatientData) :
  load_patient_data_calls db patient_id first_name last_name case_name exam_name plan
    = (calls, r) →
  (calls = []
   ∧ (r = Ok {| Error := [patient_not_found first_name last_name patient_id];
                Case := None; Patient := None; Exam := None; Plan := None |}
      ∨ (∃ patient, r = Ok {| Error := [case_not_found case_name];
                              Case := None; Patient := Some patient;
                              Exam := None; Plan := None |})
      ∨ (∃ patient case, r = Ok {| Error := [exam_not_found exam_name];
                                   Case := Some case; Patient := Some patient;
                                   Exam := None; Plan := None |})
      ∨ (∃ e, r = Raise e)))
  ∨ ∃ patient_info patient case exam,
      QueryPatientInfo db first_name last_name patient_id = [patient_info]
      ∧ patient = LoadPatient db patient_info
      ∧ Cases_item db patient case_name = Ok case
      ∧ exam_try db exam_name patient_info case = Ok exam
      ∧ plan_stage db plan patient case exam
          {| Error := []; Case := Some case; Patient := Some patient;
             Exam := exam; Plan := None |} = (calls, r).
Proof.
  unfold load_patient_data_calls.
  destruct (QueryPatientInfo db first_name last_name patient_id) as [|pi [|pi' l]] eqn:Hq;
    [intros [= <- <-]; left; split; [done | by left] | |
     intros [= <- <-]; left; split; [done | by left]].
  destruct (Cases_item db (LoadPatient db pi) case_name) as [case | e] eqn:Hcase.
  2:{ destruct (decide (e = SystemError)); intros [= <- <-]; left; (split; [done |]).
      - right; left. by eexists.
      - right; right; right. by eexists. }
  destruct (exam_try db exam_name pi case) as [exam | e] eqn:Hexam.
  2:{ destruct (decide (e = IndexError)); intros [= <- <-]; left; (split; [done |]).
      - right; right; left. by do 2 eexists.
      - right; right; right. by eexists. }
  intros Hstage. right. exists pi, (LoadPatient db pi), case, exam.
  repeat split; try done. by destruct exam.
Qed.

(** A context that carries an error comes with no call made: the resolver
    has not changed the patient. *)
Lemma load_calls_error (calls : list call) (d : PatientData) :
  load_patient_data_calls db patient_id first_name last_name case_name exam_name plan
    = (calls, Ok d) →
  Error d ≠ [] → calls = [].
Proof.
  intros Hload Herr.
  destruct (load_calls_stages _ _ Hload)
    as [[-> _] | (pi & patient & case & exam & _ & _ & _ & _ & Hstage)]; [done |].
  apply plan_stage_result in Hstage; [| done | done].
  destruct Hstage as (_ & _ & _ & [(_ & _ & ->) | [He _]]); [done |].
  by destruct Herr.
Qed.

(** An exception leaves the resolver with nothing done to the patient, or
    with the plan added. *)
Lemma load_calls_raise (calls : list call) (e : exn) :
  load_patient_data_calls db patient_id first_name last_name case_name exam_name plan
    = (calls, Raise e) →
  calls = [] ∨ ∃ case, calls = [CallAddNewPlan case (str_value plan)].
Proof.
  intros Hload.
  destruct (load_calls_stages _ _ Hload)
    as [[-> _] | (pi & patient & case & exam & _ & _ & _ & _ & Hstage)]; [by left |].
  unfold plan_stage in Hstage.
  destruct (plan_try db plan case _) as [d1 | e1]; [injection Hstage as <- _; by left |].
  destruct (decide (e1 = IndexError)); [| injection Hstage as <- _; by left].
  unfold plan_create in Hstage. destruct exam as [h|]; [| injection Hstage as <- _; by left].
  destruct (AddNewPlan db case (str_value plan));
    [| injection Hstage as <- _; right; by exists case].
  destruct (TreatmentPlans_item db true case (str_value plan)) as [p|] eqn:Hp;
    [| injection Hstage as <- _; right; by exists case].
  cbn in Hstage. unfold plan_check in Hstage. rewrite Hp in Hstage. discriminate.
Qed.

Lemma exam_try_exact (patient_info case : handle) (exam : option handle) :
  exam_try db exam_name patient_info case = Ok exam →
  first_exam_exact db exam_name → is_Some exam.
Proof.
  intros Hexam Hfirst. unfold exam_try in Hexam.
  destruct (QueryExaminationInfo db patient_info exam_name) as [[|info0 info] | e] eqn:Hq;
    cbn in Hexam; try discriminate.
  destruct (decide (info0 = exam_name)) as [-> | Hne].
  - destruct (Examinations_item db case exam_name); cbn in Hexam; [| discriminate].
    injection Hexam as <-. by cbn.
  - destruct Hne. by eapply Hfirst.
Qed.

End ResolverFacts.

Section ResolverText.
Import Resolver.
Variable db : PatientDB.
Variables patient_id first_name last_name case_name exam_name plan_name : string.

Lemma load_patient_data_staged (d : PatientData) :
  load_patient_data db patient_id first_name last_name case_name exam_name plan_name = Ok d →
  staged_context db patient_id first_name last_name case_name exam_name plan_name d.
Proof.
  unfold load_patient_data, staged_context.
  destruct (load_patient_data_calls db patient_id first_name last_name case_name exam_name
              (Text plan_name)) as [calls r] eqn:Hload.
  cbn. intros ->.
  destruct (load_calls_stages _ _ _ _ _ _ _ _ _ Hload)
    as [[_ [Hr | [(patient & Hr) | [(patient & case & Hr) | (e & Hr)]]]]
        | (pi & patient & case & exam & _ & _ & _ & Hexam & Hstage)];
    try (injection Hr as ->); try discriminate.
  - left. by repeat split.
  - right; left. by repeat split.
  - right; right; left. by repeat split.
  - apply plan_stage_result in Hstage; [| done | done].
    destruct Hstage as (HP & HC & HE & Hrest). cbn in HP, HC, HE.
    assert (is_Some (Patient d)) by by rewrite HP.
    assert (is_Some (Case d)) by by rewrite HC.
    destruct Hrest as [(Herr & Hnone & _) | [Herr Hsome]].
    + right; right; right; left. by repeat split.
    + right; right; right; right. repeat split; try done.
      * intros Hfirst. rewrite HE. by eapply exam_try_exact.
      * intros Hfirst. by eapply Hsome.
Qed.

End ResolverText.

(** C3, as the code has it. Every context the resolver returns is of one of
    five shapes: the patient message with all four handles unset; the case
    message with only the patient handle set; the examination message with
    only patient and case set; the plan message with patient and case set
    and the plan unset; or no message, with patient and case set, and with
    examination and plan set as well when the first record of the
    examination and plan queries carries the requested name. In particular
    a patient lookup that does not match exactly one record gives an error
    and no handle, and a context without error has all four handles when
    those first records carry the requested names. *)
Theorem resolver_context_shape (db : Resolver.PatientDB)
    (patient_id first_name last_name case_name exam_name plan_name : string)
    (d : Resolver.PatientData) :
  Resolver.load_patient_data db patient_id first_name last_name case_name exam_name plan_name
    = Ok d →
  Resolver.staged_context db patient_id first_name last_name case_name exam_name plan_name d
  ∧ (length (Resolver.QueryPatientInfo db first_name last_name patient_id) ≠ 1 →
     Resolver.Error d ≠ [] ∧ Resolver.all_unset d)
  ∧ (Resolver.Error d = [] →
     Resolver.first_exam_exact db exam_name → Resolver.first_plan_exact db plan_name →
     Resolver.all_set d).
Proof.
  intros Hload. split; [by apply load_patient_data_staged |]. split.
  - intros Hlen.
    unfold Resolver.load_patient_data, Resolver.load_patient_data_calls in Hload.
    destruct (Resolver.QueryPatientInfo db first_name last_name patient_id) as [|pi [|pi' l]];
      [| by cbn in Hlen |]; injection Hload as <-; by repeat split.
  - intros Herr Hexam Hplan.
    destruct (load_patient_data_staged _ _ _ _ _ _ _ _ Hload)
      as [[He _] | [[He _] | [[He _] | [[He _] | (_ & HP & HC & HE & HPl)]]]];
      try (rewrite Herr in He; discriminate).
    repeat split; auto.
Qed.

Lemma resolver_context_shape_witness :
  Resolver.all_set
    {| Resolver.Error := []; Resolver.Case := Some 20; Resolver.Patient := Some 10;
       Resolver.Exam := Some 30; Resolver.Plan := Some 40 |}.
Proof.
  refine (proj2 (proj2 (resolver_context_shape Scenario.db_ok
            "0001" "Ann" "Lee" "Case 1" "CT 1" "Plan1" _ eq_refl)) eq_refl _ _).
  - intros patient_info n rest [= <-]. reflexivity.
  - intros case n rest [= <-]. reflexivity.
Defined.

(** C3 as stated fails: when the patient is found and the case is not, the
    context carries the error and the patient handle. *)
Lemma partial_context_counterexample :
  ∃ d, Resolver.load_patient_data Scenario.db_no_case
         "0001" "Ann" "Lee" "Case 1" "CT 1" "Plan1" = Ok d
    ∧ Resolver.Error d = ["Case Case 1 not found"]
    ∧ Resolver.Patient d = Some 10
    ∧ ¬ Resolver.context_invariant d.
Proof.
  eexists. split; [reflexivity |]. split; [reflexivity |]. split; [reflexivity |].
  intros [[_ (Hp & _)] | [He _]]; discriminate.
Qed.

(** C4 on the code: when the first record of the examination query carries
    another name than the one requested, no error is recorded. If the plan
    exists the context comes back without error and without examination
    handle; if the plan has to be created, reading the unbound local [exam]
    raises out of the resolver. *)
Theorem exam_mismatch_unreported (db : Resolver.PatientDB)
    (patient_id first_name last_name case_name exam_name plan_name : string)
    (patient_info case : Resolver.handle) (n : string) (rest : list string) :
  Resolver.QueryPatientInfo db first_name last_name patient_id = [patient_info] →
  Resolver.Cases_item db (Resolver.LoadPatient db patient_info) case_name = Ok case →
  Resolver.QueryExaminationInfo db patient_info exam_name = Ok (n :: rest) →
  n ≠ exam_name →
  (∀ plans plan,
     Resolver.QueryPlanInfo db case plan_name = Ok (plan_name :: plans) →
     Resolver.TreatmentPlans_item db false case plan_name = Ok plan →
     Resolver.load_patient_data db patient_id first_name last_name case_name exam_name plan_name
     = Ok {| Resolver.Error := [];
             Resolver.Case := Some case;
             Resolver.Patient := Some (Resolver.LoadPatient db patient_info);
             Resolver.Exam := None;
             Resolver.Plan := Some plan |})
  ∧ (Resolver.QueryPlanInfo db case plan_name = Ok [] →
     Resolver.load_patient_data db patient_id first_name last_name case_name exam_name plan_name
     = Raise UnboundLocalError).
Proof.
  intros Hpatient Hcase Hexam Hne.
  unfold Resolver.load_patient_data, Resolver.load_patient_data_calls.
  rewrite Hpatient, Hcase.
  unfold Resolver.exam_try. rewrite Hexam. cbn. rewrite decide_False by done. cbn.
  unfold Resolver.plan_stage, Resolver.plan_try, Resolver.plan_create, Resolver.plan_check.
  split.
  - intros plans plan Hq Ht. cbn. rewrite Hq. cbn. rewrite bool_decide_eq_true_2 by done.
    by rewrite Ht.
  - intros Hq. cbn. rewrite Hq. cbn. by rewrite decide_True by done.
Qed.

Lemma exam_mismatch_unreported_witness :
  Resolver.load_patient_data Scenario.db_other_exam "0001" "Ann" "Lee" "Case 1" "CT 1" "Plan1"
  = Ok {| Resolver.Error := []; Resolver.Case := Some 20; Resolver.Patient := Some 10;
          Resolver.Exam := None; Resolver.Plan := Some 40 |}.
Proof.
  refine (proj1 (exam_mismatch_unreported Scenario.db_other_exam
            "0001" "Ann" "Lee" "Case 1" "CT 1" "Plan1" 1 20 "CT 10" []
            eq_refl eq_refl eq_refl _) [] 40 eq_refl eq_refl).
  discriminate.
Defined.

(** ** The batch driver *)

Section DriverFacts.
Import Audit Naming Targets Driver.
Context `{OsPath}.
Variables (script_file file_csv : string) (fuel : nat).

Abbreviation main_row := (main_row script_file file_csv fuel).
Abbreviation main_loop := (main_loop script_file file_csv fuel).
Abbreviation ready := (ready script_file fuel).
Abbreviation resolved := (resolved fuel).
Abbreviation write_status := (write_status file_csv).
Abbreviation name_loop := (name_loop fuel).

Lemma add_events_app (s : State) (a b : list event) :
  add_events (add_events s a) b = add_events s (a ++ b).
Proof. unfold add_events. cbn. by rewrite app_assoc. Qed.

Lemma add_events_nil (s : State) : add_events s [] = s.
Proof. destruct s. unfold add_events. cbn. by rewrite app_nil_r. Qed.

(** The audit call writes the record when the four names are text. *)
Lemma write_status_text (row : Row) (patient_id case_name plan_name beamset_name : string)
    (patient_load : bool) (status : option (list string)) (s : State) :
  PatientID row = CStr patient_id → Case row = CStr case_name →
  PlanName row = CStr plan_name →
  write_status row (CStr beamset_name) patient_load status s
  = Val () {| fs := output_status (fs s) file_csv
                      (outcome patient_id case_name plan_name beamset_name
                         patient_load status);
              beam := beam s;
              trace := trace s |}.
Proof.
  intros Hid Hcase Hplan. unfold Driver.write_status, output_status_call.
  by rewrite Hid, Hcase, Hplan.
Qed.

(** It raises [TypeError] when one of them is not, the output file open
    and the record not written. *)
Lemma write_status_not_text (row : Row) (beamset_name : cell) (patient_load : bool)
    (status : option (list string)) (s : State) :
  (∀ x, PatientID row ≠ CStr x) ∨ (∀ x, Case row ≠ CStr x)
  ∨ (∀ x, PlanName row ≠ CStr x) ∨ (∀ x, beamset_name ≠ CStr x) →
  write_status row beamset_name patient_load status s
  = Halt (Crash TypeError)
      {| fs := open_output (fs s) file_csv; beam := beam s; trace := trace s |}.
Proof.
  unfold Driver.write_status, output_status_call.
  destruct (PatientID row), (Case row), (PlanName row), beamset_name; cbn;
    intros [Hno | [Hno | [Hno | Hno]]]; first [reflexivity | exfalso; by eapply Hno].
Qed.

(** The name loop gives text for text, and leaves any other cell as it
    is. *)
Lemma name_loop_text (w : World) (beamset_name : string) (c : cell) :
  name_loop w (CStr beamset_name) = Some c →
  ∃ name, c = CStr name
          ∧ resolve_name fuel (beamsets w) (randint w) 0 beamset_name = Some name.
Proof.
  unfold Driver.name_loop.
  destruct (resolve_name fuel (beamsets w) (randint w) 0 beamset_name) as [name|];
    [| discriminate].
  intros [= <-]. by exists name.
Qed.

Lemma name_loop_not_text (w : World) (beamset_name c : cell) :
  (∀ x, beamset_name ≠ CStr x) → name_loop w beamset_name = Some c → c = beamset_name.
Proof.
  intros Hno. unfold Driver.name_loop.
  destruct beamset_name as [x | z |]; [by destruct (Hno x) | |];
    destruct fuel; try discriminate;
    destruct (Naming.QueryBeamSetInfo _ _); try discriminate; by intros [= <-].
Qed.

Lemma main_row_resolved (row : Row) (w : World) (patient case plan : handle)
    (beamset_name : cell) (calls : list Resolver.call) (s : State) :
  resolved row w patient case plan beamset_name calls →
  main_row row w s
  = (elements ← lift (select_element w (BeamsetFile row) (ProtocolBeamset row)
                        (path_protocols script_file row));
     beamset_etree ← lift (item0 elements);
     technique ← text_of (find_technique beamset_etree);
     protocol_name ← text_of (find_name beamset_etree);
     let beamset_defs :=
       beamset_defs row (str_cell beamset_name) technique protocol_name in
     _ ← emit (CreateBeamset beamset_defs);
     rs_beam_set ← lift (create_beamset w beamset_defs);
     _ ← emit PatientSave;
     _ ← emit (SetCurrent rs_beam_set);
     beams ← lift (load_beams_xml w (BeamsetFile row) (ProtocolBeamset row)
                     (path_protocols script_file row));
     iso ← place_isocenter w rs_beam_set (iso_target beamset_defs);
     beams_load ← place_beams w beamset_defs rs_beam_set beams;
     if negb beams_load then
       _ ← write_status row beamset_name true None;
       halt Continue
     else
       _ ← emit PatientSave;
       _ ← emit (SetCurrent rs_beam_set);
       planning_stage w row)
    (add_events s ((event_of_call <$> calls) ++ [SetCurrent case; SetCurrent plan])).
Proof.
  intros (pd & Hload & Herr & Hpatient & Hcase & Hplan & Hname).
  unfold Driver.main_row. rewrite Hload.
  cbv [mbind M_bind lift mret M_ret emit emit_all method_of loop_result text_of halt
       fst snd].
  rewrite Herr, Hcase, Hplan, Hname, Hpatient, !add_events_app.
  reflexivity.
Qed.

Lemma main_row_ready (row : Row) (w : World) (defs : BeamSet) (rs_beam_set : handle)
    (beams : list Beam) (setup : list event) (s : State) :
  ready row w defs rs_beam_set beams setup →
  ∃ beamset_name,
    name_loop w (BeamsetName row) = Some beamset_name
    ∧ name defs = str_cell beamset_name
    ∧ main_row row w s
      = (iso ← place_isocenter w rs_beam_set (iso_target defs);
         beams_load ← place_beams w defs rs_beam_set beams;
         if negb beams_load then
           _ ← write_status row beamset_name true None;
           halt Continue
         else
           _ ← emit PatientSave;
           _ ← emit (SetCurrent rs_beam_set);
           planning_stage w row)
        (add_events s setup).
Proof.
  intros (patient & case & plan & beamset_name & calls & beamset_etree & others & technique
          & protocol_name & Hres & Hsel & Htech & Hprot & Hdefs & Hcreate & Hbeams & ->).
  exists beamset_name. split; [by destruct Hres as (? & _ & _ & _ & _ & _ & ?) |].
  split; [by rewrite Hdefs |].
  rewrite (main_row_resolved _ _ _ _ _ _ _ _ Hres).
  cbv [mbind M_bind lift mret M_ret emit text_of halt].
  rewrite Hsel. cbv [item0]. rewrite Htech, Hprot, <- Hdefs, Hcreate, Hbeams.
  rewrite !add_events_app, <- !app_assoc. reflexivity.
Qed.

(** A row for which the resolver reports an error goes to the audit call
    with nothing done to the patient. *)
Lemma main_row_error (row : Row) (w : World) (patient_data : Resolver.PatientData)
    (s : State) :
  (resolve_row row w).2 = Ok patient_data →
  Resolver.Error patient_data ≠ [] →
  main_row row w s
  = (_ ← write_status row (BeamsetName row) false (Some (Resolver.Error patient_data));
     halt Continue) s.
Proof.
  intros Hload Herr. unfold Driver.main_row.
  destruct (resolve_row row w) as [calls r] eqn:Hrow. cbn in Hload. subst r.
  rewrite (load_calls_error _ _ _ _ _ _ _ _ _ Hrow Herr).
  cbv [mbind M_bind lift mret M_ret emit_all fst snd]. cbn [fmap list_fmap].
  rewrite add_events_nil.
  destruct (Resolver.Error patient_data); [done | reflexivity].
Qed.

Lemma main_row_error_text (row : Row) (w : World) (patient_data : Resolver.PatientData)
    (patient_id case_name plan_name beamset_name : string) (s : State) :
  (resolve_row row w).2 = Ok patient_data →
  Resolver.Error patient_data ≠ [] →
  text_names row patient_id case_name plan_name beamset_name →
  main_row row w s
  = Halt Continue
      {| fs := output_status (fs s) file_csv
                 (outcome patient_id case_name plan_name beamset_name false
                    (Some (Resolver.Error patient_data)));
         beam := beam s;
         trace := trace s |}.
Proof.
  intros Hload Herr (Hid & Hcase & Hplan & Hname).
  rewrite (main_row_error _ _ _ _ Hload Herr). cbv [mbind M_bind halt].
  by rewrite Hname, (write_status_text _ _ _ _ _ _ _ _ Hid Hcase Hplan).
Qed.

Lemma main_row_error_not_text (row : Row) (w : World) (patient_data : Resolver.PatientData)
    (s : State) :
  (resolve_row row w).2 = Ok patient_data →
  Resolver.Error patient_data ≠ [] →
  name_not_text row →
  main_row row w s
  = Halt (Crash TypeError)
      {| fs := open_output (fs s) file_csv; beam := beam s; trace := trace s |}.
Proof.
  intros Hload Herr Hno.
  rewrite (main_row_error _ _ _ _ Hload Herr). cbv [mbind M_bind halt].
  by rewrite write_status_not_text.
Qed.

Lemma place_beams_unsupported (w : World) (defs : BeamSet) (rs_beam_set : handle)
    (beams : list Beam) (s : State) :
  technique defs ≠ "TomoHelical" → technique defs ≠ "VMAT" →
  place_beams w defs rs_beam_set beams s = Val false s.
Proof.
  intros Htomo Hvmat. unfold place_beams. by rewrite !decide_False by done.
Qed.

(** A row that reaches the dispatch with a technique that is not
    supported goes to the audit call. *)
Lemma main_row_unsupported (row : Row) (w : World) (defs : BeamSet) (rs_beam_set iso : handle)
    (beams : list Beam) (setup : list event) (s : State) :
  ready row w defs rs_beam_set beams setup →
  find_isocenter_parameters w rs_beam_set (iso_target defs) = Ok iso →
  technique defs ≠ "TomoHelical" → technique defs ≠ "VMAT" →
  ∃ beamset_name,
    name_loop w (BeamsetName row) = Some beamset_name
    ∧ name defs = str_cell beamset_name
    ∧ main_row row w s
      = (_ ← write_status row beamset_name true None; halt Continue) (add_events s setup).
Proof.
  intros Hready Hiso Htomo Hvmat.
  destruct (main_row_ready _ _ _ _ _ _ s Hready) as (beamset_name & Hloop & Hname & ->).
  exists beamset_name. split; [done |]. split; [done |].
  cbv [mbind M_bind place_isocenter mret M_ret]. rewrite Hiso.
  rewrite place_beams_unsupported by done. reflexivity.
Qed.

Lemma main_row_unsupported_text (row : Row) (w : World) (defs : BeamSet)
    (rs_beam_set iso : handle) (beams : list Beam) (setup : list event)
    (patient_id case_name plan_name beamset_name : string) (s : State) :
  ready row w defs rs_beam_set beams setup →
  find_isocenter_parameters w rs_beam_set (iso_target defs) = Ok iso →
  technique defs ≠ "TomoHelical" → technique defs ≠ "VMAT" →
  text_names row patient_id case_name plan_name beamset_name →
  main_row row w s
  = Halt Continue
      {| fs := output_status (fs s) file_csv
                 (outcome patient_id case_name plan_name (name defs) true None);
         beam := beam s;
         trace := trace s ++ setup |}.
Proof.
  intros Hready Hiso Htomo Hvmat (Hid & Hcase & Hplan & Hname).
  destruct (main_row_unsupported _ _ _ _ _ _ _ s Hready Hiso Htomo Hvmat)
    as (c & Hloop & Hdefs & ->).
  rewrite Hname in Hloop. destruct (name_loop_text _ _ _ Hloop) as (name & -> & _).
  cbv [mbind M_bind halt].
  rewrite (write_status_text _ _ _ _ _ _ _ _ Hid Hcase Hplan). by rewrite Hdefs.
Qed.

Lemma main_row_unsupported_not_text (row : Row) (w : World) (defs : BeamSet)
    (rs_beam_set iso : handle) (beams : list Beam) (setup : list event) (s : State) :
  ready row w defs rs_beam_set beams setup →
  find_isocenter_parameters w rs_beam_set (iso_target defs) = Ok iso →
  technique defs ≠ "TomoHelical" → technique defs ≠ "VMAT" →
  name_not_text row →
  main_row row w s
  = Halt (Crash TypeError)
      {| fs := open_output (fs s) file_csv; beam := beam s; trace := trace s ++ setup |}.
Proof.
  intros Hready Hiso Htomo Hvmat Hno.
  destruct (main_row_unsupported _ _ _ _ _ _ _ s Hready Hiso Htomo Hvmat)
    as (c & Hloop & Hdefs & ->).
  cbv [mbind M_bind halt]. rewrite write_status_not_text; [reflexivity |].
  destruct Hno as [Hno | [Hno | [Hno | Hno]]]; [by left | by right; left |
    by right; right; left |].
  right; right; right. by rewrite (name_loop_not_text _ _ _ Hno Hloop).
Qed.

Lemma main_loop_continue (row : Row) (w : World) (rest : list (Row * World)) (s s' : State) :
  main_row row w s = Halt Continue s' →
  main_loop ((row, w) :: rest) s = main_loop rest s'.
Proof. intros Hrow. cbn. by rewrite Hrow. Qed.

Lemma main_loop_fall_through (row : Row) (w : World) (rest : list (Row * World))
    (s s' : State) :
  main_row row w s = Val () s' →
  main_loop ((row, w) :: rest) s = main_loop rest s'.
Proof. intros Hrow. cbn. by rewrite Hrow. Qed.

Lemma main_loop_crash (row : Row) (w : World) (rest : list (Row * World)) (s s' : State)
    (e : exn) :
  main_row row w s = Halt (Crash e) s' →
  main_loop ((row, w) :: rest) s = Ended (Crash e) s'.
Proof. intros Hrow. cbn. by rewrite Hrow. Qed.

Lemma main_loop_exit (row : Row) (w : World) (rest : list (Row * World)) (s s' : State)
    (msg : string) :
  main_row row w s = Halt (Exit msg) s' →
  main_loop ((row, w) :: rest) s = Ended (Exit msg) s'.
Proof. intros Hrow. cbn. by rewrite Hrow. Qed.

(** The planning-structure stage writes no file. *)
Lemma planning_stage_fs (w : World) (row : Row) (s s' : State) (c : control) :
  planning_stage w row s = Val () s' ∨ planning_stage w row s = Halt c s' →
  fs s' = fs s.
Proof.
  unfold planning_stage. cbv [mbind M_bind lift mret M_ret emit halt].
  destruct (planning_structure_config w) as [presets | e];
    [| intros [[=] | [= _ <-]]; reflexivity].
  destruct (List.filter _ presets) as [|p ps]; [intros [[= <-] | [=]]; reflexivity |].
  destruct (planning_structures w (planning_request row p));
    intros [Hs | Hs]; inversion Hs; reflexivity.
Qed.

Lemma ready_iso_target (row : Row) (w : World) (defs : BeamSet) (rs_beam_set : handle)
    (beams : list Beam) (setup : list event) :
  ready row w defs rs_beam_set beams setup → iso_target defs = Isotarget row.
Proof.
  intros (? & ? & ? & ? & ? & ? & ? & ? & ? & _ & _ & _ & _ & -> & _). reflexivity.
Qed.

Lemma main_row_isocenter (row : Row) (w : World) (defs : BeamSet) (rs_beam_set : handle)
    (beams : list Beam) (setup : list event) (e : exn) (s : State) :
  ready row w defs rs_beam_set beams setup →
  find_isocenter_parameters w rs_beam_set (iso_target defs) = Raise e →
  main_row row w s
  = Halt (Exit "Failed to place isocenter")
      (add_events s
         (setup ++ [LogWarning ("Aborting, could not locate center of " +:+ Isotarget row)])).
Proof.
  intros Hready Hiso.
  destruct (main_row_ready _ _ _ _ _ _ s Hready) as (beamset_name & _ & _ & ->).
  cbv [mbind M_bind place_isocenter mret M_ret emit halt]. rewrite Hiso.
  rewrite add_events_app. by rewrite (ready_iso_target _ _ _ _ _ _ Hready).
Qed.

Lemma main_row_tomo (row : Row) (w : World) (defs : BeamSet) (rs_beam_set iso : handle)
    (beams : list Beam) (setup : list event) (s : State) :
  ready row w defs rs_beam_set beams setup →
  find_isocenter_parameters w rs_beam_set (iso_target defs) = Ok iso →
  technique defs = "TomoHelical" → 1 < length beams →
  main_row row w s
  = (beam ← get_beam;
     _ ← emit (PlaceTomoBeam beam);
     _ ← lift (place_tomo_beam_in_beamset w rs_beam_set beam);
     _ ← emit PatientSave;
     _ ← emit (SetCurrent rs_beam_set);
     planning_stage w row)
    (add_events s
       (setup ++ [LogWarning ("Invalid tomo beamset in " +:+ name defs +:+
                              ", more than one Tomo beam found.")])).
Proof.
  intros Hready Hiso Htomo Hmany.
  destruct (main_row_ready _ _ _ _ _ _ s Hready) as (beamset_name & _ & _ & ->).
  cbv [mbind M_bind place_isocenter place_beams mret M_ret emit halt]. rewrite Hiso.
  rewrite decide_True by done. apply Nat.ltb_lt in Hmany. rewrite Hmany.
  rewrite add_events_app. unfold get_beam.
  destruct (beam (add_events s _)); [| reflexivity].
  destruct (place_tomo_beam_in_beamset w rs_beam_set b); reflexivity.
Qed.

Lemma main_row_vmat (row : Row) (w : World) (defs : BeamSet) (rs_beam_set iso : handle)
    (beams : list Beam) (setup : list event) (s : State) :
  ready row w defs rs_beam_set beams setup →
  find_isocenter_parameters w rs_beam_set (iso_target defs) = Ok iso →
  technique defs = "VMAT" →
  place_beams_in_beamset w rs_beam_set beams = Ok () →
  main_row row w s
  = planning_stage w row
      (add_events s (setup ++ [PlaceBeams beams; PatientSave; SetCurrent rs_beam_set])).
Proof.
  intros Hready Hiso Hvmat Hplace.
  destruct (main_row_ready _ _ _ _ _ _ s Hready) as (beamset_name & _ & _ & ->).
  cbv [mbind M_bind place_isocenter place_beams mret M_ret emit halt lift]. rewrite Hiso.
  rewrite Hvmat. rewrite decide_False by done. rewrite decide_True by done.
  rewrite Hplace. cbn [negb]. rewrite !add_events_app. reflexivity.
Qed.

End DriverFacts.


(** C2 on the code. A row whose template has the technique [TomoHelical]
    and more than one beam logs the warning and then goes on to place a
    beam all the same: the local [beam] is read although this row did not
    bind it. On a run where no earlier row bound it, the read raises and the
    run ends there; otherwise the beam of the earlier row is placed and the
    row goes on to its planning structures. Either way the row writes no
    audit record. *)
Theorem tomo_many_beams_placed `{Audit.OsPath} (script_file file_csv : string)
    (fuel : nat) (row : Driver.Row) (w : Driver.World) (defs : Driver.BeamSet)
    (rs_beam_set iso : Driver.handle) (beams : list Driver.Beam)
    (setup : list Driver.event) (s : Driver.State) :
  Driver.ready script_file fuel row w defs rs_beam_set beams setup →
  Driver.find_isocenter_parameters w rs_beam_set (Driver.iso_target defs) = Ok iso →
  Driver.technique defs = "TomoHelical" → 1 < length beams →
  let warning :=
    Driver.LogWarning ("Invalid tomo beamset in " +:+ Driver.name defs +:+
                       ", more than one Tomo beam found.") in
  (Driver.beam s = None →
   ∀ rest, Driver.main_loop script_file file_csv fuel ((row, w) :: rest) s
           = Driver.Ended (Driver.Crash UnboundLocalError)
               (Driver.add_events s (setup ++ [warning])))
  ∧ (∀ stale, Driver.beam s = Some stale →
       Driver.place_tomo_beam_in_beamset w rs_beam_set stale = Ok () →
       Driver.main_row script_file file_csv fuel row w s
       = Driver.planning_stage w row
           (Driver.add_events s
              (setup ++ [warning; Driver.PlaceTomoBeam stale; Driver.PatientSave;
                         Driver.SetCurrent rs_beam_set])))
  ∧ (∀ s', (Driver.main_row script_file file_csv fuel row w s = Driver.Val () s'
            ∨ ∃ c, Driver.main_row script_file file_csv fuel row w s = Driver.Halt c s') →
           Driver.fs s' = Driver.fs s).
Proof.
  intros Hready Hiso Htomo Hmany warning.
  assert (Hrow := main_row_tomo script_file file_csv fuel row w defs rs_beam_set iso beams
                    setup s Hready Hiso Htomo Hmany).
  fold warning in Hrow. split; [| split].
  - intros Hbeam rest. apply main_loop_crash. rewrite Hrow.
    cbv [mbind Driver.M_bind Driver.get_beam]. cbn. by rewrite Hbeam.
  - intros stale Hbeam Hplace. rewrite Hrow.
    cbv [mbind Driver.M_bind Driver.get_beam Driver.emit Driver.lift mret Driver.M_ret].
    cbn [Driver.beam Driver.add_events]. rewrite Hbeam, Hplace.
    rewrite !add_events_app. cbn [app]. by rewrite <- !app_assoc.
  - intros s' Hs'. rewrite Hrow in Hs'.
    cbv [mbind Driver.M_bind Driver.get_beam Driver.emit Driver.lift mret Driver.M_ret
         Driver.halt] in Hs'.
    cbn [Driver.beam Driver.add_events] in Hs'.
    destruct (Driver.beam s) as [stale|].
    + destruct (Driver.place_tomo_beam_in_beamset w rs_beam_set stale).
      * destruct Hs' as [Hs' | [c Hs']].
        -- exact (planning_stage_fs w row _ s' Driver.Continue (or_introl Hs')).
        -- exact (planning_stage_fs w row _ s' c (or_intror Hs')).
      * destruct Hs' as [[=] | [c [= _ <-]]]. reflexivity.
    + destruct Hs' as [[=] | [c [= _ <-]]]. reflexivity.
Qed.

(** C1 on the code. A row whose every stage succeeds (patient loaded,
    beams placed, planning structures generated) reaches the end of the
    loop body without a call of the audit writer: the files are as they
    were, and the driver moves to the next row. *)
Theorem loaded_row_writes_no_record `{Audit.OsPath} (script_file file_csv : string)
    (fuel : nat) (row : Driver.Row) (w : Driver.World) (defs : Driver.BeamSet)
    (rs_beam_set iso : Driver.handle) (beams : list Driver.Beam)
    (setup : list Driver.event) (presets others : list Driver.Preset)
    (preset : Driver.Preset) (s : Driver.State) :
  Driver.ready script_file fuel row w defs rs_beam_set beams setup →
  Driver.find_isocenter_parameters w rs_beam_set (Driver.iso_target defs) = Ok iso →
  Driver.technique defs = "VMAT" →
  Driver.place_beams_in_beamset w rs_beam_set beams = Ok () →
  Driver.planning_structure_config w = Ok presets →
  List.filter
    (λ p, bool_decide (Driver.PlanningStructureWorkflow row
                       = Targets.CStr (Driver.preset_name p))) presets
  = preset :: others →
  Driver.planning_structures w (Driver.planning_request row preset) = Ok () →
  let s' :=
    Driver.add_events s
      (setup ++ [Driver.PlaceBeams beams; Driver.PatientSave; Driver.SetCurrent rs_beam_set;
                 Driver.PlanningStructures (Driver.planning_request row preset)]) in
  Driver.main_row script_file file_csv fuel row w s = Driver.Val () s'
  ∧ Driver.fs s' = Driver.fs s
  ∧ ∀ rest, Driver.main_loop script_file file_csv fuel ((row, w) :: rest) s
            = Driver.main_loop script_file file_csv fuel rest s'.
Proof.
  intros Hready Hiso Hvmat Hplace Hconfig Hfilter Hstructs s'.
  assert (Hrow : Driver.main_row script_file file_csv fuel row w s = Driver.Val () s').
  { rewrite (main_row_vmat script_file file_csv fuel row w defs rs_beam_set iso beams setup s
               Hready Hiso Hvmat Hplace).
    unfold Driver.planning_stage.
    cbv [mbind Driver.M_bind Driver.emit Driver.lift mret Driver.M_ret].
    rewrite Hconfig, Hfilter, Hstructs. rewrite add_events_app.
    unfold s'. by rewrite <- app_assoc. }
  split; [exact Hrow |]. split; [reflexivity |].
  intros rest. by apply main_loop_fall_through.
Qed.

(** C6, as the code has it. For a row whose four names are text, a failure
    that the resolver reports in its error list, and a technique that is
    not supported, end the row only: the audit record is written and the
    loop goes on with the rows that follow. An exception raised while the
    template is selected or the beamset is created is caught nowhere: the
    run ends with it, whatever rows follow. *)
Theorem row_failure_and_the_batch `{Audit.OsPath} (script_file file_csv : string)
    (fuel : nat) (row : Driver.Row) (w : Driver.World) (rest : list (Driver.Row * Driver.World))
    (s : Driver.State) :
  (∀ patient_data patient_id case_name plan_name beamset_name,
     (Driver.resolve_row row w).2 = Ok patient_data →
     Resolver.Error patient_data ≠ [] →
     Driver.text_names row patient_id case_name plan_name beamset_name →
     Driver.main_loop script_file file_csv fuel ((row, w) :: rest) s
     = Driver.main_loop script_file file_csv fuel rest
         {| Driver.fs := Audit.output_status (Driver.fs s) file_csv
                           (Driver.outcome patient_id case_name plan_name beamset_name false
                              (Some (Resolver.Error patient_data)));
            Driver.beam := Driver.beam s;
            Driver.trace := Driver.trace s |})
  ∧ (∀ defs rs_beam_set iso beams setup patient_id case_name plan_name beamset_name,
       Driver.ready script_file fuel row w defs rs_beam_set beams setup →
       Driver.find_isocenter_parameters w rs_beam_set (Driver.iso_target defs) = Ok iso →
       Driver.technique defs ≠ "TomoHelical" → Driver.technique defs ≠ "VMAT" →
       Driver.text_names row patient_id case_name plan_name beamset_name →
       Driver.main_loop script_file file_csv fuel ((row, w) :: rest) s
       = Driver.main_loop script_file file_csv fuel rest
           {| Driver.fs := Audit.output_status (Driver.fs s) file_csv
                             (Driver.outcome patient_id case_name plan_name
                                (Driver.name defs) true None);
              Driver.beam := Driver.beam s;
              Driver.trace := Driver.trace s ++ setup |})
  ∧ (∀ patient case plan beamset_name calls,
       Driver.resolved fuel row w patient case plan beamset_name calls →
       let current :=
         ((Driver.event_of_call <$> calls)
          ++ [Driver.SetCurrent case; Driver.SetCurrent plan])%list in
       (∀ e, Driver.select_element w (Driver.BeamsetFile row) (Driver.ProtocolBeamset row)
               (Driver.path_protocols script_file row) = Raise e →
             Driver.main_loop script_file file_csv fuel ((row, w) :: rest) s
             = Driver.Ended (Driver.Crash e) (Driver.add_events s current))
       ∧ (Driver.select_element w (Driver.BeamsetFile row) (Driver.ProtocolBeamset row)
            (Driver.path_protocols script_file row) = Ok [] →
          Driver.main_loop script_file file_csv fuel ((row, w) :: rest) s
          = Driver.Ended (Driver.Crash IndexError) (Driver.add_events s current))
       ∧ (∀ beamset_etree others technique protocol_name e,
            Driver.select_element w (Driver.BeamsetFile row) (Driver.ProtocolBeamset row)
              (Driver.path_protocols script_file row) = Ok (beamset_etree :: others) →
            Driver.find_technique beamset_etree = Some technique →
            Driver.find_name beamset_etree = Some protocol_name →
            let defs :=
              Driver.beamset_defs row (Targets.str_cell beamset_name) technique
                protocol_name in
            Driver.create_beamset w defs = Raise e →
            Driver.main_loop script_file file_csv fuel ((row, w) :: rest) s
            = Driver.Ended (Driver.Crash e)
                (Driver.add_events s (current ++ [Driver.CreateBeamset defs])%list))).
Proof.
  split; [| split].
  - intros patient_data patient_id case_name plan_name beamset_name Hload Herr Htext.
    apply main_loop_continue. by apply main_row_error_text.
  - intros defs rs_beam_set iso beams setup patient_id case_name plan_name beamset_name
      Hready Hiso Htomo Hvmat Htext.
    apply main_loop_continue. by eapply main_row_unsupported_text.
  - intros patient case plan beamset_name calls Hres current.
    assert (Hrow := main_row_resolved script_file file_csv fuel row w patient case plan
                      beamset_name calls s Hres).
    fold current in Hrow.
    split; [| split].
    + intros e Hsel. apply main_loop_crash. rewrite Hrow.
      cbv [mbind Driver.M_bind Driver.lift Driver.halt]. by rewrite Hsel.
    + intros Hsel. apply main_loop_crash. rewrite Hrow.
      cbv [mbind Driver.M_bind Driver.lift Driver.halt mret Driver.M_ret]. by rewrite Hsel.
    + intros beamset_etree others technique protocol_name e Hsel Htech Hprot defs Hcreate.
      apply main_loop_crash. rewrite Hrow.
      cbv [mbind Driver.M_bind Driver.lift Driver.halt mret Driver.M_ret Driver.emit
           Driver.text_of].
      rewrite Hsel. cbv [item0]. rewrite Htech, Hprot. fold defs. rewrite Hcreate.
      by rewrite add_events_app.
Qed.

(** C7, as the code has it. When the isocenter of a row cannot be computed,
    the warning that names the isocenter target is logged and the run ends
    at once with the exit message, whatever rows follow; the row writes no
    audit record. A failure that the resolver reports in its error list for
    a row whose four names are text is different: it ends its row only. *)
Theorem isocenter_failure_ends_run `{Audit.OsPath} (script_file file_csv : string)
    (fuel : nat) (row : Driver.Row) (w : Driver.World) (defs : Driver.BeamSet)
    (rs_beam_set : Driver.handle) (beams : list Driver.Beam) (setup : list Driver.event)
    (e : exn) (rest : list (Driver.Row * Driver.World)) (s : Driver.State) :
  Driver.ready script_file fuel row w defs rs_beam_set beams setup →
  Driver.find_isocenter_parameters w rs_beam_set (Driver.iso_target defs) = Raise e →
  let s' :=
    Driver.add_events s
      (setup ++ [Driver.LogWarning ("Aborting, could not locate center of "
                                    +:+ Driver.Isotarget row)]) in
  Driver.main_loop script_file file_csv fuel ((row, w) :: rest) s
  = Driver.Ended (Driver.Exit "Failed to place isocenter") s'
  ∧ Driver.fs s' = Driver.fs s
  ∧ (∀ row' w' patient_data patient_id case_name plan_name beamset_name,
       (Driver.resolve_row row' w').2 = Ok patient_data →
       Resolver.Error patient_data ≠ [] →
       Driver.text_names row' patient_id case_name plan_name beamset_name →
       ∃ s'', Driver.main_loop script_file file_csv fuel ((row', w') :: rest) s
              = Driver.main_loop script_file file_csv fuel rest s'').
Proof.
  intros Hready Hiso s'. split; [| split].
  - apply main_loop_exit. by eapply main_row_isocenter.
  - reflexivity.
  - intros row' w' patient_data patient_id case_name plan_name beamset_name
      Hload Herr Htext.
    eexists. apply main_loop_continue. by eapply main_row_error_text.
Qed.

(** ** The properties on concrete runs *)

Lemma scenario_ready (d : Resolver.PatientDB) (technique : string) (beams : list Driver.Beam)
    (w : Driver.World) :
  Driver.db w = Scenario.db_ok →
  Driver.beamsets w = [] →
  Driver.select_element w = Driver.select_element (Scenario.world d technique beams) →
  Driver.create_beamset w = Driver.create_beamset (Scenario.world d technique beams) →
  Driver.load_beams_xml w = Driver.load_beams_xml (Scenario.world d technique beams) →
  @Driver.ready Audit.posix Scenario.script_file 10 Scenario.row1 w
    (Scenario.defs1 technique) 50 beams (Scenario.setup1 technique).
Proof.
  intros Hdb Hsets Hsel Hcreate Hbeams.
  exists 10, 20, 40, (Targets.CStr "Tmplt_20Feb2020"), [],
    {| Driver.find_technique := Some technique; Driver.find_name := Some "Tomo3D-FW5" |},
    [], technique, "Tomo3D-FW5".
  unfold Driver.resolved, Driver.resolve_row, Driver.name_loop.
  rewrite Hdb, Hsets, Hsel, Hcreate, Hbeams.
  split; [eexists; repeat split; reflexivity |]. repeat split; reflexivity.
Qed.


Lemma merge_dict_entries_witness :
  ∃ target_dict, Targets.merge_dict Scenario.three_pairs = Some (Ok target_dict)
    ∧ length target_dict = 3.
Proof.
  destruct (merge_dict_entries Scenario.three_pairs) as (r & Hr & _ & Hthree).
  destruct (Hthree "PTV_70" "PTV_60" "PTV_54" 7000%Z 6000%Z 5400%Z)
    as (target_dict & -> & Hsize & _).
  - unfold Targets.three_populated, Targets.int64.
    repeat match goal with
           | |- _ ∧ _ => split
           | |- _ !! _ = _ => vm_compute; reflexivity
           | |- _ ≠ _ => discriminate
           | |- (_ ≤ _)%Z => vm_compute; discriminate
           | |- (_ < _)%Z => vm_compute; reflexivity
           end.
  - left. vm_compute. reflexivity.
  - exists target_dict. split; [exact Hr | exact Hsize].
Defined.

(** The pair whose dose is NaN leaves no entry. *)
Example merge_dict_skips_nan :
  Targets.merge_dict Scenario.second_dose_missing
  = Some (Ok [(Targets.CStr "PTV_70", Targets.CNum 7000);
              (Targets.CStr "PTV_54", Targets.CNum 5400)]).
Proof. vm_compute. reflexivity. Qed.



Lemma tomo_many_beams_placed_witness :
  Scenario.run_rows
    [(Scenario.row1, Scenario.world Scenario.db_ok "TomoHelical" [1; 2]);
     (Scenario.row2, Scenario.world Scenario.db_ok "VMAT" [1; 2])]
    Scenario.start
  = Driver.Ended (Driver.Crash UnboundLocalError)
      (Driver.add_events Scenario.start
         (Scenario.setup1 "TomoHelical" ++
          [Driver.LogWarning
             "Invalid tomo beamset in Tmplt_20Feb2020, more than one Tomo beam found."])).
Proof.
  destruct (@tomo_many_beams_placed Audit.posix Scenario.script_file Scenario.file_csv
              10 Scenario.row1 (Scenario.world Scenario.db_ok "TomoHelical" [1; 2])
              (Scenario.defs1 "TomoHelical") 50 60 [1; 2] (Scenario.setup1 "TomoHelical")
              Scenario.start) as (Hcrash & _).
  - by apply (scenario_ready Scenario.db_ok).
  - reflexivity.
  - reflexivity.
  - cbn. lia.
  - exact (Hcrash eq_refl _).
Defined.

Lemma loaded_row_writes_no_record_witness :
  ∃ s', Scenario.run_rows [(Scenario.row1, Scenario.world Scenario.db_ok "VMAT" [1; 2])]
          Scenario.start
        = Driver.Ended (Driver.Exit "Done") s'
    ∧ Driver.fs s' = ∅.
Proof.
  destruct (@loaded_row_writes_no_record Audit.posix Scenario.script_file Scenario.file_csv
              10 Scenario.row1 (Scenario.world Scenario.db_ok "VMAT" [1; 2])
              (Scenario.defs1 "VMAT") 50 60 [1; 2] (Scenario.setup1 "VMAT")
              [Scenario.preset_hn] [] Scenario.preset_hn Scenario.start)
    as (_ & Hfs & Hloop).
  - by apply (scenario_ready Scenario.db_ok).
  - reflexivity.
  - reflexivity.
  - reflexivity.
  - reflexivity.
  - reflexivity.
  - reflexivity.
  - eexists. split; [exact (Hloop []) | exact Hfs].
Defined.

Lemma row_failure_and_the_batch_witness :
  ∃ s', Scenario.run_rows
          [(Scenario.row2, Scenario.world Scenario.db_no_patient "VMAT" [1; 2]);
           (Scenario.row1, Scenario.world Scenario.db_ok "VMAT" [1; 2])]
          Scenario.start
        = Scenario.run_rows [(Scenario.row1, Scenario.world Scenario.db_ok "VMAT" [1; 2])] s'
    ∧ Driver.fs s' !! Scenario.out_file
      = Some (Audit.header +:+ Audit.output_message Scenario.record_b).
Proof.
  destruct (@row_failure_and_the_batch Audit.posix Scenario.script_file Scenario.file_csv
              10 Scenario.row2 (Scenario.world Scenario.db_no_patient "VMAT" [1; 2])
              [(Scenario.row1, Scenario.world Scenario.db_ok "VMAT" [1; 2])]
              Scenario.start) as (Herror & _).
  eexists. split.
  - apply (Herror _ "MR0002" "Case 1" "Plan2" "Tmplt_21Feb2020" eq_refl);
      [discriminate | by repeat split].
  - vm_compute. reflexivity.
Defined.

(** C6 as stated fails: the protocol file of the first row holds no
    template of the requested name; indexing the empty answer raises, the
    run ends there, and the second row, which would have left its record,
    is never attempted. *)
Lemma template_failure_counterexample :
  (∃ s', Scenario.run_rows
           [(Scenario.row1, Scenario.world_no_template Scenario.db_ok);
            (Scenario.row2, Scenario.world Scenario.db_no_patient "VMAT" [1; 2])]
           Scenario.start
         = Driver.Ended (Driver.Crash IndexError) s'
     ∧ Driver.fs s' !! Scenario.out_file = None
     ∧ Driver.trace s' = [Driver.SetCurrent 20; Driver.SetCurrent 40])
  ∧ (∃ s'', Scenario.run_rows
              [(Scenario.row2, Scenario.world Scenario.db_no_patient "VMAT" [1; 2])]
              Scenario.start
            = Driver.Ended (Driver.Exit "Done") s''
      ∧ Driver.fs s'' !! Scenario.out_file
        = Some (Audit.header +:+ Audit.output_message Scenario.record_b)).
Proof.
  split; eexists; (split; [vm_compute; reflexivity |]).
  - split; vm_compute; reflexivity.
  - vm_compute. reflexivity.
Qed.

Lemma isocenter_failure_ends_run_witness :
  Scenario.run_rows
    [(Scenario.row1, Scenario.world_no_isocenter Scenario.db_ok);
     (Scenario.row2, Scenario.world Scenario.db_no_patient "VMAT" [1; 2])]
    Scenario.start
  = Driver.Ended (Driver.Exit "Failed to place isocenter")
      (Driver.add_events Scenario.start
         (Scenario.setup1 "VMAT" ++
          [Driver.LogWarning "Aborting, could not locate center of All_PTVs"])).
Proof.
  refine (proj1 (@isocenter_failure_ends_run Audit.posix Scenario.script_file
                   Scenario.file_csv 10 Scenario.row1
                   (Scenario.world_no_isocenter Scenario.db_ok) (Scenario.defs1 "VMAT") 50
                   [1; 2] (Scenario.setup1 "VMAT") RuntimeError _ Scenario.start _ eq_refl)).
  by apply (scenario_ready Scenario.db_ok).
Defined.

(** C7 as stated fails in its last clause: the isocenter of the first row
    is found, its beams cannot be placed, and this failure too ends the
    whole run; the second row is never attempted. *)
Lemma placement_failure_counterexample :
  Driver.find_isocenter_parameters (Scenario.world_no_placement Scenario.db_ok) 50 "All_PTVs"
  = Ok 60
  ∧ ∃ s', Scenario.run_rows
            [(Scenario.row1, Scenario.world_no_placement Scenario.db_ok);
             (Scenario.row2, Scenario.world Scenario.db_no_patient "VMAT" [1; 2])]
            Scenario.start
          = Driver.Ended (Driver.Crash RuntimeError) s'
      ∧ Driver.fs s' !! Scenario.out_file = None
      ∧ Driver.trace s' = (Scenario.setup1 "VMAT" ++ [Driver.PlaceBeams [1; 2]])%list.
Proof.
  split; [reflexivity |].
  eexists. split; [vm_compute; reflexivity |]. split; vm_compute; reflexivity.
Qed.

(** The row of C4 in the driver: the examination did not match, the
    resolver reported nothing, and the row went through beamset creation,
    beam placement and planning structures. *)
Example exam_mismatch_row_goes_on :
  ∃ s', Scenario.run_rows
          [(Scenario.row1, Scenario.world Scenario.db_other_exam "VMAT" [1; 2])]
          Scenario.start
        = Driver.Ended (Driver.Exit "Done") s'
    ∧ Driver.fs s' !! Scenario.out_file = None
    ∧ Driver.PlaceBeams [1; 2] ∈ Driver.trace s'.
Proof.
  eexists. split; [vm_compute; reflexivity |].
  split; [vm_compute; reflexivity |].
  cbn. apply list_elem_of_In. cbn. tauto.
Qed.

(** The row of C2 after a Tomo row with one beam: the beam of the earlier
    row is placed again, and neither row leaves an audit record. *)
Example tomo_many_beams_stale_beam :
  ∃ s', Scenario.run_rows
          [(Scenario.row1, Scenario.world Scenario.db_ok "TomoHelical" [5]);
           (Scenario.row2, Scenario.world Scenario.db_ok "TomoHelical" [1; 2])]
          Scenario.start
        = Driver.Ended (Driver.Exit "Done") s'
    ∧ Driver.fs s' !! Scenario.out_file = None
    ∧ List.filter (λ e, match e with Driver.PlaceTomoBeam _ => true | _ => false end)
        (Driver.trace s')
      = [Driver.PlaceTomoBeam 5; Driver.PlaceTomoBeam 5].
Proof.
  eexists. split; [vm_compute; reflexivity |].
  split; vm_compute; reflexivity.
Qed.

(** * Further properties of the code *)

(** ** Further facts on the audit writer *)

Section TextFacts.
Import Text.

Lemma repr_char_plain (c : ascii) :
  plain_char c = true → repr_char SQUOTE c = String c EmptyString.
Proof.
  destruct c as [[] [] [] [] [] [] [] []]; vm_compute; intros; reflexivity || discriminate.
Qed.

Lemma mem_char_plain (s : string) : plain s = true → mem_char SQUOTE s = false.
Proof.
  induction s as [|c s IH]; cbn; [done |].
  intros [Hc Hs]%andb_true_iff. rewrite (IH Hs).
  destruct (Ascii.eqb SQUOTE c) eqn:Heq; [| done].
  apply Ascii.eqb_eq in Heq as <-. discriminate Hc.
Qed.

Lemma repr_body_plain (s : string) : plain s = true → repr_body SQUOTE s = s.
Proof.
  induction s as [|c s IH]; cbn [repr_body plain]; [done |].
  intros [Hc Hs]%andb_true_iff. by rewrite (repr_char_plain c Hc), (IH Hs).
Qed.

Lemma repr_str_plain (s : string) :
  plain s = true → repr_str s = "'" +:+ s +:+ "'".
Proof.
  intros Hs. unfold repr_str. rewrite (mem_char_plain s Hs). cbn [andb].
  by rewrite (repr_body_plain s Hs).
Qed.

(** Where a text begins with another. *)
Lemma prefix_app (a b : string) : String.prefix a (a +:+ b) = true.
Proof.
  induction a as [|x a IH]; [by destruct b |].
  rewrite append_cons. cbn. destruct (ascii_dec x x); [exact IH | congruence].
Qed.

Lemma prefix_split (a s : string) : String.prefix a s = true → ∃ b, s = a +:+ b.
Proof.
  revert s. induction a as [|x a IH]; intros s Hp; [by exists s |].
  destruct s as [|y s]; [discriminate |]. cbn in Hp.
  destruct (ascii_dec x y) as [-> |]; [| discriminate].
  destruct (IH s Hp) as [b ->]. by exists b.
Qed.

Lemma replace_from_no_occurrence (old new s : string) :
  occurs old s = false → replace_from old new 0 s = s.
Proof.
  induction s as [|c s IH]; [done |].
  cbn [occurs replace_from]. intros [Hp Ho]%orb_false_iff.
  rewrite Hp. by rewrite (IH Ho).
Qed.

Lemma prefix_csv_cut (c : ascii) (s : string) :
  String.prefix ".csv" (String c (s +:+ ".csv"))
  = String.prefix ".csv" (String c (s +:+ ".cs")).
Proof.
  destruct s as [|c1 [|c2 [|c3 s]]]; cbv [String.append]; cbn [String.prefix];
    repeat (destruct (ascii_dec _ _); try discriminate);
    first [reflexivity | by destruct s].
Qed.

Lemma replace_csv_ending (stem : string) :
  occurs ".csv" (stem +:+ ".cs") = false →
  str_replace ".csv" "_output.txt" (stem +:+ ".csv") = stem +:+ "_output.txt".
Proof.
  unfold str_replace. induction stem as [|c stem IH]; [reflexivity |].
  rewrite !append_cons. cbn [occurs]. intros [Hp Ho]%orb_false_iff.
  cbn [replace_from]. rewrite prefix_csv_cut, Hp. by rewrite (IH Ho).
Qed.

Lemma plain_app (a b : string) : plain a = true → plain b = true → plain (a +:+ b) = true.
Proof.
  intros Ha Hb. induction a as [|x a IH]; [done |].
  rewrite append_cons. cbn [plain] in *.
  apply andb_true_iff in Ha as [Hx Ha]. by rewrite Hx, (IH Ha).
Qed.

End TextFacts.

(** X1. An input file name that ends in [.csv] and holds [.csv] nowhere
    before names the output file by putting [_output.txt] in the place of
    that ending, joined to the directory of the input. *)
Theorem output_filename_csv `{Audit.OsPath} (stem : string) :
  Text.occurs ".csv" (stem +:+ ".cs") = false →
  Audit.output_filename (stem +:+ ".csv")
  = Audit.os_path_join (Audit.os_path_dirname (stem +:+ ".csv")) (stem +:+ "_output.txt").
Proof. intros Hocc. unfold Audit.output_filename. by rewrite replace_csv_ending. Qed.

Lemma output_filename_csv_witness :
  @Audit.output_filename Audit.posix ("/data/plans.v2" +:+ ".csv") = "/data/plans.v2_output.txt".
Proof.
  rewrite (@output_filename_csv Audit.posix "/data/plans.v2"); reflexivity.
Defined.

(** X2. An input file name that holds no [.csv] (an upper-case extension,
    say) is left as it is by the replacement; where joining a name to its
    own directory gives the name back, as for an absolute name, the output
    file is the input file itself, and the writer appends its record to
    what the input file holds. *)
Theorem output_into_input_file `{Audit.OsPath} (fs : gmap string string)
    (input_filename content : string) (o : Audit.RowOutcome) :
  Text.occurs ".csv" input_filename = false →
  Audit.os_path_join (Audit.os_path_dirname input_filename) input_filename = input_filename →
  fs !! input_filename = Some content → content ≠ "" →
  Audit.output_filename input_filename = input_filename
  ∧ Audit.output_status fs input_filename o !! input_filename
    = Some (content +:+ Audit.output_message o).
Proof.
  intros Hocc Hjoin Hcontent Hne.
  assert (Hname : Audit.output_filename input_filename = input_filename).
  { unfold Audit.output_filename, str_replace.
    by rewrite replace_from_no_occurrence. }
  split; [exact Hname |].
  pose proof (output_status_append fs input_filename content o) as Happ.
  rewrite Hname in Happ. by apply Happ.
Qed.

Lemma output_into_input_file_witness :
  @Audit.output_status Audit.posix {[ "/data/PLANS.CSV" := "PatientID,Case" ]}
    "/data/PLANS.CSV" Scenario.record_a !! "/data/PLANS.CSV"
  = Some ("PatientID,Case" +:+ Audit.output_message Scenario.record_a).
Proof.
  refine (proj2 (@output_into_input_file Audit.posix {[ "/data/PLANS.CSV" := "PatientID,Case" ]}
                   "/data/PLANS.CSV" "PatientID,Case" Scenario.record_a _ _ _ _)).
  - reflexivity.
  - reflexivity.
  - vm_compute. reflexivity.
  - discriminate.
Defined.

(** ** Further facts on the entity resolver *)

Section ResolverMore.
Import Resolver.
Variable db : PatientDB.
Variables patient_id first_name last_name case_name exam_name plan_name : string.

Abbreviation load :=
  (load_patient_data db patient_id first_name last_name case_name exam_name plan_name).

(** A plan stage that reports an error met a first record of another name
    and no plan of the requested name. *)
Lemma plan_stage_error (plan : value) (patient case : handle) (exam : option handle)
    (d d' : PatientData) (calls : list call) :
  Error d = [] →
  plan_stage db plan patient case exam d = (calls, Ok d') → Error d' ≠ [] →
  ∃ n rest, QueryPlanInfo db case (str_value plan) = Ok (n :: rest)
    ∧ eq_text n plan = false
    ∧ TreatmentPlans_item db false case (str_value plan) = Raise IndexError.
Proof.
  intros Herr. unfold plan_stage.
  destruct (plan_try db plan case d) as [d1 | e] eqn:Htry.
  - intros [= <- Hcheck] Hne. unfold plan_check in Hcheck.
    destruct (plan_try_result _ _ _ _ _ Htry)
      as [(p & Hp & ->) | (-> & n & rest & Hq & Hmis)].
    + rewrite Hp in Hcheck. injection Hcheck as <-. by destruct Hne.
    + destruct (TreatmentPlans_item db false case (str_value plan)) as [p | e].
      * injection Hcheck as <-. by destruct Hne.
      * destruct (decide (e = IndexError)) as [-> |]; [| discriminate].
        by exists n, rest.
  - destruct (decide (e = IndexError)); [| discriminate].
    destruct (plan_create db plan patient case exam d) as [calls' created] eqn:Hcreate.
    intros [= <- Hcheck] Hne.
    destruct created as [d1 | e']; [| discriminate].
    destruct (plan_create_result _ _ _ _ _ _ _ _ Hcreate) as (p & Hp & -> & _).
    cbn in Hcheck. unfold plan_check in Hcheck. rewrite Hp in Hcheck.
    injection Hcheck as <-. by destruct Hne.
Qed.

(** The steps of a resolution that got as far as the plan stage. *)
Lemma load_reaches_plan_stage (patient_info case : handle) (exam : option handle) :
  QueryPatientInfo db first_name last_name patient_id = [patient_info] →
  Cases_item db (LoadPatient db patient_info) case_name = Ok case →
  exam_try db exam_name patient_info case = Ok exam →
  load
  = (plan_stage db (Text plan_name) (LoadPatient db patient_info) case exam
       {| Error := []; Case := Some case; Patient := Some (LoadPatient db patient_info);
          Exam := exam; Plan := None |}).2.
Proof.
  intros Hp Hc He. unfold load_patient_data, load_patient_data_calls.
  rewrite Hp, Hc, He. by destruct exam.
Qed.

Lemma load_patient_found (patient_info : handle) (d : PatientData) :
  QueryPatientInfo db first_name last_name patient_id = [patient_info] →
  load = Ok d → Patient d = Some (LoadPatient db patient_info).
Proof.
  intros Hp. unfold load_patient_data, load_patient_data_calls. rewrite Hp.
  destruct (Cases_item db (LoadPatient db patient_info) case_name) as [case | e].
  2:{ destruct (decide (e = SystemError)); cbn; [by intros [= <-] | discriminate]. }
  destruct (exam_try db exam_name patient_info case) as [exam | e].
  2:{ destruct (decide (e = IndexError)); cbn; [by intros [= <-] | discriminate]. }
  destruct (plan_stage _ _ _ _ _ _) as [calls r] eqn:Hstage. cbn. intros ->.
  apply plan_stage_result in Hstage; [| by destruct exam | by destruct exam].
  destruct Hstage as (-> & _). by destruct exam.
Qed.

End ResolverMore.

(** X3. What every returned context keeps: at most one error message; the
    patient handle is set exactly when the patient query matched one
    record; a case handle comes only with a patient handle, an examination
    handle only with a case handle; and a plan handle comes only without
    error. *)
Theorem resolver_context_invariants (db : Resolver.PatientDB)
    (patient_id first_name last_name case_name exam_name plan_name : string)
    (d : Resolver.PatientData) :
  Resolver.load_patient_data db patient_id first_name last_name case_name exam_name plan_name
    = Ok d →
  length (Resolver.Error d) ≤ 1
  ∧ (is_Some (Resolver.Patient d)
     ↔ length (Resolver.QueryPatientInfo db first_name last_name patient_id) = 1)
  ∧ (is_Some (Resolver.Case d) → is_Some (Resolver.Patient d))
  ∧ (is_Some (Resolver.Exam d) → is_Some (Resolver.Case d))
  ∧ (is_Some (Resolver.Plan d) → Resolver.Error d = []).
Proof.
  intros Hload.
  assert (Hshape := load_patient_data_staged _ _ _ _ _ _ _ _ Hload).
  split; [| split; [| split; [| split]]].
  - destruct Hshape as [[-> _] | [[-> _] | [[-> _] | [[-> _] | [-> _]]]]]; cbn; lia.
  - destruct (Resolver.QueryPatientInfo db first_name last_name patient_id)
      as [|pi [|pi' l]] eqn:Hq; cbn.
    + unfold Resolver.load_patient_data, Resolver.load_patient_data_calls in Hload.
      rewrite Hq in Hload.
      injection Hload as <-. cbn. split; [by intros [? [=]] | discriminate].
    + rewrite (load_patient_found _ _ _ _ _ _ _ pi d Hq Hload). by split.
    + unfold Resolver.load_patient_data, Resolver.load_patient_data_calls in Hload.
      rewrite Hq in Hload.
      injection Hload as <-. cbn. split; [by intros [? [=]] | discriminate].
  - destruct Hshape as [[_ (_ & -> & _)] | [(_ & _ & -> & _) | [(_ & ? & _) | [(_ & ? & _) | (_ & ? & _)]]]];
      try done; by intros [? [=]].
  - destruct Hshape as [[_ (_ & _ & -> & _)] | [(_ & _ & _ & -> & _) | [(_ & _ & ? & _) | [(_ & _ & ? & _) | (_ & _ & ? & _)]]]];
      try done; by intros [? [=]].
  - destruct Hshape as [[_ (_ & _ & _ & ->)] | [(_ & _ & _ & _ & ->) | [(_ & _ & _ & _ & ->) | [(_ & _ & _ & ->) | (-> & _)]]]];
      try done; by intros [? [=]].
Qed.

Lemma resolver_context_invariants_witness :
  length ["Case Case 1 not found"] ≤ 1.
Proof.
  exact (proj1 (resolver_context_invariants Scenario.db_no_case
                  "0001" "Ann" "Lee" "Case 1" "CT 1" "Plan1" _ eq_refl)).
Defined.

(** X4. A plan that the plan query does not list is created: with patient,
    case and examination resolved and an empty answer of the plan query,
    the resolver adds the plan and returns the handle it then finds, with
    all four handles set and no error. A creation that raises, or a plan
    that cannot be found after its creation, raises out of the resolver;
    no message is recorded for it. *)
Theorem resolver_creates_missing_plan (db : Resolver.PatientDB)
    (patient_id first_name last_name case_name exam_name plan_name : string)
    (patient_info case exam : Resolver.handle) (rest : list string) :
  Resolver.QueryPatientInfo db first_name last_name patient_id = [patient_info] →
  Resolver.Cases_item db (Resolver.LoadPatient db patient_info) case_name = Ok case →
  Resolver.QueryExaminationInfo db patient_info exam_name = Ok (exam_name :: rest) →
  Resolver.Examinations_item db case exam_name = Ok exam →
  Resolver.QueryPlanInfo db case plan_name = Ok [] →
  (∀ plan,
     Resolver.AddNewPlan db case plan_name = Ok () →
     Resolver.TreatmentPlans_item db true case plan_name = Ok plan →
     Resolver.load_patient_data db patient_id first_name last_name case_name exam_name plan_name
     = Ok {| Resolver.Error := [];
             Resolver.Case := Some case;
             Resolver.Patient := Some (Resolver.LoadPatient db patient_info);
             Resolver.Exam := Some exam;
             Resolver.Plan := Some plan |})
  ∧ (∀ e,
       Resolver.AddNewPlan db case plan_name = Raise e →
       Resolver.load_patient_data db patient_id first_name last_name case_name exam_name
         plan_name = Raise e)
  ∧ (∀ e,
       Resolver.AddNewPlan db case plan_name = Ok () →
       Resolver.TreatmentPlans_item db true case plan_name = Raise e →
       Resolver.load_patient_data db patient_id first_name last_name case_name exam_name
         plan_name = Raise e).
Proof.
  intros Hp Hc Hq He Hplans.
  assert (Hexam : Resolver.exam_try db exam_name patient_info case = Ok (Some exam)).
  { unfold Resolver.exam_try. rewrite Hq. cbn. rewrite decide_True by done. by rewrite He. }
  rewrite (load_reaches_plan_stage _ _ _ _ _ _ _ _ _ _ Hp Hc Hexam).
  unfold Resolver.plan_stage, Resolver.plan_try, Resolver.plan_create, Resolver.plan_check.
  cbn. rewrite Hplans. cbn. rewrite decide_True by done.
  split; [| split].
  - intros plan Hadd Hfind. by rewrite Hadd, Hfind.
  - intros e Hadd. by rewrite Hadd.
  - intros e Hadd Hfind. by rewrite Hadd, Hfind.
Qed.

Lemma resolver_creates_missing_plan_witness :
  Resolver.load_patient_data Cases.db_new_plan "0001" "Ann" "Lee" "Case 1" "CT 1" "Plan1"
  = Ok {| Resolver.Error := []; Resolver.Case := Some 20; Resolver.Patient := Some 10;
          Resolver.Exam := Some 30; Resolver.Plan := Some 41 |}.
Proof.
  exact (proj1 (resolver_creates_missing_plan Cases.db_new_plan
                  "0001" "Ann" "Lee" "Case 1" "CT 1" "Plan1" 1 20 30 []
                  eq_refl eq_refl eq_refl eq_refl eq_refl) 41 eq_refl eq_refl).
Defined.

Section ResolverMessages.
Import Resolver.

Lemma plan_message_differs (plan_name first_name last_name patient_id case_name exam_name : string) :
  plan_not_found plan_name ≠ patient_not_found first_name last_name patient_id
  ∧ plan_not_found plan_name ≠ case_not_found case_name
  ∧ plan_not_found plan_name ≠ exam_not_found exam_name.
Proof.
  unfold plan_not_found, patient_not_found, case_not_found, exam_not_found.
  repeat split; rewrite !append_cons; discriminate.
Qed.

End ResolverMessages.

(** X5. The message [Plan ... not found] is recorded in one case only: the
    plan query listed a first record of another name, so no plan was
    created, and the plan of the requested name does not exist. *)
Theorem plan_not_found_only_on_mismatch (db : Resolver.PatientDB)
    (patient_id first_name last_name case_name exam_name plan_name : string)
    (d : Resolver.PatientData) :
  Resolver.load_patient_data db patient_id first_name last_name case_name exam_name plan_name
    = Ok d →
  In (Resolver.plan_not_found plan_name) (Resolver.Error d) →
  ∃ case n rest,
    Resolver.QueryPlanInfo db case plan_name = Ok (n :: rest) ∧ n ≠ plan_name
    ∧ Resolver.TreatmentPlans_item db false case plan_name = Raise IndexError.
Proof.
  destruct (plan_message_differs plan_name first_name last_name patient_id case_name exam_name)
    as (Hpatient & Hcase & Hexam).
  unfold Resolver.load_patient_data, Resolver.load_patient_data_calls.
  destruct (Resolver.QueryPatientInfo db first_name last_name patient_id) as [|pi [|pi' l]];
    [intros [= <-] [? | []]; congruence | | intros [= <-] [? | []]; congruence].
  destruct (Resolver.Cases_item db (Resolver.LoadPatient db pi) case_name) as [case | e].
  2:{ destruct (decide (e = SystemError)); [| discriminate].
      intros [= <-] [? | []]. congruence. }
  destruct (Resolver.exam_try db exam_name pi case) as [exam | e].
  2:{ destruct (decide (e = IndexError)); [| discriminate].
      intros [= <-] [? | []]. congruence. }
  destruct (Resolver.plan_stage _ _ _ _ _ _) as [calls r] eqn:Hstage. cbn.
  intros -> Hin. exists case.
  assert (Hne : Resolver.Error d ≠ []) by (intros Hnil; by rewrite Hnil in Hin).
  pose proof (λ Hnil, plan_stage_error db (Text plan_name) _ _ _ _ _ _ Hnil Hstage Hne)
    as Hmismatch.
  destruct Hmismatch as (n & rest & Hq & Hmis & Hno); [by destruct exam |].
  exists n, rest. cbn in Hq, Hmis, Hno. by apply bool_decide_eq_false in Hmis.
Qed.

Lemma plan_not_found_only_on_mismatch_witness :
  ∃ case n rest,
    Resolver.QueryPlanInfo Cases.db_other_plan case "Plan1" = Ok (n :: rest) ∧ n ≠ "Plan1"
    ∧ Resolver.TreatmentPlans_item Cases.db_other_plan false case "Plan1" = Raise IndexError.
Proof.
  refine (plan_not_found_only_on_mismatch Cases.db_other_plan
            "0001" "Ann" "Lee" "Case 1" "CT 1" "Plan1" _ eq_refl _).
  left. reflexivity.
Defined.

(** X6. Which failures of the case and examination lookups become
    messages. An empty answer of the examination query, and an [IndexError]
    from the examination lookup itself, give the context with the message
    [Exam ... not found] and the patient and case handles. Any other
    exception of the examination query, and any exception of the case
    lookup other than [SystemError], raises out of the resolver. *)
Theorem resolver_lookup_failures (db : Resolver.PatientDB)
    (patient_id first_name last_name case_name exam_name plan_name : string)
    (patient_info : Resolver.handle) :
  Resolver.QueryPatientInfo db first_name last_name patient_id = [patient_info] →
  let patient := Resolver.LoadPatient db patient_info in
  let load :=
    Resolver.load_patient_data db patient_id first_name last_name case_name exam_name
      plan_name in
  let no_exam case :=
    {| Resolver.Error := [Resolver.exam_not_found exam_name];
       Resolver.Case := Some case; Resolver.Patient := Some patient;
       Resolver.Exam := None; Resolver.Plan := None |} in
  (∀ e, Resolver.Cases_item db patient case_name = Raise e → e ≠ SystemError →
        load = Raise e)
  ∧ (∀ case, Resolver.Cases_item db patient case_name = Ok case →
       (Resolver.QueryExaminationInfo db patient_info exam_name = Ok [] →
        load = Ok (no_exam case))
       ∧ (∀ rest,
            Resolver.QueryExaminationInfo db patient_info exam_name = Ok (exam_name :: rest) →
            Resolver.Examinations_item db case exam_name = Raise IndexError →
            load = Ok (no_exam case))
       ∧ (∀ e, Resolver.QueryExaminationInfo db patient_info exam_name = Raise e →
               e ≠ IndexError → load = Raise e)).
Proof.
  intros Hp patient load no_exam.
  unfold load, Resolver.load_patient_data, Resolver.load_patient_data_calls. rewrite Hp.
  fold patient. split.
  - intros e -> He. by rewrite decide_False.
  - intros case ->. unfold Resolver.exam_try. split; [| split].
    + intros ->. cbn. by rewrite decide_True.
    + intros rest -> Hitem. cbn. rewrite decide_True by done. rewrite Hitem. cbn.
      by rewrite decide_True.
    + intros e -> He. cbn. by rewrite decide_False.
Qed.

Lemma resolver_lookup_failures_witness :
  Resolver.load_patient_data Cases.db_no_exam "0001" "Ann" "Lee" "Case 1" "CT 1" "Plan1"
  = Ok {| Resolver.Error := ["Exam CT 1 not found"];
          Resolver.Case := Some 20; Resolver.Patient := Some 10;
          Resolver.Exam := None; Resolver.Plan := None |}.
Proof.
  exact (proj1 (proj2 (resolver_lookup_failures Cases.db_no_exam
                         "0001" "Ann" "Lee" "Case 1" "CT 1" "Plan1" 1 eq_refl) 20 eq_refl)
           eq_refl).
Defined.

(** ** Further facts on the name collision loop *)

Section NamingMore.
Import Naming Text.

Lemma prefix_weaken (a b c : string) :
  String.prefix a b = true → String.prefix a (b +:+ c) = true.
Proof.
  intros [d ->]%prefix_split. rewrite append_assoc. apply prefix_app.
Qed.

Lemma take_str_app (k : nat) (a c : string) :
  String.length a ≤ k → take_str k (a +:+ c) = a +:+ take_str (k - String.length a) c.
Proof.
  revert k. induction a as [|x a IH]; intros k Hk.
  - cbn. by rewrite Nat.sub_0_r.
  - destruct k as [|k]; cbn in Hk; [lia |].
    rewrite !append_cons. cbn [take_str String.length Nat.sub]. rewrite IH by lia. done.
Qed.

Lemma take_str_0 (s : string) : take_str 0 s = "".
Proof. by destruct s. Qed.

Lemma length_take_str_le (k : nat) (s : string) : String.length (take_str k s) ≤ k.
Proof.
  revert s. induction k as [|k IH]; intros [|c s]; cbn; try lia.
  specialize (IH s). lia.
Qed.

Lemma prefix_take_self (k : nat) (s : string) : String.prefix (take_str k s) s = true.
Proof.
  revert s. induction k as [|k IH]; intros [|c s]; cbn; try done.
  destruct (ascii_dec c c); [apply IH | congruence].
Qed.

Lemma prefix_take (a m : string) (k : nat) :
  String.prefix a m = true → String.length a ≤ k → String.prefix a (take_str k m) = true.
Proof.
  intros [c ->]%prefix_split Hk. rewrite take_str_app by done. apply prefix_app.
Qed.

Lemma length_two_digits (r : nat) : String.length (two_digits r) = 2.
Proof. reflexivity. Qed.

Lemma mutate_reached (n m : string) (r : nat) :
  1 ≤ r ≤ 99 → String.prefix (take_str 14 n) m = true →
  reached n (mutate m r) ∧ String.prefix (take_str 14 n) (mutate m r) = true.
Proof.
  intros Hr Hp. destruct (decide (14 < String.length m)) as [Hlong | Hshort].
  - destruct (mutate_long m r Hlong Hr) as [-> Hlen]. split.
    + right. split; [lia |]. exists (take_str 14 m), r. repeat split; try done; try lia.
      apply prefix_take; [done | apply length_take_str_le].
    + apply prefix_weaken, prefix_take; [done | apply length_take_str_le].
  - destruct (mutate_short m r ltac:(lia) Hr) as [-> Hlen]. split.
    + right. split; [lia |]. exists m, r. repeat split; try done; lia.
    + by apply prefix_weaken.
Qed.

Lemma resolve_name_reached (n : string) (existing : list string) (randint : nat → nat)
    (fuel drawn : nat) (m out : string) :
  (∀ i, 1 ≤ randint i ≤ 99) →
  reached n m → String.prefix (take_str 14 n) m = true →
  resolve_name fuel existing randint drawn m = Some out →
  reached n out.
Proof.
  intros Hdraw. revert drawn m.
  induction fuel as [|fuel IH]; intros drawn m Hm Hp; cbn; [discriminate |].
  destruct (QueryBeamSetInfo existing m) as [|info0 info]; [by intros [= <-] |].
  destruct (decide (info0 = m)).
  - destruct (mutate_reached n m (randint drawn) (Hdraw drawn) Hp). by apply IH.
  - by apply IH.
Qed.

Lemma query_lists_member (existing : list string) (m : string) :
  m ∈ existing → QueryBeamSetInfo existing m ≠ [].
Proof.
  intros Hin%list_elem_of_In Hq.
  assert (Hf : In m (List.filter (String.prefix m) existing))
    by (apply filter_In; split; [done | apply prefix_refl]).
  unfold QueryBeamSetInfo in Hq. rewrite Hq in Hf. destruct Hf.
Qed.

Lemma resolve_name_spins (existing : list string) (randint : nat → nat)
    (beamset_name first : string) (fuel drawn : nat) :
  head (QueryBeamSetInfo existing beamset_name) = Some first →
  first ≠ beamset_name →
  resolve_name fuel existing randint drawn beamset_name = None.
Proof.
  intros Hhead Hne. revert drawn. induction fuel as [|fuel IH]; intros drawn; [reflexivity |].
  cbn. destruct (QueryBeamSetInfo existing beamset_name) as [|info0 info];
    [discriminate |].
  injection Hhead as ->. rewrite decide_False by done. apply IH.
Qed.

End NamingMore.

(** X7. Whatever name the loop returns is the candidate itself or a name
    of at most 16 characters that ends in the two digits of a draw; in both
    cases it begins with the first 14 characters of the candidate (with
    the whole candidate, when that is shorter). *)
Theorem resolved_name_shape (existing : list string) (randint : nat → nat)
    (beamset_name out : string) (fuel : nat) :
  (∀ i, 1 ≤ randint i ≤ 99) →
  Naming.resolve_name fuel existing randint 0 beamset_name = Some out →
  Text.reached beamset_name out
  ∧ String.prefix (take_str 14 beamset_name) out = true.
Proof.
  intros Hdraw Hout.
  assert (Hreached : Text.reached beamset_name out).
  { eapply resolve_name_reached; [exact Hdraw | by left | apply prefix_take_self | exact Hout]. }
  split; [exact Hreached |].
  destruct Hreached as [-> | (_ & stem & r & _ & -> & Hp)].
  - apply prefix_take_self.
  - by apply prefix_weaken.
Qed.

Lemma resolved_name_shape_witness :
  String.prefix (take_str 14 "Tmplt_20Feb2020") "Tmplt_20Feb20207" = true.
Proof.
  refine (proj2 (resolved_name_shape ["Tmplt_20Feb2020"] (λ _, 7) "Tmplt_20Feb2020"
                   "Tmplt_20Feb20207" 10 _ eq_refl)).
  intros i. lia.
Defined.

(** X8. When the first name the prefix query lists is not the candidate,
    the candidate is not changed and the query is asked again: the loop
    never ends, whatever the draws. *)
Theorem name_loop_spins_on_longer_name (existing : list string) (randint : nat → nat)
    (beamset_name first : string) :
  head (Naming.QueryBeamSetInfo existing beamset_name) = Some first →
  first ≠ beamset_name →
  ∀ fuel drawn, Naming.resolve_name fuel existing randint drawn beamset_name = None.
Proof. intros Hhead Hne fuel drawn. by eapply resolve_name_spins. Qed.

Lemma name_loop_spins_on_longer_name_witness :
  Naming.resolve_name 1000 ["Tmplt_20Feb2020"] (λ _, 7) 0 "Tmplt" = None.
Proof.
  refine (name_loop_spins_on_longer_name ["Tmplt_20Feb2020"] (λ _, 7) "Tmplt"
            "Tmplt_20Feb2020" eq_refl _ 1000 0).
  discriminate.
Defined.

(** X9. When a candidate longer than 14 characters is taken and so is
    each of the 99 names made of its first 14 characters and two digits, the
    loop never ends: every name it can try is taken. *)
Theorem name_loop_spins_on_full_namespace (existing : list string) (randint : nat → nat)
    (beamset_name : string) :
  14 < String.length beamset_name →
  beamset_name ∈ existing →
  (∀ r, 1 ≤ r ≤ 99 → take_str 14 beamset_name +:+ two_digits r ∈ existing) →
  (∀ i, 1 ≤ randint i ≤ 99) →
  ∀ fuel, Naming.resolve_name fuel existing randint 0 beamset_name = None.
Proof.
  intros Hlong Hin Hfull Hdraw fuel.
  enough (Hgen : ∀ drawn m,
            m ∈ existing → 14 < String.length m →
            take_str 14 m = take_str 14 beamset_name →
            Naming.resolve_name fuel existing randint drawn m = None)
    by (by apply Hgen).
  induction fuel as [|fuel IH]; intros drawn m Hm Hlen Htake; [reflexivity |].
  cbn. destruct (Naming.QueryBeamSetInfo existing m) as [|info0 info] eqn:Hq.
  { by destruct (query_lists_member existing m Hm). }
  destruct (decide (info0 = m)); [| by apply IH].
  destruct (mutate_long m (randint drawn) Hlen (Hdraw drawn)) as [Hmut Hlen'].
  apply IH.
  - rewrite Hmut, Htake. apply Hfull, Hdraw.
  - lia.
  - rewrite Hmut, take_str_app by apply length_take_str_le.
    rewrite length_take_str by lia. rewrite Nat.sub_diag, take_str_0, append_nil_r.
    exact Htake.
Qed.

Lemma name_loop_spins_on_full_namespace_witness :
  Naming.resolve_name 1000 Cases.full_namespace (λ i, 1 + i mod 99) 0 "Tmplt_20Feb2020" = None.
Proof.
  refine (name_loop_spins_on_full_namespace Cases.full_namespace (λ i, 1 + i mod 99)
            "Tmplt_20Feb2020" _ _ _ _ 1000).
  - cbn. lia.
  - apply list_elem_of_In. left. reflexivity.
  - intros r Hr. apply list_elem_of_In. right. apply in_map_iff.
    exists r. split; [reflexivity | apply in_seq; lia].
  - intros i. pose proof (Nat.mod_upper_bound i 99). lia.
Defined.

(** ** Further facts on the target/dose extraction *)

Section TargetsMore.
Import Targets TargetPairs.


Lemma below_mono (row : gmap string cell) (i k : nat) (d : dict) :
  i ≤ k → below row i d → below row k d.
Proof.
  intros Hik [Hentries Hsize]. split; [| lia].
  intros key v Hkv. destruct (Hentries key v Hkv) as (j & Hj & ?). exists j. split; [lia | done].
Qed.

Lemma merge_loop_below (row : gmap string cell) (k fuel i : nat) (d d' : dict) :
  row !! target_dose k = None → i ≤ k → below row i d →
  merge_loop fuel row i d = Some (Ok d') → below row k d'.
Proof.
  intros Hgap. revert i d. induction fuel as [|fuel IH]; intros i d Hik Hd; [discriminate |].
  cbn. destruct (row !! target_dose i) as [dose|] eqn:Hdose.
  2:{ intros [= <-]. by eapply below_mono. }
  assert (i ≠ k) by (intros ->; congruence).
  destruct (isnan dose) as [[] | e]; [| | discriminate].
  - apply IH; [lia |]. eapply below_mono; [| exact Hd]. lia.
  - destruct (row !! target_name i) as [name|] eqn:Hname.
    2:{ intros [= <-]. by eapply below_mono. }
    apply IH; [lia |]. destruct Hd as [Hentries Hsize]. split.
    + intros key v [Hkv | [-> ->]]%elem_of_dict_set.
      * destruct (Hentries key v Hkv) as (j & Hj & ?). exists j. split; [lia | done].
      * exists i. split; [lia | done].
    + pose proof (length_dict_set name dose d). lia.
Qed.

(** A dose that [np.isnan] refuses is text, or an int that no 64-bit int
    holds. *)
Lemma isnan_raises (dose : cell) (e : exn) :
  isnan dose = Raise e →
  e = TypeError ∧ ((∃ s, dose = CStr s) ∨ (∃ z, dose = CNum z ∧ ¬ int64 z)).
Proof.
  destruct dose as [s | z |]; cbn; [| | discriminate].
  - intros [= <-]. split; [done |]. left. by exists s.
  - destruct (fits_64 z) eqn:Hfits; [discriminate |].
    intros [= <-]. split; [done |]. right. exists z. split; [done |].
    intros Hz. by rewrite (int64_fits z Hz) in Hfits.
Qed.

Lemma merge_loop_raises (row : gmap string cell) (fuel i : nat) (d : dict) (e : exn) :
  merge_loop fuel row i d = Some (Raise e) →
  e = TypeError
  ∧ ∃ j, (∃ s, row !! target_dose j = Some (CStr s))
         ∨ (∃ z, row !! target_dose j = Some (CNum z) ∧ ¬ int64 z).
Proof.
  revert i d. induction fuel as [|fuel IH]; intros i d; [discriminate |].
  cbn. destruct (row !! target_dose i) as [dose|] eqn:Hdose; [| discriminate].
  destruct (isnan dose) as [[] | e'] eqn:Hnan.
  - apply IH.
  - destruct (row !! target_name i); [apply IH | discriminate].
  - intros [= <-]. destruct (isnan_raises _ _ Hnan) as [-> [[s ->] | (z & -> & Hz)]].
    + split; [done |]. exists i. left. by exists s.
    + split; [done |]. exists i. right. by exists z.
Qed.








End TargetsMore.

(** X10. The extraction stops at the first dose column that is absent:
    every entry of the returned dict comes from a pair numbered before it,
    columns after the gap are never read, and the dict has at most as many
    entries as there are pairs before the gap; with no first dose column
    the dict is empty. *)
Theorem merge_dict_stops_at_gap (row : gmap string Targets.cell) (k : nat)
    (target_dict : Targets.dict) :
  row !! Targets.target_dose k = None →
  Targets.merge_dict row = Some (Ok target_dict) →
  (∀ key v, (key, v) ∈ target_dict →
     ∃ j, j < k ∧ row !! Targets.target_name j = Some key
          ∧ row !! Targets.target_dose j = Some v)
  ∧ length target_dict ≤ k
  ∧ (k = 0 → target_dict = []).
Proof.
  intros Hgap Hdict.
  assert (Hbelow : TargetPairs.below row k target_dict).
  { eapply (merge_loop_below row k _ 0 []); [done | lia | | exact Hdict].
    split; [| cbn; lia]. intros key v Hkv. by apply elem_of_nil in Hkv. }
  destruct Hbelow as [Hentries Hsize]. split; [exact Hentries |]. split; [exact Hsize |].
  intros ->. destruct target_dict; [done | cbn in Hsize; lia].
Qed.

Lemma merge_dict_stops_at_gap_witness :
  length [(Targets.CStr "PTV_70", Targets.CNum 7000);
          (Targets.CStr "PTV_60", Targets.CNum 6000);
          (Targets.CStr "PTV_54", Targets.CNum 5400)] ≤ 3.
Proof.
  refine (proj1 (proj2 (merge_dict_stops_at_gap Scenario.three_pairs 3 _ _ _))).
  - vm_compute. reflexivity.
  - vm_compute. reflexivity.
Defined.

(** X11. The extraction raises only [TypeError], and only when some dose
    column holds text or an int that no 64-bit int holds; on a row whose
    dose columns hold NaN or numbers that a 64-bit int holds it returns a
    dict. *)
Theorem merge_dict_raises_only_type_error (row : gmap string Targets.cell) :
  (∀ e, Targets.merge_dict row = Some (Raise e) →
        e = TypeError
        ∧ ∃ j, (∃ s, row !! Targets.target_dose j = Some (Targets.CStr s))
               ∨ (∃ z, row !! Targets.target_dose j = Some (Targets.CNum z)
                       ∧ ¬ Targets.int64 z))
  ∧ ((∀ j s, row !! Targets.target_dose j ≠ Some (Targets.CStr s)) →
     (∀ j z, row !! Targets.target_dose j = Some (Targets.CNum z) → Targets.int64 z) →
     ∃ target_dict, Targets.merge_dict row = Some (Ok target_dict)).
Proof.
  split.
  - intros e. apply merge_loop_raises.
  - intros Htext Hnum. destruct (merge_dict_total row) as [[d | e] Hr]; [by exists d |].
    destruct (merge_loop_raises _ _ _ _ _ Hr) as (_ & j & [[s Hs] | (z & Hz & Hbig)]).
    + by destruct (Htext j s).
    + destruct Hbig. by eapply Hnum.
Qed.

Lemma merge_dict_raises_only_type_error_witness :
  ∃ j, (∃ s, Cases.text_dose !! Targets.target_dose j = Some (Targets.CStr s))
       ∨ (∃ z, Cases.text_dose !! Targets.target_dose j = Some (Targets.CNum z)
               ∧ ¬ Targets.int64 z).
Proof.
  refine (proj2 (proj1 (merge_dict_raises_only_type_error Cases.text_dose) TypeError _)).
  vm_compute. reflexivity.
Defined.

(** A dose of 2^64 is refused as text is. *)
Example merge_dict_huge_dose :
  Targets.merge_dict Cases.huge_dose = Some (Raise TypeError).
Proof. vm_compute. reflexivity. Qed.



Example merge_dict_same_name_twice :
  Targets.merge_dict Cases.same_name_twice
  = Some (Ok [(Targets.CStr "PTV", Targets.CNum 6000)]).
Proof. vm_compute. reflexivity. Qed.

(** ** Further facts on the batch driver *)

Section DriverMore.
Import Audit Targets Driver.
Context `{OsPath}.
Variables (script_file file_csv : string) (fuel : nat).

Abbreviation main_row := (main_row script_file file_csv fuel).
Abbreviation main_loop := (main_loop script_file file_csv fuel).

(** Opening the output file changes no other file; it puts the header in
    a file that was missing or empty and leaves any other content. *)
Lemma open_output_other (files : gmap string string) (p : string) :
  p ≠ output_filename file_csv → open_output files file_csv !! p = files !! p.
Proof.
  intros Hp. unfold open_output.
  destruct (files !! output_filename file_csv) as [content|] eqn:Hc;
    [destruct (decide (content = "")) |];
    rewrite ?lookup_insert_ne by done; done.
Qed.

Lemma open_output_fresh (files : gmap string string) :
  files !! output_filename file_csv = None ∨ files !! output_filename file_csv = Some "" →
  open_output files file_csv !! output_filename file_csv = Some header.
Proof.
  intros Hfresh. unfold open_output.
  destruct Hfresh as [-> | ->]; [| rewrite decide_True by done]; by rewrite lookup_insert_eq.
Qed.

Lemma open_output_kept (files : gmap string string) (content : string) :
  files !! output_filename file_csv = Some content → content ≠ "" →
  open_output files file_csv = files.
Proof. intros Hc Hne. unfold open_output. by rewrite Hc, decide_False. Qed.

Ltac split_scrutinee H :=
  match type of H with
  | context [match ?x with _ => _ end] =>
      lazymatch x with
      | context [match _ with _ => _ end] => fail
      | _ => destruct x eqn:?; cbn beta iota in H
      end
  end.

(** A row leaves the files as they are, or calls the audit writer once:
    the call writes the record and the row continues with the next one, or
    it raises [TypeError] with the output file open and no record in it. *)
Lemma main_row_fs (row : Row) (w : World) (s s' : State) :
  main_row row w s = Val () s' ∨ (∃ c, main_row row w s = Halt c s') →
  fs s' = fs s
  ∨ (∃ o, fs s' = output_status (fs s) file_csv o ∧ main_row row w s = Halt Continue s')
  ∨ (fs s' = open_output (fs s) file_csv
     ∧ main_row row w s = Halt (Crash TypeError) s').
Proof.
  intros Hs'.
  assert (Hcases :
    (∃ r, main_row row w s = r ∧ (r = Val () s' ∨ ∃ c, r = Halt c s'))) by eauto.
  destruct Hcases as (r & Hr & Hres). rewrite Hr. clear Hs'.
  unfold Driver.main_row in Hr.
  cbv [mbind M_bind lift mret M_ret emit emit_all method_of loop_result text_of halt
       Driver.write_status output_status_call text_of_value value_of result_bind result_ret
       place_isocenter place_beams planning_stage get_beam set_beam item0 fst snd] in Hr.
  repeat split_scrutinee Hr.
  all: subst r.
  all: try (destruct Hres as [Hres | [ended Hres]]; inversion Hres; subst; clear Hres).
  all: try (left; reflexivity).
  all: try (right; left; eexists; split; reflexivity).
  all: try (right; right; split; reflexivity).
Qed.

(** The files after a run that ends: the records of some of its rows,
    and, when the last audit call raised, the output file opened once
    more. *)
Lemma main_loop_fs (rows : list (Row * World)) (s s' : State) (c : control) :
  main_loop rows s = Ended c s' →
  ∃ os, length os ≤ length rows
    ∧ (fs s' = foldl (λ fs o, output_status fs file_csv o) (fs s) os
       ∨ (c = Crash TypeError
          ∧ fs s' = open_output (foldl (λ fs o, output_status fs file_csv o) (fs s) os)
                      file_csv)).
Proof.
  revert s. induction rows as [|[row w] rows IH]; intros s; cbn.
  - intros [= _ <-]. exists []. split; [done | by left].
  - destruct (Driver.main_row script_file file_csv fuel row w s) as [[] s1 | c1 s1 |] eqn:Hrow;
      [| | discriminate].
    + intros (os & Hlen & Hfs)%IH.
      destruct (main_row_fs row w s s1 (or_introl Hrow))
        as [Hsame | [(o & Ho & _) | (_ & Hcrash)]].
      * exists os. split; [lia | by rewrite <- Hsame].
      * exists (o :: os). split; [cbn; lia | cbn [foldl]; by rewrite <- Ho].
      * rewrite Hrow in Hcrash. discriminate.
    + assert (Hone := main_row_fs row w s s1 (or_intror (ex_intro _ c1 Hrow))).
      destruct c1.
      * intros (os & Hlen & Hfs)%IH.
        destruct Hone as [Hsame | [(o & Ho & _) | (_ & Hcrash)]].
        -- exists os. split; [lia | by rewrite <- Hsame].
        -- exists (o :: os). split; [cbn; lia | cbn [foldl]; by rewrite <- Ho].
        -- rewrite Hrow in Hcrash. discriminate.
      * intros [= _ <-]. destruct Hone as [Hsame | [(o & Ho & Hcont) | (_ & Hcrash)]].
        -- exists []. split; [cbn; lia | by left].
        -- rewrite Hrow in Hcont. discriminate.
        -- rewrite Hrow in Hcrash. discriminate.
      * intros [= <- <-]. destruct Hone as [Hsame | [(o & Ho & Hcont) | (Hopen & Hcrash)]].
        -- exists []. split; [cbn; lia | by left].
        -- rewrite Hrow in Hcont. discriminate.
        -- rewrite Hrow in Hcrash. injection Hcrash as ->.
           exists []. split; [cbn; lia | by right].
Qed.

Lemma output_status_fold_other (os : list RowOutcome) (files : gmap string string)
    (p : string) :
  p ≠ output_filename file_csv →
  foldl (λ fs o, output_status fs file_csv o) files os !! p = files !! p.
Proof.
  intros Hp. revert files. induction os as [|o os IH]; intros files; [done |].
  cbn. rewrite IH. by apply output_status_other.
Qed.

Lemma error_record_text (row : Row) (w : World) (patient_data : Resolver.PatientData)
    (patient_id case_name plan_name beamset_name : string) :
  Records.resolve row w = Ok patient_data →
  text_names row patient_id case_name plan_name beamset_name →
  Records.error_record (row, w)
  = outcome patient_id case_name plan_name beamset_name false
      (Some (Resolver.Error patient_data)).
Proof.
  intros Hload (Hid & Hcase & Hplan & Hname). unfold Records.error_record. cbn [fst snd].
  by rewrite Hload, Hid, Hcase, Hplan, Hname.
Qed.

Lemma main_loop_errors (rows : list (Row * World)) (s : State) :
  Forall Records.resolution_fails rows →
  Forall Records.names_are_text rows →
  main_loop rows s
  = Ended (Exit "Done")
      {| fs := foldl (λ fs o, output_status fs file_csv o) (fs s)
                 (map Records.error_record rows);
         beam := beam s;
         trace := trace s |}.
Proof.
  intros Hall. revert s. induction Hall as [|[row w] rows (pd & Hload & Herr) Hall IH];
    intros s Htext; [by destruct s |].
  apply Forall_cons in Htext as [(pid & cn & pn & bn & Hnames) Htext].
  cbn [fst snd] in Hload, Hnames.
  rewrite (main_loop_continue script_file file_csv fuel row w rows s _
             (main_row_error_text script_file file_csv fuel row w pd pid cn pn bn s
                Hload Herr Hnames)).
  rewrite IH by done. cbn [map foldl fs beam trace].
  by rewrite (error_record_text row w pd pid cn pn bn Hload Hnames).
Qed.

End DriverMore.

Section DriverPaths.
Import Audit Targets Driver.
Context `{OsPath}.
Variables (script_file file_csv : string) (fuel : nat).

Lemma main_row_raise (row : Row) (w : World) (calls : list Resolver.call) (e : exn)
    (s : State) :
  resolve_row row w = (calls, Raise e) →
  Driver.main_row script_file file_csv fuel row w s
  = Halt (Crash e) (add_events s (event_of_call <$> calls)).
Proof. intros Hload. unfold Driver.main_row. by rewrite Hload. Qed.

Lemma main_row_no_plan (row : Row) (w : World) (patient_data : Resolver.PatientData)
    (case : handle) (s : State) :
  resolve_row row w = ([], Ok patient_data) →
  Resolver.Error patient_data = [] →
  Resolver.Case patient_data = Some case →
  Resolver.Plan patient_data = None →
  Driver.main_row script_file file_csv fuel row w s
  = Halt (Crash AttributeError) (add_events s [SetCurrent case]).
Proof.
  intros Hload Herr Hcase Hplan. unfold Driver.main_row.
  rewrite Hload. cbv [mbind M_bind lift mret M_ret emit emit_all method_of halt fst snd].
  rewrite Herr, Hcase, Hplan. cbn [fmap list_fmap]. by rewrite add_events_app.
Qed.

Lemma main_row_spin (row : Row) (w : World) (patient_data : Resolver.PatientData)
    (case plan : handle) (s : State) :
  Records.resolve row w = Ok patient_data →
  Resolver.Error patient_data = [] →
  Resolver.Case patient_data = Some case →
  Resolver.Plan patient_data = Some plan →
  name_loop fuel w (BeamsetName row) = None →
  Driver.main_row script_file file_csv fuel row w s = Spin.
Proof.
  unfold Records.resolve. intros Hload Herr Hcase Hplan Hname. unfold Driver.main_row.
  rewrite Hload. cbv [mbind M_bind lift mret M_ret emit emit_all method_of halt loop_result].
  by rewrite Herr, Hcase, Hplan, Hname.
Qed.

(** The name loop does not end on a name that begins a longer name listed
    first, and on a name that is no text it does not end when the query
    lists anything. *)
Lemma name_loop_spins (w : World) (beamset_name : cell) (first : string) :
  head (Naming.QueryBeamSetInfo (beamsets w) (str_cell beamset_name)) = Some first →
  CStr first ≠ beamset_name →
  name_loop fuel w beamset_name = None.
Proof.
  intros Hhead Hne. unfold name_loop.
  destruct beamset_name as [name | z |].
  - rewrite (resolve_name_spins (beamsets w) (randint w) name first fuel 0 Hhead);
      [done |].
    intros ->. by destruct Hne.
  - destruct fuel; [done |]. by destruct (Naming.QueryBeamSetInfo _ _).
  - destruct fuel; [done |]. by destruct (Naming.QueryBeamSetInfo _ _).
Qed.

Lemma main_row_tomo_one (row : Row) (w : World) (defs : BeamSet) (rs_beam_set iso : handle)
    (b : Beam) (setup : list event) (s : State) :
  Driver.ready script_file fuel row w defs rs_beam_set [b] setup →
  find_isocenter_parameters w rs_beam_set (iso_target defs) = Ok iso →
  technique defs = "TomoHelical" →
  place_tomo_beam_in_beamset w rs_beam_set b = Ok () →
  Driver.main_row script_file file_csv fuel row w s
  = planning_stage w row
      {| fs := fs s; beam := Some b;
         trace := trace s ++ setup ++ [PlaceTomoBeam b; PatientSave; SetCurrent rs_beam_set] |}.
Proof.
  intros Hready Hiso Htomo Hplace.
  destruct (main_row_ready script_file file_csv fuel row w defs rs_beam_set [b] setup s
              Hready) as (beamset_name & _ & _ & ->).
  cbv [mbind M_bind place_isocenter place_beams mret M_ret emit halt lift item0 set_beam
       get_beam add_events].
  rewrite Hiso. rewrite decide_True by done. cbn [length Nat.ltb Nat.leb fs beam trace].
  rewrite Hplace. cbn [negb fs beam trace]. by rewrite <- !app_assoc.
Qed.

Lemma main_row_tomo_none (row : Row) (w : World) (defs : BeamSet) (rs_beam_set iso : handle)
    (setup : list event) (s : State) :
  Driver.ready script_file fuel row w defs rs_beam_set [] setup →
  find_isocenter_parameters w rs_beam_set (iso_target defs) = Ok iso →
  technique defs = "TomoHelical" →
  Driver.main_row script_file file_csv fuel row w s
  = Halt (Crash IndexError) (add_events s setup).
Proof.
  intros Hready Hiso Htomo.
  destruct (main_row_ready script_file file_csv fuel row w defs rs_beam_set [] setup s
              Hready) as (beamset_name & _ & _ & ->).
  cbv [mbind M_bind place_isocenter place_beams mret M_ret emit halt lift item0].
  rewrite Hiso. by rewrite decide_True by done.
Qed.

End DriverPaths.

(** X13. However a row ends, it has left the files as they were or has
    called the audit writer exactly once. Either that call wrote the
    record, and the row ended with [continue]; or it raised [TypeError]
    over a name that is no text, with the output file open and no record
    written, and the row ended with that exception. No row writes two
    records, and no row that exits or raises writes one. *)
Theorem row_writes_at_most_one_record `{Audit.OsPath} (script_file file_csv : string)
    (fuel : nat) (row : Driver.Row) (w : Driver.World) (s s' : Driver.State) :
  Driver.main_row script_file file_csv fuel row w s = Driver.Val () s'
  ∨ (∃ c, Driver.main_row script_file file_csv fuel row w s = Driver.Halt c s') →
  Driver.fs s' = Driver.fs s
  ∨ (∃ o, Driver.fs s' = Audit.output_status (Driver.fs s) file_csv o
          ∧ Driver.main_row script_file file_csv fuel row w s
            = Driver.Halt Driver.Continue s')
  ∨ (Driver.fs s' = Audit.open_output (Driver.fs s) file_csv
     ∧ Driver.main_row script_file file_csv fuel row w s
       = Driver.Halt (Driver.Crash TypeError) s').
Proof. apply main_row_fs. Qed.

Lemma row_writes_at_most_one_record_witness :
  let s' :=
    {| Driver.fs := @Audit.open_output Audit.posix ∅ Scenario.file_csv;
       Driver.beam := None; Driver.trace := [] |} in
  Driver.fs s' = ∅
  ∨ (∃ o, Driver.fs s' = @Audit.output_status Audit.posix ∅ Scenario.file_csv o
          ∧ @Driver.main_row Audit.posix Scenario.script_file Scenario.file_csv 10
              Cases.row_numeric_id (Scenario.world Scenario.db_no_patient "VMAT" [1; 2])
              Scenario.start
            = Driver.Halt Driver.Continue s')
  ∨ (Driver.fs s' = @Audit.open_output Audit.posix ∅ Scenario.file_csv
     ∧ @Driver.main_row Audit.posix Scenario.script_file Scenario.file_csv 10
         Cases.row_numeric_id (Scenario.world Scenario.db_no_patient "VMAT" [1; 2])
         Scenario.start
       = Driver.Halt (Driver.Crash TypeError) s').
Proof.
  intros s'.
  apply (@row_writes_at_most_one_record Audit.posix Scenario.script_file Scenario.file_csv 10
           Cases.row_numeric_id (Scenario.world Scenario.db_no_patient "VMAT" [1; 2])
           Scenario.start s').
  right. exists (Driver.Crash TypeError). vm_compute. reflexivity.
Defined.

(** X14. A run that ends has changed the files only through the audit
    writer: they hold a record for some of the rows of the batch, at most
    one for each, and, when the run ended with the [TypeError] of an audit
    call, the output file was opened once more after them. Every file other
    than the output file is as it was. *)
Theorem run_writes_only_the_audit_file `{Audit.OsPath} (script_file file_csv : string)
    (fuel : nat) (rows : list (Driver.Row * Driver.World)) (s s' : Driver.State)
    (c : Driver.control) :
  Driver.main_loop script_file file_csv fuel rows s = Driver.Ended c s' →
  (∃ os, length os ≤ length rows
     ∧ let written :=
         foldl (λ fs o, Audit.output_status fs file_csv o) (Driver.fs s) os in
       Driver.fs s' = written
       ∨ (c = Driver.Crash TypeError
          ∧ Driver.fs s' = Audit.open_output written file_csv))
  ∧ (∀ p, p ≠ Audit.output_filename file_csv → Driver.fs s' !! p = Driver.fs s !! p).
Proof.
  intros Hrun. destruct (main_loop_fs script_file file_csv fuel rows s s' c Hrun)
    as (os & Hlen & Hfs).
  split; [by exists os |].
  intros p Hp. destruct Hfs as [-> | [_ ->]].
  - by apply output_status_fold_other.
  - rewrite open_output_other by done. by apply output_status_fold_other.
Qed.

(** X15. A batch in which the resolver reports an error for every row, the
    four names of every row being text, ends with [Done]; started on an
    output file that is absent or empty, it leaves there the header
    followed by the records of the rows in input order, each with all
    flags false and the error list of its row as status. The patient is
    not touched. *)
Theorem failed_rows_are_all_recorded `{Audit.OsPath} (script_file file_csv : string)
    (fuel : nat) (first : Driver.Row * Driver.World) (rows : list (Driver.Row * Driver.World))
    (s : Driver.State) :
  Forall Records.resolution_fails (first :: rows) →
  Forall Records.names_are_text (first :: rows) →
  Driver.fs s !! Audit.output_filename file_csv = None
  ∨ Driver.fs s !! Audit.output_filename file_csv = Some "" →
  ∃ s', Driver.main_loop script_file file_csv fuel (first :: rows) s
        = Driver.Ended (Driver.Exit "Done") s'
    ∧ Driver.fs s' !! Audit.output_filename file_csv
      = Some (Audit.header +:+
              String.concat ""
                (map (λ rw, Audit.output_message (Records.error_record rw)) (first :: rows)))
    ∧ Driver.beam s' = Driver.beam s ∧ Driver.trace s' = Driver.trace s.
Proof.
  intros Hall Htext Hfresh. eexists. split; [by apply main_loop_errors |].
  split; [| done]. cbn [Driver.fs map foldl].
  rewrite (output_status_many _ _ file_csv _ (output_status_fresh _ file_csv _ Hfresh));
    [| by apply append_nonempty_l].
  f_equal. rewrite append_assoc. f_equal. rewrite map_map.
  cbn [map String.concat]. destruct rows; cbn; [by rewrite append_nil_r | done].
Qed.

Lemma failed_rows_are_all_recorded_witness :
  ∃ s', Scenario.run_rows
          [(Scenario.row2, Scenario.world Scenario.db_no_patient "VMAT" [1; 2]);
           (Scenario.row1, Scenario.world Scenario.db_no_case "VMAT" [1; 2])]
          Scenario.start
        = Driver.Ended (Driver.Exit "Done") s'
    ∧ Driver.fs s' !! Scenario.out_file
      = Some (Audit.header +:+
              String.concat ""
                (map (λ rw, Audit.output_message (Records.error_record rw))
                   [(Scenario.row2, Scenario.world Scenario.db_no_patient "VMAT" [1; 2]);
                    (Scenario.row1, Scenario.world Scenario.db_no_case "VMAT" [1; 2])])).
Proof.
  destruct (@failed_rows_are_all_recorded Audit.posix Scenario.script_file Scenario.file_csv
              10 (Scenario.row2, Scenario.world Scenario.db_no_patient "VMAT" [1; 2])
              [(Scenario.row1, Scenario.world Scenario.db_no_case "VMAT" [1; 2])]
              Scenario.start) as (s' & Hrun & Hfile & _).
  - repeat constructor; eexists; (split; [reflexivity | discriminate]).
  - repeat constructor; do 4 eexists; repeat split; reflexivity.
  - left. reflexivity.
  - exists s'. split; [exact Hrun | exact Hfile].
Defined.

Lemma run_writes_only_the_audit_file_witness :
  Audit.output_status (H:=Audit.posix) (<["/data/plans.csv" := "PatientID,..."]> ∅)
    Scenario.file_csv
    (Records.error_record (Scenario.row2, Scenario.world Scenario.db_no_patient "VMAT" [1; 2]))
    !! "/data/plans.csv"
  = (<["/data/plans.csv" := "PatientID,..."]> ∅ : gmap string string) !! "/data/plans.csv".
Proof.
  pose (s0 := {| Driver.fs := <["/data/plans.csv" := "PatientID,..."]> ∅;
                 Driver.beam := None; Driver.trace := [] |}).
  assert (Hfails : Forall Records.resolution_fails
            [(Scenario.row2, Scenario.world Scenario.db_no_patient "VMAT" [1; 2])])
    by (repeat constructor; eexists; (split; [reflexivity | discriminate])).
  assert (Htext : Forall Records.names_are_text
            [(Scenario.row2, Scenario.world Scenario.db_no_patient "VMAT" [1; 2])])
    by (repeat constructor; do 4 eexists; repeat split; reflexivity).
  pose proof (@main_loop_errors Audit.posix Scenario.script_file Scenario.file_csv 10
                _ s0 Hfails Htext) as Hrun.
  destruct (@run_writes_only_the_audit_file Audit.posix Scenario.script_file
              Scenario.file_csv 10 _ s0 _ _ Hrun) as [_ Hother].
  apply (Hother "/data/plans.csv"). vm_compute. discriminate.
Defined.

(** X16. A TomoHelical row with exactly one beam binds the local [beam] to
    it, places it and goes on to the planning structures without an audit
    record; with an empty beam list, taking the first beam raises
    [IndexError] and the run ends there, whatever rows follow. *)
Theorem tomo_single_and_empty_beam_list `{Audit.OsPath} (script_file file_csv : string)
    (fuel : nat) (row : Driver.Row) (w : Driver.World) (defs : Driver.BeamSet)
    (rs_beam_set iso : Driver.handle) (beams : list Driver.Beam)
    (setup : list Driver.event) (s : Driver.State) :
  Driver.ready script_file fuel row w defs rs_beam_set beams setup →
  Driver.find_isocenter_parameters w rs_beam_set (Driver.iso_target defs) = Ok iso →
  Driver.technique defs = "TomoHelical" →
  (∀ b, beams = [b] →
        Driver.place_tomo_beam_in_beamset w rs_beam_set b = Ok () →
        Driver.main_row script_file file_csv fuel row w s
        = Driver.planning_stage w row
            {| Driver.fs := Driver.fs s;
               Driver.beam := Some b;
               Driver.trace :=
                 Driver.trace s ++ setup ++
                 [Driver.PlaceTomoBeam b; Driver.PatientSave;
                  Driver.SetCurrent rs_beam_set] |})
  ∧ (beams = [] →
     ∀ rest, Driver.main_loop script_file file_csv fuel ((row, w) :: rest) s
             = Driver.Ended (Driver.Crash IndexError) (Driver.add_events s setup)).
Proof.
  intros Hready Hiso Htomo. split.
  - intros b -> Hplace. by eapply main_row_tomo_one.
  - intros -> rest. apply main_loop_crash. by eapply main_row_tomo_none.
Qed.

Lemma tomo_single_and_empty_beam_list_witness :
  Scenario.run_rows
    [(Scenario.row1, Scenario.world Scenario.db_ok "TomoHelical" []);
     (Scenario.row2, Scenario.world Scenario.db_ok "VMAT" [1; 2])]
    Scenario.start
  = Driver.Ended (Driver.Crash IndexError)
      (Driver.add_events Scenario.start (Scenario.setup1 "TomoHelical")).
Proof.
  refine (proj2 (@tomo_single_and_empty_beam_list Audit.posix Scenario.script_file
                   Scenario.file_csv 10 Scenario.row1
                   (Scenario.world Scenario.db_ok "TomoHelical" [])
                   (Scenario.defs1 "TomoHelical") 50 60 [] (Scenario.setup1 "TomoHelical")
                   Scenario.start _ eq_refl eq_refl) eq_refl _).
  by apply (scenario_ready Scenario.db_ok).
Defined.

(** X17. When the plan query lists a first record of another name and the
    plan of the requested name exists, the resolver returns no error and no
    plan handle; the driver then calls [SetCurrent] on the missing plan,
    which raises [AttributeError] and ends the run, whatever rows follow,
    without an audit record. *)
Theorem plan_listed_second_ends_run `{Audit.OsPath} (script_file file_csv : string)
    (fuel : nat) (row : Driver.Row) (w : Driver.World)
    (patient_info case plan : Driver.handle) (exam : option Driver.handle)
    (n : string) (others : list string)
    (rest : list (Driver.Row * Driver.World)) (s : Driver.State) :
  Resolver.QueryPatientInfo (Driver.db w) (Driver.FirstName row) (Driver.LastName row)
    (Targets.str_cell (Driver.PatientID row)) = [patient_info] →
  Resolver.Cases_item (Driver.db w) (Resolver.LoadPatient (Driver.db w) patient_info)
    (Targets.str_cell (Driver.Case row)) = Ok case →
  Resolver.exam_try (Driver.db w) (Driver.ExaminationName row) patient_info case = Ok exam →
  Resolver.QueryPlanInfo (Driver.db w) case (Targets.str_cell (Driver.PlanName row))
    = Ok (n :: others) →
  Targets.CStr n ≠ Driver.PlanName row →
  Resolver.TreatmentPlans_item (Driver.db w) false case
    (Targets.str_cell (Driver.PlanName row)) = Ok plan →
  Records.resolve row w
  = Ok {| Resolver.Error := []; Resolver.Case := Some case;
          Resolver.Patient := Some (Resolver.LoadPatient (Driver.db w) patient_info);
          Resolver.Exam := exam; Resolver.Plan := None |}
  ∧ Driver.main_loop script_file file_csv fuel ((row, w) :: rest) s
    = Driver.Ended (Driver.Crash AttributeError)
        (Driver.add_events s [Driver.SetCurrent case]).
Proof.
  intros Hp Hc He Hq Hne Hplan.
  assert (Hmis : eq_text n (Targets.value_of (Driver.PlanName row)) = false).
  { destruct (Driver.PlanName row) as [name | z |]; cbn; [| done | done].
    apply bool_decide_eq_false. intros ->. by destruct Hne. }
  assert (Hload : Driver.resolve_row row w
    = ([], Ok {| Resolver.Error := []; Resolver.Case := Some case;
                 Resolver.Patient := Some (Resolver.LoadPatient (Driver.db w) patient_info);
                 Resolver.Exam := exam; Resolver.Plan := None |})).
  { unfold Driver.resolve_row, Resolver.load_patient_data_calls. rewrite Hp, Hc, He.
    unfold Resolver.plan_stage, Resolver.plan_try, Resolver.plan_check.
    unfold Targets.str_cell in Hq, Hplan. rewrite Hq. cbn. rewrite Hmis. cbn.
    rewrite Hplan. by destruct exam. }
  split; [unfold Records.resolve; by rewrite Hload |].
  apply main_loop_crash. by eapply main_row_no_plan.
Qed.

Lemma plan_listed_second_ends_run_witness :
  Scenario.run_rows
    [(Scenario.row1, Scenario.world Cases.db_plan_listed_second "VMAT" [1; 2]);
     (Scenario.row2, Scenario.world Scenario.db_ok "VMAT" [1; 2])]
    Scenario.start
  = Driver.Ended (Driver.Crash AttributeError)
      (Driver.add_events Scenario.start [Driver.SetCurrent 20]).
Proof.
  refine (proj2 (@plan_listed_second_ends_run Audit.posix Scenario.script_file
                   Scenario.file_csv 10 Scenario.row1
                   (Scenario.world Cases.db_plan_listed_second "VMAT" [1; 2])
                   1 20 40 (Some 30) "Plan1_old" ["Plan1"] _ Scenario.start
                   eq_refl eq_refl eq_refl eq_refl _ eq_refl)).
  discriminate.
Defined.

(** X18. An exception that leaves the resolver is caught nowhere in the
    driver: the run ends with it, whatever rows follow, and no file is
    written. What the resolver has done to the patient by then stays done:
    nothing, or what began with the plan it added before the exception. *)
Theorem resolver_exception_ends_run `{Audit.OsPath} (script_file file_csv : string)
    (fuel : nat) (row : Driver.Row) (w : Driver.World) (calls : list Resolver.call)
    (e : exn) (rest : list (Driver.Row * Driver.World)) (s : Driver.State) :
  Driver.resolve_row row w = (calls, Raise e) →
  Driver.main_loop script_file file_csv fuel ((row, w) :: rest) s
  = Driver.Ended (Driver.Crash e) (Driver.add_events s (Driver.event_of_call <$> calls))
  ∧ (calls = []
     ∨ ∃ case, head calls = Some (Resolver.CallAddNewPlan case
                                    (Targets.str_cell (Driver.PlanName row)))).
Proof.
  intros Hload. split; [apply main_loop_crash; by apply main_row_raise |].
  destruct (load_calls_raise _ _ _ _ _ _ _ _ _ Hload) as [-> | [case ->]]; [by left |].
  right. by exists case.
Qed.

(** X19. A row whose entities resolve and whose beamset name begins a
    longer name that the plan lists first never leaves its name loop: the
    run does not end, with whatever bound on the loop. *)
Theorem name_loop_hangs_the_run `{Audit.OsPath} (script_file file_csv : string)
    (row : Driver.Row) (w : Driver.World) (patient_data : Resolver.PatientData)
    (case plan : Driver.handle) (first : string)
    (rest : list (Driver.Row * Driver.World)) (s : Driver.State) :
  Records.resolve row w = Ok patient_data →
  Resolver.Error patient_data = [] →
  Resolver.Case patient_data = Some case →
  Resolver.Plan patient_data = Some plan →
  head (Naming.QueryBeamSetInfo (Driver.beamsets w)
          (Targets.str_cell (Driver.BeamsetName row))) = Some first →
  Targets.CStr first ≠ Driver.BeamsetName row →
  ∀ fuel, Driver.main_loop script_file file_csv fuel ((row, w) :: rest) s = Driver.Hung.
Proof.
  intros Hload Herr Hcase Hplan Hhead Hne fuel. cbn.
  rewrite (main_row_spin script_file file_csv fuel row w patient_data case plan s
             Hload Herr Hcase Hplan); [done |].
  by eapply name_loop_spins.
Qed.

Lemma resolver_exception_ends_run_witness :
  Scenario.run_rows
    [(Scenario.row1, Scenario.world Cases.db_plan_lost "VMAT" [1; 2]);
     (Scenario.row2, Scenario.world Scenario.db_ok "VMAT" [1; 2])]
    Scenario.start
  = Driver.Ended (Driver.Crash KeyError)
      (Driver.add_events Scenario.start [Driver.AddNewPlan 20 "Plan1"]).
Proof.
  exact (proj1 (@resolver_exception_ends_run Audit.posix Scenario.script_file
                  Scenario.file_csv 10 Scenario.row1
                  (Scenario.world Cases.db_plan_lost "VMAT" [1; 2])
                  [Resolver.CallAddNewPlan 20 "Plan1"] KeyError _ Scenario.start eq_refl)).
Defined.

Lemma name_loop_hangs_the_run_witness :
  @Driver.main_loop Audit.posix Scenario.script_file Scenario.file_csv 1000
    [(Scenario.row1, Cases.world_longer_name)] Scenario.start
  = Driver.Hung.
Proof.
  refine (@name_loop_hangs_the_run Audit.posix Scenario.script_file Scenario.file_csv
            Scenario.row1 Cases.world_longer_name _ 20 40 "Tmplt_20Feb2020_v2" []
            Scenario.start eq_refl eq_refl eq_refl eq_refl eq_refl _ 1000).
  discriminate.
Defined.

(** X20. A row whose four names are text and whose patient query does not
    match exactly one record gets one audit record and the driver goes on:
    the record carries the four names of the row, [False] in all six flag
    columns and, for names of plain characters, the status column
    [['Patient <first> <last>, ID: <id> not found']], the error list as
    Python prints it. *)
Theorem patient_not_found_record `{Audit.OsPath} (script_file file_csv : string)
    (fuel : nat) (row : Driver.Row) (w : Driver.World)
    (patient_id case_name plan_name beamset_name : string)
    (rest : list (Driver.Row * Driver.World)) (s : Driver.State) :
  Driver.text_names row patient_id case_name plan_name beamset_name →
  length (Resolver.QueryPatientInfo (Driver.db w) (Driver.FirstName row)
            (Driver.LastName row) patient_id) ≠ 1 →
  Text.plain (Driver.FirstName row) = true →
  Text.plain (Driver.LastName row) = true →
  Text.plain patient_id = true →
  let record :=
    Driver.outcome patient_id case_name plan_name beamset_name false
      (Some [Resolver.patient_not_found (Driver.FirstName row) (Driver.LastName row)
               patient_id]) in
  Driver.main_loop script_file file_csv fuel ((row, w) :: rest) s
  = Driver.main_loop script_file file_csv fuel rest
      {| Driver.fs := Audit.output_status (Driver.fs s) file_csv record;
         Driver.beam := Driver.beam s;
         Driver.trace := Driver.trace s |}
  ∧ Audit.output_message record
    = String.concat Audit.SEP
        [patient_id; case_name; plan_name; beamset_name;
         "False"; "False"; "False"; "False"; "False"; "False";
         "['Patient " +:+ Driver.FirstName row +:+ " " +:+ Driver.LastName row +:+ ", ID: "
           +:+ patient_id +:+ " not found']"] +:+ NL.
Proof.
  intros Htext Hlen Hfirst Hlast Hid record. split.
  - apply main_loop_continue.
    assert (Hload : (Driver.resolve_row row w).2
            = Ok (Resolver.set_Error
                    [Resolver.patient_not_found (Driver.FirstName row) (Driver.LastName row)
                       patient_id]
                    {| Resolver.Error := []; Resolver.Case := None; Resolver.Patient := None;
                       Resolver.Exam := None; Resolver.Plan := None |})).
    { unfold Driver.resolve_row, Resolver.load_patient_data_calls.
      destruct Htext as (-> & _). cbn [Targets.str_cell Targets.value_of str_value].
      by destruct (Resolver.QueryPatientInfo _ _ _ _) as [|pi [|pi' l]]. }
    by apply (main_row_error_text script_file file_csv fuel row w _ _ _ _ _ s Hload).
  - unfold Audit.output_message, record. cbn [Driver.outcome Audit.script_status
      Audit.patient_id Audit.case_name Audit.plan_name Audit.beamset_name Audit.patient_load
      Audit.planning_structs Audit.beams_load Audit.clinical_goals_load
      Audit.plan_optimization_strategy_load Audit.optimization_complete Audit.str_status
      str_bool String.concat].
    unfold str_list. cbn [map String.concat]. rewrite repr_str_plain.
    + unfold Resolver.patient_not_found. by rewrite !append_assoc.
    + unfold Resolver.patient_not_found.
      repeat (apply plain_app; [done |]). reflexivity.
Qed.

Lemma patient_not_found_record_witness :
  Audit.output_message Scenario.record_b
  = String.concat Audit.SEP
      ["MR0002"; "Case 1"; "Plan2"; "Tmplt_21Feb2020";
       "False"; "False"; "False"; "False"; "False"; "False";
       "['Patient " +:+ "Bob" +:+ " " +:+ "Ray" +:+ ", ID: " +:+ "MR0002" +:+ " not found']"]
    +:+ NL.
Proof.
  refine (proj2 (@patient_not_found_record Audit.posix Scenario.script_file Scenario.file_csv
                   10 Scenario.row2 (Scenario.world Scenario.db_no_patient "VMAT" [1; 2])
                   "MR0002" "Case 1" "Plan2" "Tmplt_21Feb2020"
                   [] Scenario.start _ _ eq_refl eq_refl eq_refl)).
  - by repeat split.
  - discriminate.
Defined.

(** X22. The audit call of a row one of whose four names is no text (a
    patient ID written in digits only, an empty cell) raises [TypeError]:
    whether the resolver has reported an error for the row or the row has
    reached the dispatch with a technique that is not supported, the run
    ends there, whatever rows follow, and no record of the row is written.
    The output file has been opened by then: it holds the header when it
    was missing or empty, and is as it was otherwise. *)
Theorem name_not_text_ends_run `{Audit.OsPath} (script_file file_csv : string)
    (fuel : nat) (row : Driver.Row) (w : Driver.World)
    (rest : list (Driver.Row * Driver.World)) (s : Driver.State) :
  Driver.name_not_text row →
  let files := Audit.open_output (Driver.fs s) file_csv in
  (∀ patient_data,
     (Driver.resolve_row row w).2 = Ok patient_data →
     Resolver.Error patient_data ≠ [] →
     Driver.main_loop script_file file_csv fuel ((row, w) :: rest) s
     = Driver.Ended (Driver.Crash TypeError)
         {| Driver.fs := files; Driver.beam := Driver.beam s;
            Driver.trace := Driver.trace s |})
  ∧ (∀ defs rs_beam_set iso beams setup,
       Driver.ready script_file fuel row w defs rs_beam_set beams setup →
       Driver.find_isocenter_parameters w rs_beam_set (Driver.iso_target defs) = Ok iso →
       Driver.technique defs ≠ "TomoHelical" → Driver.technique defs ≠ "VMAT" →
       Driver.main_loop script_file file_csv fuel ((row, w) :: rest) s
       = Driver.Ended (Driver.Crash TypeError)
           {| Driver.fs := files; Driver.beam := Driver.beam s;
              Driver.trace := Driver.trace s ++ setup |})
  ∧ (Driver.fs s !! Audit.output_filename file_csv = None
     ∨ Driver.fs s !! Audit.output_filename file_csv = Some "" →
     files !! Audit.output_filename file_csv = Some Audit.header)
  ∧ (∀ content,
       Driver.fs s !! Audit.output_filename file_csv = Some content → content ≠ "" →
       files = Driver.fs s).
Proof.
  intros Hno files. split; [| split; [| split]].
  - intros patient_data Hload Herr. apply main_loop_crash.
    by eapply main_row_error_not_text.
  - intros defs rs_beam_set iso beams setup Hready Hiso Htomo Hvmat.
    apply main_loop_crash. by eapply main_row_unsupported_not_text.
  - apply open_output_fresh.
  - apply open_output_kept.
Qed.

Lemma name_not_text_ends_run_witness :
  Scenario.run_rows
    [(Cases.row_numeric_id, Scenario.world Scenario.db_no_patient "VMAT" [1; 2]);
     (Scenario.row2, Scenario.world Scenario.db_no_patient "VMAT" [1; 2])]
    Scenario.start
  = Driver.Ended (Driver.Crash TypeError)
      {| Driver.fs := @Audit.open_output Audit.posix ∅ Scenario.file_csv;
         Driver.beam := None; Driver.trace := [] |}.
Proof.
  refine (proj1 (@name_not_text_ends_run Audit.posix Scenario.script_file Scenario.file_csv
                   10 Cases.row_numeric_id (Scenario.world Scenario.db_no_patient "VMAT" [1; 2])
                   _ Scenario.start _) _ eq_refl _).
  - left. intros x. discriminate.
  - discriminate.
Defined.

(** The record that the row with the numeric ID would have got names the
    ID as the int reads. *)
Example numeric_id_message :
  (Driver.resolve_row Cases.row_numeric_id
     (Scenario.world Scenario.db_no_patient "VMAT" [1; 2])).2
  = Ok {| Resolver.Error := ["Patient Ann Lee, ID: 1 not found"];
          Resolver.Case := None; Resolver.Patient := None;
          Resolver.Exam := None; Resolver.Plan := None |}.
Proof. reflexivity. Qed.

(** ** The goal template script *)

Section GoalFacts.
Import GoalTemplates.
Variable w : World.
Variable plan : nat.
Hypothesis Hplan : get_current_plan w = Ok plan.

Lemma add_goals_app (finished rest : list roi) (trace : list event) :
  Forall (goal_ok w plan) finished →
  add_goals w (finished ++ rest)%list trace
  = add_goals w rest (trace ++ flat_map (goal_events w plan) finished)%list.
Proof.
  intros Hok. revert trace. induction Hok as [|g finished [[text Hprint] Hadd] Hok IH];
    intros trace; cbn [app flat_map add_goals].
  - by rewrite app_nil_r.
  - rewrite Hprint, Hplan, Hadd, IH. unfold goal_events at 2. rewrite Hprint.
    by rewrite <- !app_assoc.
Qed.

End GoalFacts.

(** X21. The script handles the goals of the protocol in document order,
    printing a line and then adding the goal. When every goal can be
    printed and added, all are added; when a goal fails, the script ends
    with its exception, the goals before it stay added (nothing is undone)
    and the goals after it are not touched. *)
Theorem goals_added_until_first_failure (w : GoalTemplates.World) (plan : nat)
    (goals : list GoalTemplates.roi) :
  GoalTemplates.parse_findall w = Ok goals →
  GoalTemplates.get_current_plan w = Ok plan →
  (Forall (GoalTemplates.goal_ok w plan) goals →
   GoalTemplates.script w = (flat_map (GoalTemplates.goal_events w plan) goals, Ok ()))
  ∧ (∀ finished g rest e,
       goals = (finished ++ g :: rest)%list →
       Forall (GoalTemplates.goal_ok w plan) finished →
       (GoalTemplates.print_goal w g = Raise e →
        GoalTemplates.script w
        = (flat_map (GoalTemplates.goal_events w plan) finished, Raise e))
       ∧ (∀ text,
            GoalTemplates.print_goal w g = Ok text →
            GoalTemplates.add_goal w g plan = Raise e →
            GoalTemplates.script w
            = ((flat_map (GoalTemplates.goal_events w plan) finished
               ++ [GoalTemplates.Print ("Adding goal " +:+ text);
                   GoalTemplates.AddGoal g plan])%list, Raise e))).
Proof.
  intros Hparse Hplan. unfold GoalTemplates.script. rewrite Hparse. split.
  - intros Hok. rewrite <- (app_nil_r goals) at 1.
    by rewrite (add_goals_app w plan Hplan goals [] [] Hok).
  - intros finished g rest e -> Hok.
    rewrite (add_goals_app w plan Hplan finished (g :: rest) [] Hok).
    cbn [GoalTemplates.add_goals app]. split.
    + by intros ->.
    + intros text -> Hadd. rewrite Hplan, Hadd. by rewrite <- app_assoc.
Qed.

Lemma goals_added_until_first_failure_witness :
  GoalTemplates.script Cases.three_goals
  = ([GoalTemplates.Print "Adding goal goal 1"; GoalTemplates.AddGoal 1 40;
      GoalTemplates.Print "Adding goal goal 2"; GoalTemplates.AddGoal 2 40],
     Raise RuntimeError).
Proof.
  refine (proj2 (proj2 (goals_added_until_first_failure Cases.three_goals 40 [1; 2; 3]
                          eq_refl eq_refl) [1] 2 [3] RuntimeError eq_refl _)
            "goal 2" eq_refl eq_refl).
  repeat constructor. by exists "goal 1".
Defined.
